(** * QuantSpace option pricing (QuantSpace/libs/qloptions.py)

    A shallow embedding of the option-pricing module of QuantSpace and of the
    helpers of qlutils.py it calls.  Python floats are IEEE 754 binary64
    numbers, modelled by Rocq's primitive floats.  QuantLib, NumPy, SciPy and
    the Python runtime are external collaborators: what they compute is taken
    from a record of functions ([Library]), what they store is modelled as
    data, and the exceptions they raise travel through an error monad. *)

From Stdlib Require Import ZArith String Ascii List Bool Floats Lia.
From stdpp Require Import base option list gmap strings.
Import ListNotations.

(* Decimal literals denote the nearest binary64 value, as in Python. *)
Set Warnings "-inexact-float".

Local Open Scope string_scope.
Local Open Scope list_scope.
Local Open Scope Z_scope.

(** ** Python values *)

(** [datetime.datetime]: the fields the module reads and the time of day it
    drops. *)
Record datetime := {
  dt_year : Z; dt_month : Z; dt_day : Z;
  dt_hour : Z; dt_minute : Z; dt_second : Z
}.

(** [str.upper] on ASCII text: a letter a-z moves to A-Z, every other
    character stays. *)
Definition upper_ascii (c : ascii) : ascii :=
  let n := nat_of_ascii c in
  if (Nat.leb 97 n && Nat.leb n 122)%bool then ascii_of_nat (n - 32) else c.

Fixpoint upper (s : string) : string :=
  match s with
  | EmptyString => EmptyString
  | String c rest => String (upper_ascii c) (upper rest)
  end.

(** Exceptions raised by the Python runtime and by the libraries. *)
Inductive Exn :=
| TypeError (msg : string)
| IndexError (msg : string)
| ValueError (msg : string)
| ZeroDivisionError
| OverflowError
| RuntimeError (msg : string).

Inductive Res (A : Type) :=
| Ok (a : A)
| Raise (e : Exn).
Arguments Ok {A} a.
Arguments Raise {A} e.

Definition is_ok {A} (r : Res A) : bool :=
  match r with Ok _ => true | Raise _ => false end.

(** ** QuantLib objects, as data *)

(** [ql.Date(day, month, year)]. *)
Record Date := { dayOfMonth : Z; month : Z; year : Z }.

Definition date_eqb (a b : Date) : bool :=
  (year a =? year b) && (month a =? month b) && (dayOfMonth a =? dayOfMonth b).

(** [a <= b] on dates: calendar order. *)
Definition date_leb (a b : Date) : bool :=
  (year a <? year b)
  || ((year a =? year b)
      && ((month a <? month b)
          || ((month a =? month b) && (dayOfMonth a <=? dayOfMonth b)))).

(** The day counters and calendars of qlutils.DAY_COUNTERS and
    qlutils.CALENDARS. *)
Inductive DayCounter :=
| SimpleDayCounter | Thirty360 | Actual360 | Actual365Fixed
| Actual365FixedCanadian | Actual365FixedNoLeap | ActualActual | Business252.

Inductive Calendar := UnitedKingdom | Germany | Italy | UnitedStates.

Inductive Compounding := Simple | Compounded | Continuous.

Inductive Frequency :=
| NoFrequency | Once | Annual | Semiannual | EveryFourthMonth | Quarterly
| Bimonthly | Monthly | EveryFourthWeek | Biweekly | Weekly | Daily.

(** Yield curves: the two kinds qlyield.py builds.  [ql.FlatForward(date,
    rate, day_counter)] leaves compounding and frequency at QuantLib's
    defaults, [Continuous] and [Annual]. *)
Inductive YieldTermStructure :=
| FlatForward (reference : Date) (rate : float) (dc : DayCounter)
              (comp : Compounding) (freq : Frequency)
| ForwardCurve (dates : list Date) (rates : list float) (dc : DayCounter)
               (cal : Calendar).

(** Volatility term structures: the two kinds qlvolsurface.py builds. *)
Inductive BlackVolTermStructure :=
| BlackConstantVol (reference : Date) (cal : Calendar) (vol : float)
                   (dc : DayCounter)
| BlackVarianceSurface (reference : Date) (cal : Calendar)
                       (expirations : list Date) (strikes : list float)
                       (matrix : list (list float)) (dc : DayCounter).

(** Handles and quotes only wrap what they hold. *)
Definition YieldTermStructureHandle (c : YieldTermStructure) := c.
Definition BlackVolTermStructureHandle (v : BlackVolTermStructure) := v.
Definition SimpleQuote (x : float) := x.
Definition QuoteHandle (x : float) := x.

Definition yts_dayCounter (c : YieldTermStructure) : DayCounter :=
  match c with
  | FlatForward _ _ dc _ _ => dc
  | ForwardCurve _ _ dc _ => dc
  end.

Definition vol_dayCounter (v : BlackVolTermStructure) : DayCounter :=
  match v with
  | BlackConstantVol _ _ _ dc => dc
  | BlackVarianceSurface _ _ _ _ _ dc => dc
  end.

Definition vol_calendar (v : BlackVolTermStructure) : Calendar :=
  match v with
  | BlackConstantVol _ cal _ _ => cal
  | BlackVarianceSurface _ cal _ _ _ _ => cal
  end.

(** [ql.BlackProcess(x0, riskFreeTS, blackVolTS)]. *)
Record BlackProcess := {
  x0 : float;
  riskFreeRate : YieldTermStructure;
  blackVolatility : BlackVolTermStructure
}.

Inductive OptionType := Call | Put.

Record PlainVanillaPayoff := { payoff_type : OptionType; payoff_strike : float }.

Inductive Exercise :=
| AmericanExercise (earliest latest : Date)
| EuropeanExercise (expiry : Date).

Inductive Engine :=
| BinomialCRRVanillaEngine (process : BlackProcess) (steps : Z)
| AnalyticEuropeanEngine (process : BlackProcess).

(** An option instrument: its contract and the pricing engine currently
    attached to it ([None] until [setPricingEngine] is called). *)
Record VanillaOption := {
  opt_payoff : PlainVanillaPayoff;
  opt_exercise : Exercise;
  opt_engine : option Engine
}.

Inductive Greek := G_NPV | G_delta | G_gamma | G_theta | G_vega | G_rho.

(** [ql.StochasticProcessArray(processes, correlation)] and the generator
    built on it. *)
Record StochasticProcessArray := {
  spa_processes : list BlackProcess;
  spa_correlation : list (list float)
}.

Record GaussianMultiPathGenerator := {
  gen_process : StochasticProcessArray;
  gen_times : list float;
  gen_dimension : Z;
  gen_brownian_bridge : bool;
  gen_state : Z
}.

(** Objects whose QuantLib constructor checks its arguments and may refuse
    them. *)
Inductive Checked :=
| ChkExercise (x : Exercise)
| ChkEngine (e : Engine)
| ChkProcessArray (a : StochasticProcessArray)
| ChkTimeGrid (horizon : float) (steps : Z)
| ChkPathGenerator (g : GaussianMultiPathGenerator).

(** ** The external libraries

    Everything numerical that happens outside the repository.  A QuantLib
    call that can fail returns a [Res]: QuantLib's errors reach Python as
    [RuntimeError]. *)
Record Library := {
  (** [np.exp] *)
  np_exp : float -> float;
  (** [scipy.stats.norm.ppf] *)
  norm_ppf : float -> float;
  (** [float ** int] of the Python runtime *)
  py_pow : float -> Z -> Res float;
  (** [np.add.reduce], the sum behind [np.mean] *)
  np_add_reduce : list float -> float;
  (** argument checks of QuantLib's constructors: [None] accepts *)
  ql_require : Checked -> option string;
  (** [ts.blackVol(date, strike)] and [ts.blackVol(time, strike)] *)
  ql_blackVol : BlackVolTermStructure -> Date -> float -> Res float;
  ql_blackVol_t : BlackVolTermStructure -> float -> float -> Res float;
  (** [ts.zeroRate(date, dc, compounding, frequency).rate()] *)
  ql_zeroRate : YieldTermStructure -> Date -> DayCounter -> Compounding ->
                Frequency -> Res float;
  (** [dc.yearFraction(d1, d2)] *)
  ql_yearFraction : DayCounter -> Date -> Date -> float;
  (** what an engine computes for a contract, on a given evaluation date *)
  ql_calculate : Greek -> Date -> Engine -> PlainVanillaPayoff -> Exercise ->
                 Res float;
  (** [list(ql.TimeGrid(end, steps))] *)
  ql_time_grid : float -> Z -> list float;
  (** [generator.next().value()]: the next multi-path (one list of values
      per asset) and the generator's new state *)
  ql_next_path : GaussianMultiPathGenerator -> Res (list (list float) * Z)
}.

(** ** The process state and the monad of the module's functions *)

(** The pricing processes the module builds and the valuations it requests
    from an engine.  QuantLib keeps no such record: it is an observer of the
    model, which lets a statement speak of what a call has built and asked
    for by the time it returns or fails. *)
Inductive Event :=
| EvBlackProcess (p : BlackProcess)
| EvCalculate (g : Greek) (today : Date) (e : Engine)
              (p : PlainVanillaPayoff) (x : Exercise).

Record World := {
  (** [ql.Settings.instance().evaluationDate] *)
  evaluationDate : Date;
  (** the option objects alive, by reference *)
  instruments : list VanillaOption;
  (** the clock value an unseeded random generator seeds itself from *)
  clock : Z;
  (** pricing processes built and engine calculations requested, newest
      first *)
  trace : list Event
}.

Definition M (A : Type) : Type := World -> Res A * World.

Definition ret {A} (a : A) : M A := fun w => (Ok a, w).

Definition bind {A B} (m : M A) (k : A -> M B) : M B :=
  fun w => match m w with
           | (Ok a, w') => k a w'
           | (Raise e, w') => (Raise e, w')
           end.

Definition raise {A} (e : Exn) : M A := fun w => (Raise e, w).

Definition lift {A} (r : Res A) : M A := fun w => (r, w).

Declare Scope py_scope.
Delimit Scope py_scope with py.
Notation "x <- m ;; k" := (bind m (fun x => k))
  (at level 100, m at next level, right associativity) : py_scope.
Notation "m ;;; k" := (bind m (fun _ => k))
  (at level 100, right associativity) : py_scope.
Local Open Scope py_scope.

Definition log (ev : Event) : M unit :=
  fun w => (Ok tt, {| evaluationDate := evaluationDate w;
                      instruments := instruments w;
                      clock := clock w;
                      trace := ev :: trace w |}).

(** [ql.Settings.instance().evaluationDate = d] *)
Definition set_evaluationDate (d : Date) : M unit :=
  fun w => (Ok tt, {| evaluationDate := d;
                      instruments := instruments w;
                      clock := clock w;
                      trace := trace w |}).

Definition get_evaluationDate : M Date := fun w => (Ok (evaluationDate w), w).

Definition with_instruments (w : World) (l : list VanillaOption) : World :=
  {| evaluationDate := evaluationDate w; instruments := l;
     clock := clock w; trace := trace w |}.

(** ** pandas frames and NumPy arrays *)

(** A frame: row labels, column labels, and the cells row by row. *)
Record DataFrame := {
  index : list string;
  columns : list string;
  values : list (list float)
}.

Definition all_width (n : nat) (rows : list (list float)) : bool :=
  forallb (fun row => Nat.eqb (length row) n) rows.

(** [pd.DataFrame([x1, ..., xn], columns=[c], index=[...])]: one column. *)
Definition DataFrame_of_list (data : list float) (cols idx : list string)
  : M DataFrame :=
  if (Nat.eqb (length cols) 1 && Nat.eqb (length data) (length idx))%bool
  then ret {| index := idx; columns := cols;
              values := map (fun x => [x]) data |}
  else raise (ValueError "Shape of passed values does not match the labels").

(** [pd.DataFrame(array2d, columns=[...], index=[...])]. *)
Definition DataFrame_of_array (data : list (list float))
  (cols idx : list string) : M DataFrame :=
  if (Nat.eqb (length data) (length idx) && all_width (length cols) data)%bool
  then ret {| index := idx; columns := cols; values := data |}
  else raise (ValueError "Shape of passed values does not match the labels").

(** [frame.columns = cols] *)
Definition set_columns (f : DataFrame) (cols : list string) : M DataFrame :=
  if Nat.eqb (length cols) (length (columns f))
  then ret {| index := index f; columns := cols; values := values f |}
  else raise (ValueError "Length mismatch").

(** [l[-1]] *)
Definition getitem_last {A} (l : list A) : M A :=
  match last l with
  | Some x => ret x
  | None => raise (IndexError "index -1 is out of bounds")
  end.

(** Element-wise arithmetic of NumPy on arrays of one shape, the only case
    the module meets. *)
Definition np_sub (a b : list (list float)) : list (list float) :=
  zip_with (zip_with PrimFloat.sub) a b.

Definition np_add (a b : list (list float)) : list (list float) :=
  zip_with (zip_with PrimFloat.add) a b.

Definition np_scale (k : float) (a : list (list float)) : list (list float) :=
  map (map (PrimFloat.mul k)) a.

Definition np_sub1 (a b : list float) : list float := zip_with PrimFloat.sub a b.

(** [np.clip(x, a_min=0, a_max=None)] on one element: [x] when it is above
    zero, a NaN staying a NaN, and the bound, positive zero, for everything
    else, negative zero included. *)
Definition clip_min0 (x : float) : float :=
  if (0 <? x)%float then x else if is_nan x then x else 0%float.

(** The position of a label, the first when it repeats. *)
Fixpoint index_of (lbl : string) (l : list string) : option nat :=
  match l with
  | [] => None
  | x :: rest => if String.eqb x lbl then Some 0%nat
                 else option_map S (index_of lbl rest)
  end.

Definition mem_label (lbl : string) (l : list string) : bool :=
  match index_of lbl l with Some _ => true | None => false end.

(** The labels of several axes in order of first appearance. *)
Definition union_labels (axes : list (list string)) : list string :=
  fold_left
    (fun acc l =>
       fold_left (fun acc' x => if mem_label x acc' then acc' else acc' ++ [x])
                 l acc)
    axes [].

(** The row a frame holds under a label, NaN where it holds none. *)
Definition row_of (f : DataFrame) (lbl : string) : list float :=
  match index_of lbl (index f) with
  | Some i => nth i (values f) (repeat nan (length (columns f)))
  | None => repeat nan (length (columns f))
  end.

(** A row of a frame laid out along other column labels. *)
Definition realign (f : DataFrame) (cols : list string) (row : list float)
  : list float :=
  map (fun c => match index_of c (columns f) with
                | Some j => nth j row nan
                | None => nan
                end) cols.

(** [pd.concat(frames, axis=1)]: the columns side by side, rows matched by
    label. *)
Definition concat_axis1 (frames : list DataFrame) : DataFrame :=
  let idx := union_labels (map index frames) in
  {| index := idx;
     columns := concat (map columns frames);
     values := map (fun lbl => concat (map (fun f => row_of f lbl) frames)) idx |}.

(** [pd.concat(frames, axis=0)]: the rows one frame after the other, columns
    matched by label. *)
Definition concat_axis0 (frames : list DataFrame) : DataFrame :=
  let cols := union_labels (map columns frames) in
  {| index := concat (map index frames);
     columns := cols;
     values := concat (map (fun f => map (realign f cols) (values f)) frames) |}.

(** The row labels of every pricing result. *)
Definition greek_index : list string :=
  ["price"; "delta"; "gamma"; "theta"; "vega"; "rho"].

(** ** Python and NumPy built-ins *)

(** [int(steps)]: [None] is what [comdty_vanilla_option_delta] passes. *)
Definition py_int (v : option Z) : M Z :=
  match v with
  | Some n => ret n
  | None => raise (TypeError "int() argument must be a number, not 'NoneType'")
  end.

(** [a / b] on Python floats. *)
Definition py_div (a b : float) : Res float :=
  if (b =? 0)%float then Raise ZeroDivisionError else Ok (a / b)%float.

Definition py_truediv (a b : float) : M float := lift (py_div a b).

(** [l[i]] *)
Definition getitem {A} (l : list A) (i : nat) : M A :=
  match l !! i with
  | Some x => ret x
  | None => raise (IndexError "index out of range")
  end.

(** [np.min([a, b])] on two dates. *)
Definition np_min_date (a b : Date) : Date := if date_leb a b then a else b.

(** [float(n)] for a count. *)
Definition float_of_nat (n : nat) : float :=
  PrimFloat.of_uint63 (Uint63.of_Z (Z.of_nat n)).

(** ** qlutils.py *)

(** [ql.Date(date.day, date.month, date.year)] for a year QuantLib accepts,
    1901 to 2199.  Outside these years the constructor raises; this function
    does not cover that case, and the statements that depend on it name the
    range as a hypothesis. *)
Definition py_to_ql_date (date : datetime) : Date :=
  {| dayOfMonth := dt_day date; month := dt_month date; year := dt_year date |}.

(** ** qloptions.py *)

Section Pricing.

Variable lib : Library.

(** *** QuantLib calls *)

Definition require (c : Checked) : M unit :=
  match ql_require lib c with
  | None => ret tt
  | Some msg => raise (RuntimeError msg)
  end.

Definition new_BlackProcess (x : float) (c : YieldTermStructure)
  (v : BlackVolTermStructure) : M BlackProcess :=
  let p := {| x0 := x; riskFreeRate := c; blackVolatility := v |} in
  log (EvBlackProcess p) ;;; ret p.

Definition new_AmericanExercise (earliest latest : Date) : M Exercise :=
  require (ChkExercise (AmericanExercise earliest latest)) ;;;
  ret (AmericanExercise earliest latest).

(** [ql.BinomialCRRVanillaEngine(process, steps)].  The refusal of a step
    count is [ql_require]'s verdict and raises RuntimeError, as QuantLib does
    for a count below two; the Python wrapper refuses a negative count
    itself, with OverflowError, which this function does not tell apart. *)
Definition new_BinomialCRRVanillaEngine (p : BlackProcess) (n : Z) : M Engine :=
  require (ChkEngine (BinomialCRRVanillaEngine p n)) ;;;
  ret (BinomialCRRVanillaEngine p n).

(** [ql.VanillaOption(payoff, exercise)] and [ql.EuropeanOption(payoff,
    exercise)]: a new instrument without an engine; the result is the
    reference to it. *)
Definition new_VanillaOption (payoff : PlainVanillaPayoff) (x : Exercise)
  : M nat :=
  fun w =>
    (Ok (length (instruments w)),
     with_instruments w
       (instruments w ++
        [{| opt_payoff := payoff; opt_exercise := x; opt_engine := None |}])).

(** [option.setPricingEngine(engine)]: the instrument keeps its contract and
    forgets the engine it had. *)
Definition attach (o : VanillaOption) (e : Engine) : VanillaOption :=
  {| opt_payoff := opt_payoff o; opt_exercise := opt_exercise o;
     opt_engine := Some e |}.

Definition setPricingEngine (opt : nat) (e : Engine) : M unit :=
  fun w =>
    match instruments w !! opt with
    | Some o => (Ok tt, with_instruments w (<[opt := attach o e]> (instruments w)))
    | None => (Raise (RuntimeError "no such instrument"), w)
    end.

(** [option.NPV()], [option.delta()], ...: the engine attached to the
    instrument at the time of the call values the contract. *)
Definition calculate (g : Greek) (opt : nat) : M float :=
  fun w =>
    match instruments w !! opt with
    | Some o =>
        match opt_engine o with
        | Some e =>
            (log (EvCalculate g (evaluationDate w) e (opt_payoff o)
                    (opt_exercise o)) ;;;
             lift (ql_calculate lib g (evaluationDate w) e (opt_payoff o)
                     (opt_exercise o))) w
        | None => (Raise (RuntimeError "null pricing engine"), w)
        end
    | None => (Raise (RuntimeError "no such instrument"), w)
    end.

Definition NPV := calculate G_NPV.
Definition delta := calculate G_delta.
Definition gamma := calculate G_gamma.
Definition theta := calculate G_theta.
Definition vega := calculate G_vega.
Definition rho := calculate G_rho.

(** [np.mean]: the reduced sum over the number of elements. *)
Definition np_mean (l : list float) : float :=
  (np_add_reduce lib l / float_of_nat (length l))%float.

(** *** The module's functions *)

(** [estimate_vega]; [bump] is [None] when the caller leaves it out. *)
Definition estimate_vega (opt : nat) (process : BlackProcess)
  (volatility : BlackVolTermStructure) (strike_price : float)
  (expiry_date : Date) (steps : option Z) (bump : option float) : M float :=
  let bump := default 0.01%float bump in
  evaluation_date <- get_evaluationDate ;;
  vol_up <- lift (ql_blackVol lib volatility expiry_date strike_price) ;;
  let bumped_vol_up :=
    BlackVolTermStructureHandle
      (BlackConstantVol evaluation_date (vol_calendar volatility)
         (vol_up + bump)%float (vol_dayCounter volatility)) in
  process_up <- new_BlackProcess (QuoteHandle (SimpleQuote (x0 process)))
                  (riskFreeRate process) bumped_vol_up ;;
  n_up <- py_int steps ;;
  engine_up <- new_BinomialCRRVanillaEngine process_up n_up ;;
  setPricingEngine opt engine_up ;;;
  price_up <- NPV opt ;;
  vol_down <- lift (ql_blackVol lib volatility expiry_date strike_price) ;;
  let bumped_vol_down :=
    BlackVolTermStructureHandle
      (BlackConstantVol evaluation_date (vol_calendar volatility)
         (vol_down - bump)%float (vol_dayCounter volatility)) in
  process_down <- new_BlackProcess (QuoteHandle (SimpleQuote (x0 process)))
                    (riskFreeRate process) bumped_vol_down ;;
  n_down <- py_int steps ;;
  engine_down <- new_BinomialCRRVanillaEngine process_down n_down ;;
  setPricingEngine opt engine_down ;;;
  price_down <- NPV opt ;;
  py_truediv (price_up - price_down)%float (2 * bump)%float.

(** [estimate_rho]; [bump] is [None] when the caller leaves it out. *)
Definition estimate_rho (opt : nat) (process : BlackProcess)
  (yield_curve : YieldTermStructure) (volatility : BlackVolTermStructure)
  (expiry_date : Date) (steps : option Z) (bump : option float) : M float :=
  let bump := default 0.001%float bump in
  evaluation_date <- get_evaluationDate ;;
  base_rate <- lift (ql_zeroRate lib yield_curve expiry_date
                       (yts_dayCounter yield_curve) Continuous Annual) ;;
  let bumped_yield_up :=
    FlatForward evaluation_date (base_rate + bump)%float
      (yts_dayCounter yield_curve) Continuous Annual in
  process_up <- new_BlackProcess (QuoteHandle (SimpleQuote (x0 process)))
                  (YieldTermStructureHandle bumped_yield_up) volatility ;;
  n_up <- py_int steps ;;
  engine_up <- new_BinomialCRRVanillaEngine process_up n_up ;;
  setPricingEngine opt engine_up ;;;
  price_up <- NPV opt ;;
  let bumped_yield_down :=
    FlatForward evaluation_date (base_rate - bump)%float
      (yts_dayCounter yield_curve) Continuous Annual in
  process_down <- new_BlackProcess (QuoteHandle (SimpleQuote (x0 process)))
                    (YieldTermStructureHandle bumped_yield_down) volatility ;;
  n_down <- py_int steps ;;
  engine_down <- new_BinomialCRRVanillaEngine process_down n_down ;;
  setPricingEngine opt engine_down ;;;
  price_down <- NPV opt ;;
  py_truediv (price_up - price_down)%float (2 * bump)%float.

Definition comdty_vanilla_option (evaluation_date expiry_date : datetime)
  (forward_price strike_price : float) (option_type exercise_type : string)
  (steps : option Z) (volatility : BlackVolTermStructure)
  (yield_curve : YieldTermStructure) : M DataFrame :=
  set_evaluationDate (py_to_ql_date evaluation_date) ;;;
  let expiry_date := py_to_ql_date expiry_date in
  let volatility := BlackVolTermStructureHandle volatility in
  let yield_curve := YieldTermStructureHandle yield_curve in
  let option_type_ql :=
    if String.eqb (upper option_type) "CALL" then Call else Put in
  process <- new_BlackProcess (QuoteHandle (SimpleQuote forward_price))
               yield_curve volatility ;;
  let payoff :=
    {| payoff_type := option_type_ql; payoff_strike := strike_price |} in
  priced <-
    (if String.eqb (upper exercise_type) "AMERICAN" then
       exercise <- new_AmericanExercise (py_to_ql_date evaluation_date)
                     expiry_date ;;
       n <- py_int steps ;;
       engine <- new_BinomialCRRVanillaEngine process n ;;
       opt <- new_VanillaOption payoff exercise ;;
       setPricingEngine opt engine ;;;
       option_vega <- estimate_vega opt process volatility strike_price
                        expiry_date steps None ;;
       option_rho <- estimate_rho opt process yield_curve volatility
                       expiry_date steps None ;;
       ret (opt, option_vega, option_rho)
     else
       let engine := AnalyticEuropeanEngine process in
       opt <- new_VanillaOption payoff (EuropeanExercise expiry_date) ;;
       setPricingEngine opt engine ;;;
       option_vega <- vega opt ;;
       option_rho <- rho opt ;;
       ret (opt, option_vega, option_rho)) ;;
  let '(opt, option_vega, option_rho) := priced in
  v_price <- NPV opt ;;
  v_delta <- delta opt ;;
  v_gamma <- gamma opt ;;
  v_theta <- theta opt ;;
  DataFrame_of_list
    [v_price; v_delta; v_gamma; v_theta; option_vega; option_rho]
    [option_type] greek_index.

Definition comdty_vanilla_option_delta (evaluation_date expiry_date : datetime)
  (forward_price delta_target : float) (option_type : string)
  (volatility : BlackVolTermStructure) (yield_curve : YieldTermStructure)
  : M DataFrame :=
  let expiry_date_ql := py_to_ql_date expiry_date in
  let evaluation_date_ql := py_to_ql_date evaluation_date in
  let day_counter := yts_dayCounter yield_curve in
  let years_to_maturity :=
    ql_yearFraction lib day_counter evaluation_date_ql expiry_date_ql in
  riskfree_rate <- lift (ql_zeroRate lib yield_curve expiry_date_ql day_counter
                           Continuous Annual) ;;
  volatility_atm <- lift (ql_blackVol_t lib volatility years_to_maturity
                            forward_price) ;;
  let d1 :=
    if String.eqb (upper option_type) "CALL" then
      norm_ppf lib
        (delta_target * np_exp lib (riskfree_rate * years_to_maturity))%float
    else
      norm_ppf lib
        (delta_target * np_exp lib (riskfree_rate * years_to_maturity) + 1)%float
  in
  vol_squared <- lift (py_pow lib volatility_atm 2) ;;
  let strike_price :=
    (forward_price /
     np_exp lib (volatility_atm * PrimFloat.sqrt years_to_maturity * d1
                 - (0.5 * vol_squared) * years_to_maturity))%float in
  option_frame <- comdty_vanilla_option evaluation_date expiry_date
                    forward_price strike_price option_type "EUROPEAN" None
                    volatility yield_curve ;;
  strike_frame <- DataFrame_of_list
                    [d1; riskfree_rate; volatility_atm; years_to_maturity;
                     strike_price]
                    [option_type]
                    ["d1"; "riskfree_rate"; "volatility_atm";
                     "years_to_maturity"; "strike_price"] ;;
  ret (concat_axis0 [option_frame; strike_frame]).

Definition comdty_vanilla_option_spread (evaluation_date expiry_date : datetime)
  (forward_price strike_price_long strike_price_short : float)
  (option_type exercise_type : string) (steps : option Z)
  (volatility : BlackVolTermStructure) (yield_curve : YieldTermStructure)
  : M DataFrame :=
  option_price_long <- comdty_vanilla_option evaluation_date expiry_date
                         forward_price strike_price_long option_type
                         exercise_type steps volatility yield_curve ;;
  option_price_short <- comdty_vanilla_option evaluation_date expiry_date
                          forward_price strike_price_short option_type
                          exercise_type steps volatility yield_curve ;;
  long_label <- getitem (columns option_price_long) 0 ;;
  option_price_long <- set_columns option_price_long [(long_label ++ "_LONG")%string] ;;
  short_label <- getitem (columns option_price_short) 0 ;;
  option_price_short <- set_columns option_price_short
                          [(short_label ++ "_SHORT")%string] ;;
  structure <- DataFrame_of_array
                 (np_sub (values option_price_long) (values option_price_short))
                 [(option_type ++ "_SPREAD")%string] greek_index ;;
  ret (concat_axis1 [option_price_long; option_price_short; structure]).

Definition comdty_vanilla_option_collar (evaluation_date expiry_date : datetime)
  (forward_price strike_price_call_short strike_price_put_long : float)
  (exercise_type : string) (steps : option Z)
  (volatility : BlackVolTermStructure) (yield_curve : YieldTermStructure)
  : M DataFrame :=
  call_price <- comdty_vanilla_option evaluation_date expiry_date forward_price
                  strike_price_call_short "CALL" exercise_type steps volatility
                  yield_curve ;;
  put_price <- comdty_vanilla_option evaluation_date expiry_date forward_price
                 strike_price_put_long "PUT" exercise_type steps volatility
                 yield_curve ;;
  structure <- DataFrame_of_array
                 (np_sub (values put_price) (values call_price))
                 ["COLLAR"] greek_index ;;
  ret (concat_axis1 [call_price; put_price; structure]).

Definition comdty_vanilla_option_butterfly
  (evaluation_date expiry_date : datetime)
  (forward_price strike_price_low_long strike_price_middle_short
     strike_price_high_long : float)
  (option_type exercise_type : string) (steps : option Z)
  (volatility : BlackVolTermStructure) (yield_curve : YieldTermStructure)
  : M DataFrame :=
  option_price_low <- comdty_vanilla_option evaluation_date expiry_date
                        forward_price strike_price_low_long option_type
                        exercise_type steps volatility yield_curve ;;
  option_price_middle <- comdty_vanilla_option evaluation_date expiry_date
                           forward_price strike_price_middle_short option_type
                           exercise_type steps volatility yield_curve ;;
  option_price_high <- comdty_vanilla_option evaluation_date expiry_date
                         forward_price strike_price_high_long option_type
                         exercise_type steps volatility yield_curve ;;
  low_label <- getitem (columns option_price_low) 0 ;;
  option_price_low <- set_columns option_price_low [(low_label ++ "_LOW")%string] ;;
  middle_label <- getitem (columns option_price_middle) 0 ;;
  option_price_middle <- set_columns option_price_middle
                           [(middle_label ++ "_MIDDLE")%string] ;;
  high_label <- getitem (columns option_price_high) 0 ;;
  option_price_high <- set_columns option_price_high [(high_label ++ "_HIGH")%string] ;;
  structure <- DataFrame_of_array
                 (np_add
                    (np_sub (values option_price_low)
                       (np_scale 2 (values option_price_middle)))
                    (values option_price_high))
                 [(option_type ++ "_BUTTERFLY")%string] greek_index ;;
  ret (concat_axis1
         [option_price_low; option_price_middle; option_price_high; structure]).

(** The loop of [comdty_vanilla_option_calendar_spread]: one multi-path per
    round, its two terminal values appended to the two lists. *)
Fixpoint draw_terminals (rounds : nat) (generator : GaussianMultiPathGenerator)
  (contract_long contract_short : list float) : M (list float * list float) :=
  match rounds with
  | O => ret (contract_long, contract_short)
  | S rounds' =>
      drawn <- lift (ql_next_path lib generator) ;;
      let '(generated_path, state') := drawn in
      path_long <- getitem generated_path 0 ;;
      terminal_long <- getitem_last path_long ;;
      path_short <- getitem generated_path 1 ;;
      terminal_short <- getitem_last path_short ;;
      draw_terminals rounds'
        {| gen_process := gen_process generator;
           gen_times := gen_times generator;
           gen_dimension := gen_dimension generator;
           gen_brownian_bridge := gen_brownian_bridge generator;
           gen_state := state' |}
        (contract_long ++ [terminal_long]) (contract_short ++ [terminal_short])
  end.

Definition get_clock : M Z := fun w => (Ok (clock w), w).

Definition calendar_spread_index : list string :=
  ["price"; "payoff"; "risk_free_rate_long"; "risk_free_rate_short";
   "volatility_long"; "volatility_short"].

Definition comdty_vanilla_option_calendar_spread
  (evaluation_date expiry_date_long expiry_date_short : datetime)
  (forward_price strike_price : float) (option_type : string)
  (correlation : float) (volatility : BlackVolTermStructure)
  (yield_curve : YieldTermStructure) (paths : Z) : M DataFrame :=
  let evaluation_date := py_to_ql_date evaluation_date in
  set_evaluationDate evaluation_date ;;;
  let expiry_date_long := py_to_ql_date expiry_date_long in
  let expiry_date_short := py_to_ql_date expiry_date_short in
  let volatility := BlackVolTermStructureHandle volatility in
  let yield_curve := YieldTermStructureHandle yield_curve in
  let correlation_matrix :=
    [[1%float; correlation]; [correlation; 1%float]] in
  volatility_long <- lift (ql_blackVol lib volatility expiry_date_long
                             forward_price) ;;
  volatility_short <- lift (ql_blackVol lib volatility expiry_date_short
                              forward_price) ;;
  let volatility_term_structure_long :=
    BlackVolTermStructureHandle
      (BlackConstantVol evaluation_date (vol_calendar volatility)
         volatility_long (vol_dayCounter volatility)) in
  let volatility_term_structure_short :=
    BlackVolTermStructureHandle
      (BlackConstantVol evaluation_date (vol_calendar volatility)
         volatility_short (vol_dayCounter volatility)) in
  riskfree_rate_long <- lift (ql_zeroRate lib yield_curve expiry_date_long
                                (yts_dayCounter yield_curve) Continuous
                                NoFrequency) ;;
  riskfree_rate_short <- lift (ql_zeroRate lib yield_curve expiry_date_short
                                 (yts_dayCounter yield_curve) Continuous
                                 NoFrequency) ;;
  let riskfree_rate_term_structure_long :=
    YieldTermStructureHandle
      (FlatForward evaluation_date riskfree_rate_long
         (yts_dayCounter yield_curve) Continuous Annual) in
  let riskfree_rate_term_structure_short :=
    YieldTermStructureHandle
      (FlatForward evaluation_date riskfree_rate_short
         (yts_dayCounter yield_curve) Continuous Annual) in
  process_long <- new_BlackProcess (QuoteHandle (SimpleQuote forward_price))
                    riskfree_rate_term_structure_long
                    volatility_term_structure_long ;;
  process_short <- new_BlackProcess (QuoteHandle (SimpleQuote forward_price))
                     riskfree_rate_term_structure_short
                     volatility_term_structure_short ;;
  let process_array :=
    {| spa_processes := [process_long; process_short];
       spa_correlation := correlation_matrix |} in
  require (ChkProcessArray process_array) ;;;
  let num_steps := 365 in
  let day_counter := yts_dayCounter yield_curve in
  let expiry_date_min := np_min_date expiry_date_long expiry_date_short in
  let risk_free_rate :=
    if date_eqb expiry_date_min expiry_date_long then riskfree_rate_long
    else riskfree_rate_short in
  let years_to_maturity :=
    ql_yearFraction lib day_counter evaluation_date expiry_date_min in
  require (ChkTimeGrid years_to_maturity num_steps) ;;;
  let time_grid := ql_time_grid lib years_to_maturity num_steps in
  seed <- get_clock ;;
  let gaussian_path_generator :=
    {| gen_process := process_array;
       gen_times := time_grid;
       gen_dimension := 2 * num_steps;
       gen_brownian_bridge := false;
       gen_state := seed |} in
  require (ChkPathGenerator gaussian_path_generator) ;;;
  drawn <- draw_terminals (Z.to_nat paths) gaussian_path_generator [] [] ;;
  let '(contract_long, contract_short) := drawn in
  let spread := np_sub1 contract_long contract_short in
  let payoff :=
    if String.eqb (upper option_type) "CALL" then
      np_mean (map clip_min0 (map (fun s => s - strike_price)%float spread))
    else
      np_mean (map clip_min0 (map (fun s => strike_price - s)%float spread)) in
  let discount_factor :=
    np_exp lib (- risk_free_rate * years_to_maturity)%float in
  let price := (payoff * discount_factor)%float in
  DataFrame_of_list
    [price; payoff; riskfree_rate_long; riskfree_rate_short; volatility_long;
     volatility_short]
    [option_type] calendar_spread_index.

End Pricing.

(** ** The adapter modules: qlutils.py, qlmisc.py, qlvolsurface.py, qlyield.py

    These functions turn names into QuantLib enumerations through the
    dictionaries of qlutils.py and build curves and surfaces.  They read no
    process state.  A dictionary lookup that misses raises [KeyError]. *)

Inductive BusinessDayConvention :=
| Unadjusted | Following | ModifiedFollowing | Preceding | ModifiedPreceding.

Inductive DateGenerationRule :=
| DateGeneration_Backward | DateGeneration_Forward | DateGeneration_Zero
| DateGeneration_ThirdWednesday | DateGeneration_Twentieth
| DateGeneration_TwentiethIMM | DateGeneration_CDS.

(** The exceptions of the adapters: [KeyError] beside the ones above. *)
Inductive Exc :=
| KeyError (key : string)
| Raised (e : Exn).

Inductive Outcome (A : Type) :=
| Returns (a : A)
| Raises (e : Exc).
Arguments Returns {A} a.
Arguments Raises {A} e.

Definition obind {A B} (m : Outcome A) (k : A -> Outcome B) : Outcome B :=
  match m with
  | Returns a => k a
  | Raises e => Raises e
  end.

Definition of_res {A} (r : Res A) : Outcome A :=
  match r with
  | Ok a => Returns a
  | Raise e => Raises (Raised e)
  end.

Declare Scope out_scope.
Delimit Scope out_scope with out.
Notation "x <~ m ;; k" := (obind m (fun x => k))
  (at level 100, m at next level, right associativity) : out_scope.
Local Open Scope out_scope.

(** [d[key]] *)
Definition dict_get {V} (d : gmap string V) (key : string) : Outcome V :=
  match d !! key with
  | Some v => Returns v
  | None => Raises (KeyError key)
  end.

Definition DAY_COUNTERS : gmap string DayCounter :=
  list_to_map
    [("SIMPLE", SimpleDayCounter); ("30/360", Thirty360);
     ("ACT/360", Actual360); ("ACT/365Fixed", Actual365Fixed);
     ("ACT/365FixedCAD", Actual365FixedCanadian);
     ("ACT/365FixedNoLeap", Actual365FixedNoLeap);
     ("ACT/ACT", ActualActual); ("BUS/252", Business252)].

Definition CALENDARS : gmap string Calendar :=
  list_to_map
    [("UK", UnitedKingdom); ("GR", Germany); ("IT", Italy);
     ("US", UnitedStates)].

Definition WEEKDAY_CORRECTION : gmap string BusinessDayConvention :=
  list_to_map
    [("UNADJUSTED", Unadjusted); ("FOLLOWING", Following);
     ("MOD_FOLLOWING", ModifiedFollowing); ("PRECEDING", Preceding);
     ("MOD_PRECEDING", ModifiedPreceding)].

Definition COMPOUNDING : gmap string Compounding :=
  list_to_map
    [("SIMPLE", Simple); ("COMPOUNDED", Compounded);
     ("CONTINUOUS", Continuous)].

Definition FREQUENCIES : gmap string Frequency :=
  list_to_map
    [("NOFREQUENCY", NoFrequency); ("ONCE", Once); ("ANNUAL", Annual);
     ("SEMIANNUAL", Semiannual); ("EVERYFOURTHMONTH", EveryFourthMonth);
     ("QUARTERLY", Quarterly); ("BIMONTHLY", Bimonthly); ("MONTHLY", Monthly);
     ("EVERYFOURTHWEEK", EveryFourthWeek); ("BIWEEKLY", Biweekly);
     ("WEEKLY", Weekly); ("DAILY", Daily)].

(** The module binds [DATE_GENERATION] twice, to the same entries in another
    order; this is the second binding, the one in force. *)
Definition DATE_GENERATION : gmap string DateGenerationRule :=
  list_to_map
    [("BACKWARD", DateGeneration_Backward); ("FORWARD", DateGeneration_Forward);
     ("ZERO", DateGeneration_Zero);
     ("THIRD_WEDNESDAY", DateGeneration_ThirdWednesday);
     ("TWENTIETH", DateGeneration_Twentieth);
     ("TWENTIETH_IMM", DateGeneration_TwentiethIMM);
     ("CDS", DateGeneration_CDS)].

Definition ql_date_generation (date_generation : string) :=
  dict_get DATE_GENERATION (upper date_generation).

Definition ql_weekday_correction (correction : string) :=
  dict_get WEEKDAY_CORRECTION (upper correction).

Definition ql_calendar (calendar : string) :=
  dict_get CALENDARS (upper calendar).

Definition ql_day_counter (day_counter : string) :=
  dict_get DAY_COUNTERS (upper day_counter).

Definition ql_compounding (compounding : string) :=
  dict_get COMPOUNDING (upper compounding).

Definition ql_frequency (frequency : string) :=
  dict_get FREQUENCIES (upper frequency).

(** [for i in indices: state = body(i, state)], stopping at the first
    exception. *)
Fixpoint for_each {S} (indices : list nat) (body : nat -> S -> Outcome S)
  (state : S) : Outcome S :=
  match indices with
  | [] => Returns state
  | i :: rest => state' <~ body i state ;; for_each rest body state'
  end.

(** [[f(x) for x in l]], stopping at the first exception. *)
Fixpoint comprehension {A B} (f : A -> Outcome B) (l : list A)
  : Outcome (list B) :=
  match l with
  | [] => Returns []
  | x :: rest =>
      y <~ f x ;; ys <~ comprehension f rest ;; Returns (y :: ys)
  end.

(** A two-dimensional NumPy array as its rows; [shape[1]] is the width of
    the rows. *)
Definition shape0 (a : list (list float)) : nat := length a.
Definition shape1 (a : list (list float)) : nat :=
  match a with
  | [] => 0%nat
  | row :: _ => length row
  end.

(** [a[row, col]] *)
Definition getitem2 (a : list (list float)) (row col : nat) : Outcome float :=
  match a !! row with
  | Some r =>
      match r !! col with
      | Some v => Returns v
      | None => Raises (Raised (IndexError "index is out of bounds"))
      end
  | None => Raises (Raised (IndexError "index is out of bounds"))
  end.

(** [ql.Matrix(rows, columns)]: the cells hold whatever [held] says until
    they are assigned; QuantLib does not initialise them. *)
Definition ql_Matrix (rows cols : nat) (held : nat -> nat -> float)
  : list (list float) :=
  map (fun i => map (held i) (seq 0 cols)) (seq 0 rows).

(** [m[row][col] = v] on a [ql.Matrix], which checks both indexes. *)
Definition setitem2 (m : list (list float)) (row col : nat) (v : float)
  : Outcome (list (list float)) :=
  match m !! row with
  | Some r =>
      if Nat.ltb col (length r)
      then Returns (<[row := <[col := v]> r]> m)
      else Raises (Raised (IndexError "matrix indexes out of range"))
  | None => Raises (Raised (IndexError "matrix indexes out of range"))
  end.

Section Adapters.

Variable lib : Library.

(** Argument checks of the constructors [ql.BlackVarianceSurface] and
    [ql.ForwardCurve]: [None] accepts. *)
Variable ql_check_surface : BlackVolTermStructure -> option string.
Variable ql_check_curve : YieldTermStructure -> option string.

(** What a freshly allocated [ql.Matrix] holds. *)
Variable held : nat -> nat -> float.

Definition checked {A} (verdict : option string) (a : A) : Outcome A :=
  match verdict with
  | None => Returns a
  | Some msg => Raises (Raised (RuntimeError msg))
  end.

(** *** qlmisc.py *)

Definition year_fraction (day_counter : string) (start_date end_date : datetime)
  : Outcome float :=
  day_counter <~ ql_day_counter day_counter ;;
  let start_date := py_to_ql_date start_date in
  let end_date := py_to_ql_date end_date in
  Returns (ql_yearFraction lib day_counter start_date end_date).

(** *** qlvolsurface.py *)

Definition black_constant_vol (evaluation_date : datetime) (calendar : string)
  (volatility : float) (day_counter : string) : Outcome BlackVolTermStructure :=
  let evaluation_date := py_to_ql_date evaluation_date in
  day_counter <~ ql_day_counter day_counter ;;
  calendar <~ ql_calendar calendar ;;
  Returns (BlackConstantVol evaluation_date calendar
             (QuoteHandle (SimpleQuote volatility)) day_counter).

(** The two loops of [black_variance_surface] that fill the matrix. *)
Definition copy_matrix (volatility_matrix ql_volatility_matrix : list (list float))
  : Outcome (list (list float)) :=
  for_each (seq 0 (shape0 volatility_matrix))
    (fun row =>
       for_each (seq 0 (shape1 volatility_matrix))
         (fun col m =>
            v <~ getitem2 volatility_matrix row col ;;
            setitem2 m row col v))
    ql_volatility_matrix.

Definition black_variance_surface (evaluation_date : datetime)
  (calendar : string) (expirations : list datetime) (strike_pries : list float)
  (volatility_matrix : list (list float)) (day_counter : string)
  : Outcome BlackVolTermStructure :=
  let evaluation_date := py_to_ql_date evaluation_date in
  calendar <~ ql_calendar calendar ;;
  let expirations := map py_to_ql_date expirations in
  day_counter <~ ql_day_counter day_counter ;;
  let ql_volatility_matrix :=
    ql_Matrix (length strike_pries) (length expirations) held in
  ql_volatility_matrix <~ copy_matrix volatility_matrix ql_volatility_matrix ;;
  let surface :=
    BlackVarianceSurface evaluation_date calendar expirations strike_pries
      ql_volatility_matrix day_counter in
  checked (ql_check_surface surface) surface.

Definition volatility_from_surface (surface : BlackVolTermStructure)
  (expiry_date : datetime) (strike_price : float) : Outcome float :=
  let expiration := py_to_ql_date expiry_date in
  of_res (ql_blackVol lib surface expiration strike_price).

(** *** qlyield.py *)

Definition forward_curve (dates : list datetime) (rates : list float)
  (day_counter calendar : string) : Outcome YieldTermStructure :=
  let dates := map py_to_ql_date dates in
  day_counter <~ ql_day_counter day_counter ;;
  calendar <~ ql_calendar calendar ;;
  let yield_curve := ForwardCurve dates rates day_counter calendar in
  checked (ql_check_curve yield_curve) yield_curve.

Definition flat_forward (date : datetime) (rate : float)
  (day_counter compounding frequency : string) : Outcome YieldTermStructure :=
  let date := py_to_ql_date date in
  day_counter <~ ql_day_counter day_counter ;;
  compounding <~ ql_compounding compounding ;;
  frequency <~ ql_frequency frequency ;;
  Returns (FlatForward date rate day_counter compounding frequency).

Definition zero_rates (yield_curve : YieldTermStructure) (dates : list datetime)
  (day_counter compounding : string) : Outcome (list float) :=
  let dates := map py_to_ql_date dates in
  day_counter <~ ql_day_counter day_counter ;;
  compounding <~ ql_compounding compounding ;;
  comprehension
    (fun date =>
       of_res (ql_zeroRate lib yield_curve date day_counter compounding Annual))
    dates.

End Adapters.

(** ** A small executable library

    An instance of [Library] on which the definitions above run.  It keeps
    the argument checks and the domain behaviour of the real libraries (a
    binomial engine wants two steps and provides neither vega nor rho, an
    American exercise wants its dates in order, the inverse normal is NaN
    outside [0, 1]) and replaces the numerical methods by short closed
    formulas.  The theorems below hold for every library; this one provides
    concrete runs. *)
Module Sample.

Definition float_of_Z (z : Z) : float :=
  if (z <? 0)%Z then (- PrimFloat.of_uint63 (Uint63.of_Z (- z)))%float
  else PrimFloat.of_uint63 (Uint63.of_Z z).

(** A cubic polynomial in place of the exponential, exact at zero. *)
Definition exp3 (x : float) : float :=
  (1 + x + x * x / 2 + x * x * x / 6)%float.

Definition ppf (q : float) : float :=
  if (q =? 0)%float then neg_infinity
  else if (q =? 1)%float then infinity
  else if ((0 <? q) && (q <? 1))%float%bool then (4 * (q - 0.5))%float
  else nan.

Definition pow (x : float) (n : Z) : Res float :=
  let y := Z.iter n (fun acc => acc * x)%float 1%float in
  if (is_infinity y && negb (is_infinity x))%bool then Raise OverflowError
  else Ok y.

Definition add_reduce (l : list float) : float :=
  fold_left PrimFloat.add l 0%float.

Definition accepts (c : Checked) : option string :=
  match c with
  | ChkExercise (AmericanExercise earliest latest) =>
      if date_leb earliest latest then None
      else Some "earliest > latest exercise date"
  | ChkEngine (BinomialCRRVanillaEngine _ n) =>
      if (2 <=? n)%Z then None else Some "at least 2 time steps required"
  | ChkTimeGrid horizon _ =>
      if (0 <? horizon)%float then None else Some "negative times not allowed"
  | _ => None
  end.

Definition blackVol (v : BlackVolTermStructure) : Res float :=
  match v with
  | BlackConstantVol _ _ vol _ => Ok vol
  | BlackVarianceSurface _ _ _ _ _ _ =>
      Raise (RuntimeError "surfaces are not interpolated here")
  end.

Definition zeroRate (c : YieldTermStructure) : Res float :=
  match c with
  | FlatForward _ r _ _ _ => Ok r
  | ForwardCurve _ _ _ _ =>
      Raise (RuntimeError "curves are not interpolated here")
  end.

(** Thirty-day months and 360-day years, whatever the day counter. *)
Definition yearFraction (d1 d2 : Date) : float :=
  (float_of_Z ((year d2 - year d1) * 360 + (month d2 - month d1) * 30
               + (dayOfMonth d2 - dayOfMonth d1)) / 360)%float.

Definition engine_process (e : Engine) : BlackProcess :=
  match e with
  | BinomialCRRVanillaEngine p _ => p
  | AnalyticEuropeanEngine p => p
  end.

Definition intrinsic (p : PlainVanillaPayoff) (x : float) : float :=
  match payoff_type p with
  | Call => clip_min0 (x - payoff_strike p)
  | Put => clip_min0 (payoff_strike p - x)
  end.

(** The value of a contract: its intrinsic value discounted once at the
    process's rate plus its volatility level; the sensitivities are as
    simple.  A binomial engine provides neither vega nor rho. *)
Definition valuation (g : Greek) (today : Date) (e : Engine)
  (p : PlainVanillaPayoff) (x : Exercise) : Res float :=
  let pr := engine_process e in
  match zeroRate (riskFreeRate pr), blackVol (blackVolatility pr) with
  | Ok r, Ok v =>
      let base := (intrinsic p (x0 pr) * (1 - r) + v)%float in
      match g, e with
      | G_NPV, _ => Ok base
      | G_delta, _ => Ok (match payoff_type p with
                          | Call => (1 - r)%float
                          | Put => (r - 1)%float
                          end)
      | G_gamma, _ => Ok 0%float
      | G_theta, _ => Ok (- v)%float
      | G_vega, AnalyticEuropeanEngine _ => Ok 1%float
      | G_rho, AnalyticEuropeanEngine _ => Ok (- intrinsic p (x0 pr))%float
      | G_vega, BinomialCRRVanillaEngine _ _ =>
          Raise (RuntimeError "vega not provided")
      | G_rho, BinomialCRRVanillaEngine _ _ =>
          Raise (RuntimeError "rho not provided")
      end
  | Raise e', _ => Raise e'
  | _, Raise e' => Raise e'
  end.

Definition time_grid (horizon : float) (n : Z) : list float :=
  map (fun i => (float_of_Z (Z.of_nat i) * (horizon / float_of_Z n))%float)
      (seq 0 (S (Z.to_nat n))).

(** A congruential generator in place of the Gaussian one: each asset starts
    at its [x0] and ends a few units above or below it. *)
Definition next_state (s : Z) : Z := (s * 1103515245 + 12345) mod 2147483648.

Definition next_path (g : GaussianMultiPathGenerator)
  : Res (list (list float) * Z) :=
  let s1 := next_state (gen_state g) in
  let s2 := next_state s1 in
  match spa_processes (gen_process g) with
  | [p1; p2] =>
      Ok ([[x0 p1; (x0 p1 + float_of_Z (s1 mod 21 - 10))%float];
           [x0 p2; (x0 p2 + float_of_Z (s2 mod 21 - 10))%float]], s2)
  | _ => Raise (RuntimeError "two processes expected")
  end.

Definition library : Library :=
  {| np_exp := exp3;
     norm_ppf := ppf;
     py_pow := pow;
     np_add_reduce := add_reduce;
     ql_require := accepts;
     ql_blackVol := fun v _ _ => blackVol v;
     ql_blackVol_t := fun v _ _ => blackVol v;
     ql_zeroRate := fun c _ _ _ _ => zeroRate c;
     ql_yearFraction := fun _ d1 d2 => yearFraction d1 d2;
     ql_calculate := valuation;
     ql_time_grid := time_grid;
     ql_next_path := next_path |}.

Definition date (y m d : Z) : datetime :=
  {| dt_year := y; dt_month := m; dt_day := d;
     dt_hour := 0; dt_minute := 0; dt_second := 0 |}.

Definition world : World :=
  {| evaluationDate := {| dayOfMonth := 1; month := 1; year := 1901 |};
     instruments := []; clock := 42; trace := [] |}.

Definition flat_vol (v : float) : BlackVolTermStructure :=
  BlackConstantVol (py_to_ql_date (date 2025 1 1)) UnitedKingdom v
    Actual365Fixed.

Definition flat_curve (r : float) : YieldTermStructure :=
  FlatForward (py_to_ql_date (date 2025 1 1)) r Actual365Fixed Continuous
    Annual.

End Sample.

(** ** Vocabulary of the statements *)

(** The base process and the contract of one call. *)
Definition base_process (forward_price : float)
  (yield_curve : YieldTermStructure) (volatility : BlackVolTermStructure)
  : BlackProcess :=
  {| x0 := forward_price; riskFreeRate := yield_curve;
     blackVolatility := volatility |}.

Definition contract (option_type : string) (strike_price : float)
  : PlainVanillaPayoff :=
  {| payoff_type := if String.eqb (upper option_type) "CALL" then Call else Put;
     payoff_strike := strike_price |}.

(** The process [estimate_vega] values under: the volatility structure is
    replaced by a constant one at [level]. *)
Definition vol_bumped_process (process : BlackProcess)
  (volatility : BlackVolTermStructure) (today : Date) (level : float)
  : BlackProcess :=
  {| x0 := x0 process; riskFreeRate := riskFreeRate process;
     blackVolatility :=
       BlackConstantVol today (vol_calendar volatility) level
         (vol_dayCounter volatility) |}.

(** The process [estimate_rho] values under: the curve is replaced by a flat
    one at [level]. *)
Definition rate_bumped_process (process : BlackProcess)
  (yield_curve : YieldTermStructure) (volatility : BlackVolTermStructure)
  (today : Date) (level : float) : BlackProcess :=
  {| x0 := x0 process;
     riskFreeRate :=
       FlatForward today level (yts_dayCounter yield_curve) Continuous Annual;
     blackVolatility := volatility |}.

Definition greek_frame (label : string) (a b c d v r : float) : DataFrame :=
  {| index := greek_index; columns := [label];
     values := [[a]; [b]; [c]; [d]; [v]; [r]] |}.

(** The six numbers of one leg. *)
Record Greeks := {
  g_price : float; g_delta : float; g_gamma : float;
  g_theta : float; g_vega : float; g_rho : float
}.

(** A frame under the six fixed row labels whose row for a field [f] is
    [cells f]: every column of a row reads the same field. *)
Definition rows_frame (cols : list string)
  (cells : (Greeks -> float) -> list float) : DataFrame :=
  {| index := greek_index; columns := cols;
     values := map cells [g_price; g_delta; g_gamma; g_theta; g_vega; g_rho] |}.

(** A frame under other column labels. *)
Definition relabel (F : DataFrame) (cols : list string) : DataFrame :=
  {| index := index F; columns := cols; values := values F |}.

(** A computation only adds to the trace. *)
Definition extends_trace {A} (m : M A) : Prop :=
  forall w, exists evs, trace (snd (m w)) = evs ++ trace w.

Definition res_bind {A B} (r : Res A) (k : A -> Res B) : Res B :=
  match r with
  | Ok a => k a
  | Raise e => Raise e
  end.

(** The six valuations of a European call, in the order the module asks for
    them, and the frame they fill. *)
Definition european_valuation (lib : Library) (today : Date) (e : Engine)
  (pay : PlainVanillaPayoff) (x : Exercise) (label : string) : Res DataFrame :=
  res_bind (ql_calculate lib G_vega today e pay x) (fun v =>
  res_bind (ql_calculate lib G_rho today e pay x) (fun r =>
  res_bind (ql_calculate lib G_NPV today e pay x) (fun a =>
  res_bind (ql_calculate lib G_delta today e pay x) (fun b =>
  res_bind (ql_calculate lib G_gamma today e pay x) (fun c =>
  res_bind (ql_calculate lib G_theta today e pay x) (fun d =>
  Ok (greek_frame label a b c d v r))))))).

Definition strike_index : list string :=
  ["d1"; "riskfree_rate"; "volatility_atm"; "years_to_maturity";
   "strike_price"].

Definition strike_frame (label : string) (x1 x2 x3 x4 x5 : float) : DataFrame :=
  {| index := strike_index; columns := [label];
     values := [[x1]; [x2]; [x3]; [x4]; [x5]] |}.

(** A computation that neither reads nor changes the process state. *)
Definition stateless {A} (m : M A) : Prop :=
  exists r, forall w, m w = (r, w).

(** The payoff averaged over the terminal values of the paths. *)
Definition spread_payoff (lib : Library) (label : string) (strike : float)
  (contract_long contract_short : list float) : float :=
  let spread := np_sub1 contract_long contract_short in
  if String.eqb (upper label) "CALL"
  then np_mean lib (map clip_min0 (map (fun s => s - strike)%float spread))
  else np_mean lib (map clip_min0 (map (fun s => strike - s)%float spread)).

(** A computation that leaves the evaluation date at [d] when it starts
    there, and one that leaves it at [d] wherever it starts. *)
Definition dated {A} (d : Date) (m : M A) : Prop :=
  forall w, evaluationDate w = d -> evaluationDate (snd (m w)) = d.

Definition sets_date {A} (d : Date) (m : M A) : Prop :=
  forall w, evaluationDate (snd (m w)) = d.

(** The cell of a matrix, when it has one. *)
Definition cell (m : list (list float)) (i j : nat) : option float :=
  match m !! i with
  | Some row => row !! j
  | None => None
  end.

(** All rows as wide as [n]. *)
Definition rectangular (n : nat) (m : list (list float)) : Prop :=
  Forall (fun row => length row = n) m.

(** The characters a-z. *)
Definition is_lower (c : ascii) : bool :=
  let n := nat_of_ascii c in (Nat.leb 97 n && Nat.leb n 122)%bool.

Fixpoint has_lower (s : string) : bool :=
  match s with
  | EmptyString => false
  | String c rest => (is_lower c || has_lower rest)%bool
  end.

(** What comdty_vanilla_option_delta asks of the library before it prices:
    the zero rate to expiry, the volatility at the forward, its square. *)
Definition delta_market_inputs (lib : Library)
  (evaluation_date expiry_date : datetime) (forward_price : float)
  (volatility : BlackVolTermStructure) (yield_curve : YieldTermStructure)
  : Res (float * float * float) :=
  let day_counter := yts_dayCounter yield_curve in
  res_bind
    (ql_zeroRate lib yield_curve (py_to_ql_date expiry_date) day_counter
       Continuous Annual)
    (fun riskfree_rate =>
       res_bind
         (ql_blackVol_t lib volatility
            (ql_yearFraction lib day_counter (py_to_ql_date evaluation_date)
               (py_to_ql_date expiry_date))
            forward_price)
         (fun volatility_atm =>
            res_bind (py_pow lib volatility_atm 2)
              (fun vol_squared =>
                 Ok (riskfree_rate, volatility_atm, vol_squared)))).

(** The sample library with one more check of QuantLib's: a flat curve
    quotes no zero rate for a date before its reference date. *)
Definition reference_dated_library : Library :=
  {| np_exp := np_exp Sample.library;
     norm_ppf := norm_ppf Sample.library;
     py_pow := py_pow Sample.library;
     np_add_reduce := np_add_reduce Sample.library;
     ql_require := ql_require Sample.library;
     ql_blackVol := ql_blackVol Sample.library;
     ql_blackVol_t := ql_blackVol_t Sample.library;
     ql_zeroRate :=
       fun curve date _ _ _ =>
         match curve with
         | FlatForward reference rate _ _ _ =>
             if date_leb reference date then Ok rate
             else Raise (RuntimeError "negative time given")
         | ForwardCurve _ _ _ _ =>
             Raise (RuntimeError "curves are not interpolated here")
         end;
     ql_yearFraction := ql_yearFraction Sample.library;
     ql_calculate := ql_calculate Sample.library;
     ql_time_grid := ql_time_grid Sample.library;
     ql_next_path := ql_next_path Sample.library |}.

(** Calls made one after the other, up to the first that raises. *)
Fixpoint in_sequence {A} (calls : list (M A)) : M (list A) :=
  match calls with
  | [] => ret []
  | call :: rest =>
      (a <- call ;; others <- in_sequence rest ;; ret (a :: others))%py
  end.

(** A run that ends in the state the legs left, raises what the first failing
    leg raised, and returns when every leg returned. *)
Definition fails_only_with {A B} (run : Res B * World)
  (legs : Res (list A) * World) : Prop :=
  snd run = snd legs /\
  match fst legs with
  | Ok _ => is_ok (fst run) = true
  | Raise e => fst run = Raise e
  end.

(** The row a frame holds under a label, the first one when the label
    repeats: [frame.loc[label]].  It reads the frame as it is returned and
    uses none of the labels the model of the code passes. *)
Fixpoint labelled_row (labels : list string) (rows : list (list float))
  (label : string) : option (list float) :=
  match labels, rows with
  | l :: labels', r :: rows' =>
      if String.eqb l label then Some r else labelled_row labels' rows' label
  | _, _ => None
  end.

Definition row_under (F : DataFrame) (label : string) : option (list float) :=
  labelled_row (index F) (values F) label.

(** *** The calendar-spread payoff, as the specification states it

    These definitions follow the words of the specification and use none of
    the functions the model of the code is written with; the statement
    about the calendar spread compares the two. *)

(** A date that is the same day as another or an earlier one, by year, then
    month, then day. *)
Definition not_after (a b : Date) : Prop :=
  year a < year b \/
  (year a = year b /\
   (month a < month b \/
    (month a = month b /\ dayOfMonth a <= dayOfMonth b))).

(** max(x, 0) on binary64: zero when x is zero or below, x when x is above
    zero, and x itself when x is not a number. *)
Definition max_with_zero (x : float) : float :=
  if is_nan x then x else if (x <=? 0)%float then 0%float else x.

(** The payoff of one path: max(spread - strike, 0) for a call and
    max(strike - spread, 0) for a put, with
    spread = terminal_long - terminal_short. *)
Definition path_payoff (call : bool)
  (strike terminal_long terminal_short : float) : float :=
  let spread := (terminal_long - terminal_short)%float in
  max_with_zero (if call then spread - strike else strike - spread)%float.

Fixpoint path_payoffs (call : bool) (strike : float)
  (terminals_long terminals_short : list float) : list float :=
  match terminals_long, terminals_short with
  | l :: longs, s :: shorts =>
      path_payoff call strike l s :: path_payoffs call strike longs shorts
  | _, _ => []
  end.

(** The mean of one number per path: their sum over the number of paths, no
    path counting as none. *)
Definition mean_over_paths (lib : Library) (paths : Z) (xs : list float)
  : float :=
  (np_add_reduce lib xs
   / PrimFloat.of_uint63 (Uint63.of_Z (Z.max 0 paths)))%float.

(** Text within ASCII: on it [upper] is Python's [str.upper], which outside
    ASCII also changes characters that [upper] leaves alone. *)
Fixpoint is_ascii (s : string) : bool :=
  match s with
  | EmptyString => true
  | String c rest => (Nat.ltb (nat_of_ascii c) 128 && is_ascii rest)%bool
  end.

(** A datetime whose year [ql.Date] accepts: on these [py_to_ql_date] is the
    conversion the module makes. *)
Definition in_ql_range (date : datetime) : bool :=
  ((1901 <=? dt_year date) && (dt_year date <=? 2199))%bool.

(** * Properties *)

(** ** The definitions on small inputs *)

Example upper_mixed_case : upper "Call" = "CALL" /\ upper "put_2" = "PUT_2".
Proof. split; reflexivity. Qed.

Example clip_min0_values :
  clip_min0 (-3) = 0%float /\ clip_min0 2.5 = 2.5%float /\
  clip_min0 nan = nan /\ clip_min0 neg_zero = zero.
Proof. repeat split; reflexivity. Qed.

Example np_min_date_of_two :
  np_min_date (py_to_ql_date (Sample.date 2025 10 1))
    (py_to_ql_date (Sample.date 2025 7 1))
  = py_to_ql_date (Sample.date 2025 7 1).
Proof. reflexivity. Qed.

Example py_div_by_zero :
  py_div 1 0 = Raise ZeroDivisionError /\ py_div 1 2 = Ok 0.5%float.
Proof. split; reflexivity. Qed.

Example concat_axis1_aligns_rows :
  concat_axis1
    [{| index := ["a"; "b"]; columns := ["x"]; values := [[1%float]; [2%float]] |};
     {| index := ["b"; "c"]; columns := ["y"]; values := [[3%float]; [4%float]] |}]
  = {| index := ["a"; "b"; "c"]; columns := ["x"; "y"];
       values := [[1%float; nan]; [2%float; 3%float]; [nan; 4%float]] |}.
Proof. reflexivity. Qed.

Example np_mean_of_nothing : is_nan (np_mean Sample.library []) = true.
Proof. reflexivity. Qed.

(** An American call on the sample library. *)
Example american_call_runs :
  is_ok (fst (comdty_vanilla_option Sample.library (Sample.date 2025 1 1)
                (Sample.date 2025 7 1) 105 100 "CALL" "AMERICAN" (Some 100)
                (Sample.flat_vol 0.2) (Sample.flat_curve 0.05) Sample.world))
  = true.
Proof. vm_compute. reflexivity. Qed.

(** ** Running the monad *)

Lemma lookup_snoc {A} (l : list A) (x : A) : (l ++ [x]) !! length l = Some x.
Proof. induction l as [|y l IH]; simpl; auto. Qed.

Lemma insert_snoc {A} (l : list A) (x y : A) :
  <[length l := y]> (l ++ [x]) = l ++ [y].
Proof. induction l as [|z l IH]; simpl; auto. now rewrite IH. Qed.

Lemma lookup_insert_same {A} (l : list A) (i : nat) (x y : A) :
  l !! i = Some x -> (<[i := y]> l) !! i = Some y.
Proof.
  revert i. induction l as [|z l IH]; intros [|i] H; simpl in *;
    try discriminate; auto.
Qed.

Lemma insert_insert_same {A} (l : list A) (i : nat) (x y : A) :
  <[i := y]> (<[i := x]> l) = <[i := y]> l.
Proof.
  revert i. induction l as [|z l IH]; intros [|i]; simpl; auto.
  now rewrite IH.
Qed.

Lemma bind_assoc {A B C} (m : M A) (f : A -> M B) (g : B -> M C) w :
  bind (bind m f) g w = bind m (fun a => bind (f a) g) w.
Proof. unfold bind. destruct (m w) as [[a|e] w1]; reflexivity. Qed.

Lemma bind_ext {A B} (m : M A) (k1 k2 : A -> M B) w :
  (forall a w1, k1 a w1 = k2 a w1) -> bind m k1 w = bind m k2 w.
Proof. intros H. unfold bind. destruct (m w) as [[a|e] w1]; auto. Qed.

Lemma bind_run {A B} (m : M A) (k : A -> M B) w a w1 :
  m w = (Ok a, w1) -> bind m k w = k a w1.
Proof. intros H. unfold bind. now rewrite H. Qed.

Lemma bind_raise {A B} (m : M A) (k : A -> M B) w e w1 :
  m w = (Raise e, w1) -> bind m k w = (Raise e, w1).
Proof. intros H. unfold bind. now rewrite H. Qed.

Lemma bind_ok_inv {A B} (m : M A) (k : A -> M B) w b w2 :
  bind m k w = (Ok b, w2) ->
  exists a w1, m w = (Ok a, w1) /\ k a w1 = (Ok b, w2).
Proof.
  unfold bind. destruct (m w) as [[a|e] w1] eqn:E; intros H.
  - exists a, w1. auto.
  - discriminate.
Qed.

Lemma bind_any {A B} (m : M A) (k : A -> M B) w r w1 :
  m w = (r, w1) ->
  bind m k w = match r with
               | Ok a => k a w1
               | Raise e => (Raise e, w1)
               end.
Proof. intros H. unfold bind. now rewrite H. Qed.

Lemma bind_ret {A B} (a : A) (k : A -> M B) w : bind (ret a) k w = k a w.
Proof. reflexivity. Qed.

Lemma bind_lift_ok {A B} (r : Res A) (k : A -> M B) w a :
  r = Ok a -> bind (lift r) k w = k a w.
Proof. intros ->. reflexivity. Qed.

(** With the default bumps the quotient is defined. *)
Lemma py_div_default_vol (x : float) :
  py_div x (2 * default 0.01 None)%float = Ok (x / (2 * 0.01))%float.
Proof. reflexivity. Qed.

Lemma py_div_default_rate (x : float) :
  py_div x (2 * default 0.001 None)%float = Ok (x / (2 * 0.001))%float.
Proof. reflexivity. Qed.

Section Running.

Variable lib : Library.

Lemma bind_require_ok {B} (c : Checked) (k : unit -> M B) w :
  ql_require lib c = None -> bind (require lib c) k w = k tt w.
Proof. intros H. unfold require. now rewrite H. Qed.

Lemma bind_engine_ok {B} p n (k : Engine -> M B) w :
  ql_require lib (ChkEngine (BinomialCRRVanillaEngine p n)) = None ->
  bind (new_BinomialCRRVanillaEngine lib p n) k w
  = k (BinomialCRRVanillaEngine p n) w.
Proof.
  intros H. unfold new_BinomialCRRVanillaEngine.
  rewrite bind_assoc, bind_require_ok by exact H. reflexivity.
Qed.

Lemma bind_exercise_ok {B} d1 d2 (k : Exercise -> M B) w :
  ql_require lib (ChkExercise (AmericanExercise d1 d2)) = None ->
  bind (new_AmericanExercise lib d1 d2) k w = k (AmericanExercise d1 d2) w.
Proof.
  intros H. unfold new_AmericanExercise.
  rewrite bind_assoc, bind_require_ok by exact H. reflexivity.
Qed.

Lemma bind_process {B} x c v (k : BlackProcess -> M B) d h clk t :
  bind (new_BlackProcess x c v) k
    {| evaluationDate := d; instruments := h; clock := clk; trace := t |}
  = k {| x0 := x; riskFreeRate := c; blackVolatility := v |}
      {| evaluationDate := d; instruments := h; clock := clk;
         trace := EvBlackProcess
                    {| x0 := x; riskFreeRate := c; blackVolatility := v |} :: t |}.
Proof. reflexivity. Qed.

Lemma bind_today {B} (k : Date -> M B) d h clk t :
  bind get_evaluationDate k
    {| evaluationDate := d; instruments := h; clock := clk; trace := t |}
  = k d {| evaluationDate := d; instruments := h; clock := clk; trace := t |}.
Proof. reflexivity. Qed.

Lemma bind_new_option {B} pay x (k : nat -> M B) d h c t :
  bind (new_VanillaOption pay x) k
    {| evaluationDate := d; instruments := h; clock := c; trace := t |}
  = k (length h)
      {| evaluationDate := d;
         instruments :=
           h ++ [{| opt_payoff := pay; opt_exercise := x; opt_engine := None |}];
         clock := c; trace := t |}.
Proof. reflexivity. Qed.

Lemma bind_set_engine {B} i e (k : unit -> M B) d h o c t :
  h !! i = Some o ->
  bind (setPricingEngine i e) k
    {| evaluationDate := d; instruments := h; clock := c; trace := t |}
  = k tt {| evaluationDate := d; instruments := <[i := attach o e]> h;
            clock := c; trace := t |}.
Proof.
  intros H. unfold bind, setPricingEngine. cbn. now rewrite H.
Qed.

(** A valuation request reaches the engine attached to the instrument at
    the time of the call, and is recorded whatever the engine answers. *)
Lemma calculate_run g i d h o e c t :
  h !! i = Some o -> opt_engine o = Some e ->
  calculate lib g i
    {| evaluationDate := d; instruments := h; clock := c; trace := t |}
  = (ql_calculate lib g d e (opt_payoff o) (opt_exercise o),
     {| evaluationDate := d; instruments := h; clock := c;
        trace := EvCalculate g d e (opt_payoff o) (opt_exercise o) :: t |}).
Proof. intros H He. unfold calculate. cbn. now rewrite H, He. Qed.

Lemma bind_calculate_ok {B} g i d h o e c t v (k : float -> M B) :
  h !! i = Some o -> opt_engine o = Some e ->
  ql_calculate lib g d e (opt_payoff o) (opt_exercise o) = Ok v ->
  bind (calculate lib g i) k
    {| evaluationDate := d; instruments := h; clock := c; trace := t |}
  = k v {| evaluationDate := d; instruments := h; clock := c;
           trace := EvCalculate g d e (opt_payoff o) (opt_exercise o) :: t |}.
Proof.
  intros H He Hv. unfold bind. now rewrite (calculate_run g i d h o e c t H He), Hv.
Qed.

Lemma bind_truediv_ok {B} a b (k : float -> M B) w :
  (b =? 0)%float = false -> bind (py_truediv a b) k w = k (a / b)%float w.
Proof. intros H. unfold py_truediv, py_div. now rewrite H. Qed.

End Running.

Ltac unfold_greeks := unfold NPV, delta, gamma, theta, vega, rho.

Ltac unfold_handles :=
  unfold QuoteHandle, SimpleQuote, YieldTermStructureHandle,
    BlackVolTermStructureHandle.

Ltac solve_lookup :=
  first [ eassumption
        | apply lookup_snoc
        | eapply lookup_insert_same; solve_lookup ].

(** One step of a run: the next call is resolved from the hypotheses. *)
Ltac run_step :=
  first
    [ rewrite bind_assoc
    | rewrite bind_ret
    | rewrite bind_today
    | rewrite bind_process
    | rewrite bind_new_option
    | erewrite bind_set_engine by solve_lookup
    | erewrite bind_calculate_ok
        by first [ solve_lookup | reflexivity | eassumption ]
    | erewrite bind_engine_ok by eassumption
    | erewrite bind_exercise_ok by eassumption
    | erewrite bind_require_ok by eassumption
    | erewrite bind_lift_ok by eassumption
    | erewrite bind_truediv_ok by eassumption ];
  cbv beta iota;
  cbn [opt_payoff opt_exercise opt_engine attach x0 riskFreeRate
       blackVolatility py_int default];
  rewrite ?insert_insert_same.

Section Runs.

Variable lib : Library.

(** [estimate_vega] on an instrument of the store. *)
Lemma estimate_vega_run opt process volatility strike expiry n bump
  d h clk tr o sigma p_up p_down :
  let b := default 0.01%float bump in
  let e_up := BinomialCRRVanillaEngine
                (vol_bumped_process process volatility d (sigma + b)%float) n in
  let e_down := BinomialCRRVanillaEngine
                  (vol_bumped_process process volatility d (sigma - b)%float) n in
  h !! opt = Some o ->
  ql_blackVol lib volatility expiry strike = Ok sigma ->
  ql_require lib (ChkEngine e_up) = None ->
  ql_calculate lib G_NPV d e_up (opt_payoff o) (opt_exercise o) = Ok p_up ->
  ql_require lib (ChkEngine e_down) = None ->
  ql_calculate lib G_NPV d e_down (opt_payoff o) (opt_exercise o) = Ok p_down ->
  estimate_vega lib opt process volatility strike expiry (Some n) bump
    {| evaluationDate := d; instruments := h; clock := clk; trace := tr |}
  = (py_div (p_up - p_down)%float (2 * b)%float,
     {| evaluationDate := d;
        instruments := <[opt := attach o e_down]> h;
        clock := clk;
        trace := [EvCalculate G_NPV d e_down (opt_payoff o) (opt_exercise o);
                  EvBlackProcess
                    (vol_bumped_process process volatility d (sigma - b)%float);
                  EvCalculate G_NPV d e_up (opt_payoff o) (opt_exercise o);
                  EvBlackProcess
                    (vol_bumped_process process volatility d (sigma + b)%float)]
                 ++ tr |}).
Proof.
  intros b e_up e_down Ho Hs Hcu Hpu Hcd Hpd.
  unfold estimate_vega. unfold_greeks. unfold_handles.
  fold b.
  repeat run_step.
  reflexivity.
Qed.

(** [estimate_rho] on an instrument of the store. *)
Lemma estimate_rho_run opt process yield_curve volatility expiry n bump
  d h clk tr o rate p_up p_down :
  let b := default 0.001%float bump in
  let e_up := BinomialCRRVanillaEngine
                (rate_bumped_process process yield_curve volatility d
                   (rate + b)%float) n in
  let e_down := BinomialCRRVanillaEngine
                  (rate_bumped_process process yield_curve volatility d
                     (rate - b)%float) n in
  h !! opt = Some o ->
  ql_zeroRate lib yield_curve expiry (yts_dayCounter yield_curve) Continuous
    Annual = Ok rate ->
  ql_require lib (ChkEngine e_up) = None ->
  ql_calculate lib G_NPV d e_up (opt_payoff o) (opt_exercise o) = Ok p_up ->
  ql_require lib (ChkEngine e_down) = None ->
  ql_calculate lib G_NPV d e_down (opt_payoff o) (opt_exercise o) = Ok p_down ->
  estimate_rho lib opt process yield_curve volatility expiry (Some n) bump
    {| evaluationDate := d; instruments := h; clock := clk; trace := tr |}
  = (py_div (p_up - p_down)%float (2 * b)%float,
     {| evaluationDate := d;
        instruments := <[opt := attach o e_down]> h;
        clock := clk;
        trace := [EvCalculate G_NPV d e_down (opt_payoff o) (opt_exercise o);
                  EvBlackProcess
                    (rate_bumped_process process yield_curve volatility d
                       (rate - b)%float);
                  EvCalculate G_NPV d e_up (opt_payoff o) (opt_exercise o);
                  EvBlackProcess
                    (rate_bumped_process process yield_curve volatility d
                       (rate + b)%float)]
                 ++ tr |}).
Proof.
  intros b e_up e_down Ho Hs Hcu Hpu Hcd Hpd.
  unfold estimate_rho. unfold_greeks. unfold_handles.
  fold b.
  repeat run_step.
  reflexivity.
Qed.

End Runs.

(** ** An American call, when the library answers every request *)

Section AmericanCall.

Variable lib : Library.
Variables evaluation_date expiry_date : datetime.
Variables forward_price strike_price : float.
Variables option_type exercise_type : string.
Variable n : Z.
Variable volatility : BlackVolTermStructure.
Variable yield_curve : YieldTermStructure.

Let today := py_to_ql_date evaluation_date.
Let expiry := py_to_ql_date expiry_date.
Let process := base_process forward_price yield_curve volatility.
Let pay := contract option_type strike_price.
Let exercise := AmericanExercise today expiry.

(** The library's answers. *)
Variables sigma rate : float.
Variables vega_up vega_down rho_up rho_down : float.
Variables v_delta v_gamma v_theta : float.

Let vega_engine_up :=
  BinomialCRRVanillaEngine
    (vol_bumped_process process volatility today (sigma + 0.01)%float) n.
Let vega_engine_down :=
  BinomialCRRVanillaEngine
    (vol_bumped_process process volatility today (sigma - 0.01)%float) n.
Let rho_engine_up :=
  BinomialCRRVanillaEngine
    (rate_bumped_process process yield_curve volatility today
       (rate + 0.001)%float) n.
Let rho_engine_down :=
  BinomialCRRVanillaEngine
    (rate_bumped_process process yield_curve volatility today
       (rate - 0.001)%float) n.

Hypothesis is_american : String.eqb (upper exercise_type) "AMERICAN" = true.
Hypothesis exercise_accepted : ql_require lib (ChkExercise exercise) = None.
Hypothesis engine_accepted :
  ql_require lib (ChkEngine (BinomialCRRVanillaEngine process n)) = None.
Hypothesis vol_quoted :
  ql_blackVol lib volatility expiry strike_price = Ok sigma.
Hypothesis vega_up_accepted : ql_require lib (ChkEngine vega_engine_up) = None.
Hypothesis vega_up_priced :
  ql_calculate lib G_NPV today vega_engine_up pay exercise = Ok vega_up.
Hypothesis vega_down_accepted :
  ql_require lib (ChkEngine vega_engine_down) = None.
Hypothesis vega_down_priced :
  ql_calculate lib G_NPV today vega_engine_down pay exercise = Ok vega_down.
Hypothesis rate_quoted :
  ql_zeroRate lib yield_curve expiry (yts_dayCounter yield_curve) Continuous
    Annual = Ok rate.
Hypothesis rho_up_accepted : ql_require lib (ChkEngine rho_engine_up) = None.
Hypothesis rho_up_priced :
  ql_calculate lib G_NPV today rho_engine_up pay exercise = Ok rho_up.
Hypothesis rho_down_accepted :
  ql_require lib (ChkEngine rho_engine_down) = None.
Hypothesis rho_down_priced :
  ql_calculate lib G_NPV today rho_engine_down pay exercise = Ok rho_down.
Hypothesis delta_reported :
  ql_calculate lib G_delta today rho_engine_down pay exercise = Ok v_delta.
Hypothesis gamma_reported :
  ql_calculate lib G_gamma today rho_engine_down pay exercise = Ok v_gamma.
Hypothesis theta_reported :
  ql_calculate lib G_theta today rho_engine_down pay exercise = Ok v_theta.

Lemma american_run_ok d0 h clk tr :
  comdty_vanilla_option lib evaluation_date expiry_date forward_price
    strike_price option_type exercise_type (Some n) volatility yield_curve
    {| evaluationDate := d0; instruments := h; clock := clk; trace := tr |}
  = (Ok (greek_frame option_type rho_down v_delta v_gamma v_theta
           ((vega_up - vega_down) / (2 * 0.01))%float
           ((rho_up - rho_down) / (2 * 0.001))%float),
     {| evaluationDate := today;
        instruments :=
          h ++ [{| opt_payoff := pay; opt_exercise := exercise;
                   opt_engine := Some rho_engine_down |}];
        clock := clk;
        trace :=
          [EvCalculate G_theta today rho_engine_down pay exercise;
           EvCalculate G_gamma today rho_engine_down pay exercise;
           EvCalculate G_delta today rho_engine_down pay exercise;
           EvCalculate G_NPV today rho_engine_down pay exercise;
           EvCalculate G_NPV today rho_engine_down pay exercise;
           EvBlackProcess
             (rate_bumped_process process yield_curve volatility today
                (rate - 0.001)%float);
           EvCalculate G_NPV today rho_engine_up pay exercise;
           EvBlackProcess
             (rate_bumped_process process yield_curve volatility today
                (rate + 0.001)%float);
           EvCalculate G_NPV today vega_engine_down pay exercise;
           EvBlackProcess
             (vol_bumped_process process volatility today (sigma - 0.01)%float);
           EvCalculate G_NPV today vega_engine_up pay exercise;
           EvBlackProcess
             (vol_bumped_process process volatility today (sigma + 0.01)%float);
           EvBlackProcess process] ++ tr |}).
Proof.
  unfold comdty_vanilla_option. rewrite is_american.
  unfold set_evaluationDate at 1. rewrite bind_run with (a := tt)
    (w1 := {| evaluationDate := today; instruments := h; clock := clk;
              trace := tr |}) by reflexivity.
  unfold_handles.
  fold today expiry (contract option_type strike_price). fold pay.
  do 6 run_step.
  fold process. fold exercise.
  do 6 run_step.
  rewrite insert_snoc.
  erewrite bind_any; cycle 1.
  { apply estimate_vega_run with (bump := None) (sigma := sigma)
      (p_up := vega_up) (p_down := vega_down);
      try first [ apply lookup_snoc | eassumption | reflexivity ]. }
  rewrite py_div_default_vol.
  rewrite insert_snoc. cbn [attach opt_payoff opt_exercise].
  run_step.
  erewrite bind_any; cycle 1.
  { apply estimate_rho_run with (bump := None) (rate := rate)
      (p_up := rho_up) (p_down := rho_down);
      try first [ apply lookup_snoc | eassumption | reflexivity ]. }
  rewrite py_div_default_rate.
  rewrite insert_snoc. cbn [attach opt_payoff opt_exercise].
  unfold_greeks.
  repeat run_step.
  reflexivity.
Qed.

(** C1 (what the code does).  In an AMERICAN call whose library requests
    all succeed, the price, delta, gamma and theta rows reported by
    comdty_vanilla_option are the valuations of the last engine
    estimate_rho attached to the option: the CRR engine on the process
    whose curve is the flat curve at the zero rate minus 0.001.  The
    reported price is the price_down of estimate_rho.  The engine built on
    the caller's own curve is never asked for a valuation.  Apart from the
    evaluation date, which becomes the call's date, the process state keeps
    its clock and its instruments and gains the one option of the call,
    left with that last engine. *)
Theorem american_report_uses_rate_down_engine w :
  let run :=
    comdty_vanilla_option lib evaluation_date expiry_date forward_price
      strike_price option_type exercise_type (Some n) volatility yield_curve w
  in
  fst run
  = Ok (greek_frame option_type rho_down v_delta v_gamma v_theta
          ((vega_up - vega_down) / (2 * 0.01))%float
          ((rho_up - rho_down) / (2 * 0.001))%float) /\
  evaluationDate (snd run) = today /\
  clock (snd run) = clock w /\
  instruments (snd run)
  = instruments w ++ [{| opt_payoff := pay; opt_exercise := exercise;
                         opt_engine := Some rho_engine_down |}].
Proof.
  destruct w as [d0 h clk tr]. cbv zeta.
  rewrite american_run_ok. cbn. auto.
Qed.

End AmericanCall.

(** ** The shape of a pricing result *)

Section Shapes.

Variable lib : Library.

(** Whatever the library answers, a result of [comdty_vanilla_option] is one
    column of six numbers under the six fixed row labels. *)
Lemma option_frame_shape ev ex fwd K ot et steps vol curve w F w' :
  comdty_vanilla_option lib ev ex fwd K ot et steps vol curve w = (Ok F, w') ->
  exists a b c d v r, F = greek_frame ot a b c d v r.
Proof.
  unfold comdty_vanilla_option. intros H.
  apply bind_ok_inv in H. destruct H as (? & w1 & _ & H).
  apply bind_ok_inv in H. destruct H as (p & w2 & _ & H).
  apply bind_ok_inv in H. destruct H as ([[opt v] r] & w3 & _ & H).
  apply bind_ok_inv in H. destruct H as (a & w4 & _ & H).
  apply bind_ok_inv in H. destruct H as (b & w5 & _ & H).
  apply bind_ok_inv in H. destruct H as (c & w6 & _ & H).
  apply bind_ok_inv in H. destruct H as (d & w7 & _ & H).
  cbn in H. injection H as <- _.
  now exists a, b, c, d, v, r.
Qed.

End Shapes.

(** ** Structures built from legs *)

Section Structures.

Variable lib : Library.

Lemma option_frame_rows ev ex fwd K ot et steps vol curve w F w' :
  comdty_vanilla_option lib ev ex fwd K ot et steps vol curve w = (Ok F, w') ->
  exists g, F = rows_frame [ot] (fun f => [f g]).
Proof.
  intros H. apply option_frame_shape in H.
  destruct H as (a & b & c & d & v & r & ->).
  exists {| g_price := a; g_delta := b; g_gamma := c; g_theta := d;
            g_vega := v; g_rho := r |}.
  reflexivity.
Qed.

Lemma spread_of_rows ot l s w :
  (long_label <- getitem (columns (rows_frame [ot] (fun f => [f l]))) 0 ;;
   option_price_long <- set_columns (rows_frame [ot] (fun f => [f l]))
                          [(long_label ++ "_LONG")%string] ;;
   short_label <- getitem (columns (rows_frame [ot] (fun f => [f s]))) 0 ;;
   option_price_short <- set_columns (rows_frame [ot] (fun f => [f s]))
                           [(short_label ++ "_SHORT")%string] ;;
   structure <- DataFrame_of_array
                  (np_sub (values option_price_long) (values option_price_short))
                  [(ot ++ "_SPREAD")%string] greek_index ;;
   ret (concat_axis1 [option_price_long; option_price_short; structure]))%py w
  = (Ok (rows_frame
           [(ot ++ "_LONG")%string; (ot ++ "_SHORT")%string;
            (ot ++ "_SPREAD")%string]
           (fun f => [f l; f s; (f l - f s)%float])), w).
Proof. reflexivity. Qed.

Lemma collar_of_rows c p w :
  (structure <- DataFrame_of_array
                  (np_sub (values (rows_frame ["PUT"] (fun f => [f p])))
                     (values (rows_frame ["CALL"] (fun f => [f c]))))
                  ["COLLAR"] greek_index ;;
   ret (concat_axis1 [rows_frame ["CALL"] (fun f => [f c]);
                      rows_frame ["PUT"] (fun f => [f p]); structure]))%py w
  = (Ok (rows_frame ["CALL"; "PUT"; "COLLAR"]
           (fun f => [f c; f p; (f p - f c)%float])), w).
Proof. reflexivity. Qed.

Lemma butterfly_of_rows ot lo mi hi w :
  (low_label <- getitem (columns (rows_frame [ot] (fun f => [f lo]))) 0 ;;
   option_price_low <- set_columns (rows_frame [ot] (fun f => [f lo]))
                         [(low_label ++ "_LOW")%string] ;;
   middle_label <- getitem (columns (rows_frame [ot] (fun f => [f mi]))) 0 ;;
   option_price_middle <- set_columns (rows_frame [ot] (fun f => [f mi]))
                            [(middle_label ++ "_MIDDLE")%string] ;;
   high_label <- getitem (columns (rows_frame [ot] (fun f => [f hi]))) 0 ;;
   option_price_high <- set_columns (rows_frame [ot] (fun f => [f hi]))
                          [(high_label ++ "_HIGH")%string] ;;
   structure <- DataFrame_of_array
                  (np_add
                     (np_sub (values option_price_low)
                        (np_scale 2 (values option_price_middle)))
                     (values option_price_high))
                  [(ot ++ "_BUTTERFLY")%string] greek_index ;;
   ret (concat_axis1
          [option_price_low; option_price_middle; option_price_high;
           structure]))%py w
  = (Ok (rows_frame
           [(ot ++ "_LOW")%string; (ot ++ "_MIDDLE")%string;
            (ot ++ "_HIGH")%string; (ot ++ "_BUTTERFLY")%string]
           (fun f => [f lo; f mi; f hi; (f lo - 2 * f mi + f hi)%float])), w).
Proof. reflexivity. Qed.

(** C3.  When comdty_vanilla_option prices the long leg and then the short
    leg (same dates, option type, exercise style, forward, curve and
    surface), comdty_vanilla_option_spread returns the frame whose columns
    are labelled option_type_LONG, option_type_SHORT and option_type_SPREAD
    and whose row for each of price, delta, gamma, theta, vega and rho holds
    the long leg's number, the short leg's number and, in the spread column,
    exactly their floating-point difference long minus short. *)
Theorem spread_is_long_minus_short ev ex fwd K_long K_short ot et steps vol
  curve w L w1 S w2 :
  comdty_vanilla_option lib ev ex fwd K_long ot et steps vol curve w
  = (Ok L, w1) ->
  comdty_vanilla_option lib ev ex fwd K_short ot et steps vol curve w1
  = (Ok S, w2) ->
  exists l s,
    L = rows_frame [ot] (fun f => [f l]) /\
    S = rows_frame [ot] (fun f => [f s]) /\
    comdty_vanilla_option_spread lib ev ex fwd K_long K_short ot et steps vol
      curve w
    = (Ok (rows_frame
             [(ot ++ "_LONG")%string; (ot ++ "_SHORT")%string;
              (ot ++ "_SPREAD")%string]
             (fun f => [f l; f s; (f l - f s)%float])), w2).
Proof.
  intros HL HS.
  destruct (option_frame_rows _ _ _ _ _ _ _ _ _ _ _ _ HL) as (l & ->).
  destruct (option_frame_rows _ _ _ _ _ _ _ _ _ _ _ _ HS) as (s & ->).
  exists l, s. repeat split.
  unfold comdty_vanilla_option_spread.
  rewrite (bind_run _ _ _ _ _ HL), (bind_run _ _ _ _ _ HS).
  apply spread_of_rows.
Qed.

End Structures.

Lemma spread_is_long_minus_short_witness :
  exists L w1 S w2,
    comdty_vanilla_option Sample.library (Sample.date 2025 1 1)
      (Sample.date 2025 7 1) 105 100 "CALL" "AMERICAN" (Some 100)
      (Sample.flat_vol 0.2) (Sample.flat_curve 0.05) Sample.world
    = (Ok L, w1) /\
    comdty_vanilla_option Sample.library (Sample.date 2025 1 1)
      (Sample.date 2025 7 1) 105 110 "CALL" "AMERICAN" (Some 100)
      (Sample.flat_vol 0.2) (Sample.flat_curve 0.05) w1
    = (Ok S, w2) /\
    exists l s,
      L = rows_frame ["CALL"] (fun f => [f l]) /\
      S = rows_frame ["CALL"] (fun f => [f s]) /\
      comdty_vanilla_option_spread Sample.library (Sample.date 2025 1 1)
        (Sample.date 2025 7 1) 105 100 110 "CALL" "AMERICAN" (Some 100)
        (Sample.flat_vol 0.2) (Sample.flat_curve 0.05) Sample.world
      = (Ok (rows_frame ["CALL_LONG"; "CALL_SHORT"; "CALL_SPREAD"]
               (fun f => [f l; f s; (f l - f s)%float])), w2).
Proof.
  eexists _, _, _, _.
  split; [vm_compute; reflexivity|].
  split; [vm_compute; reflexivity|].
  eapply spread_is_long_minus_short; vm_compute; reflexivity.
Defined.

Section RowOrder.

Variable lib : Library.
Variables ev ex : datetime.
Variable fwd : float.
Variables ot et : string.
Variable steps : option Z.
Variable vol : BlackVolTermStructure.
Variable curve : YieldTermStructure.

Local Abbreviation leg K tp := (comdty_vanilla_option lib ev ex fwd K tp et steps vol curve).

Lemma calculate_ok_inv g opt w a w1 :
  calculate lib g opt w = (Ok a, w1) ->
  instruments w1 = instruments w /\ evaluationDate w1 = evaluationDate w /\
  forall w2, instruments w2 = instruments w ->
             evaluationDate w2 = evaluationDate w ->
             fst (calculate lib g opt w2) = Ok a.
Proof.
  unfold calculate. intros H.
  destruct (instruments w !! opt) as [o|] eqn:Eo; [|discriminate].
  destruct (opt_engine o) as [e|] eqn:Ee; [|discriminate].
  cbn in H. injection H as Ha <-. cbn. repeat split.
  intros w2 Hi Hd. rewrite Hi, Eo, Ee, Hd. cbn. exact Ha.
Qed.

Lemma require_ok_inv c w u w1 : require lib c w = (Ok u, w1) -> w1 = w.
Proof.
  unfold require, raise, ret. destruct (ql_require lib c); intros H;
    inversion H; reflexivity.
Qed.

Lemma py_int_ok_inv v w n w1 : py_int v w = (Ok n, w1) -> w1 = w.
Proof.
  unfold py_int, raise, ret. destruct v; intros H; inversion H; reflexivity.
Qed.

(** The frame of one option, read row by row: the labels as returned, and
    under each label the answer of the option object the call created, in
    the state the call leaves. *)
Lemma option_rows K w F w' :
  leg K ot w = (Ok F, w') ->
  let opt := length (instruments w) in
  index F = ["price"; "delta"; "gamma"; "theta"; "vega"; "rho"] /\
  columns F = [ot] /\
  (exists a, row_under F "price" = Some [a] /\ fst (NPV lib opt w') = Ok a) /\
  (exists b, row_under F "delta" = Some [b] /\ fst (delta lib opt w') = Ok b) /\
  (exists c, row_under F "gamma" = Some [c] /\ fst (gamma lib opt w') = Ok c) /\
  (exists d, row_under F "theta" = Some [d] /\ fst (theta lib opt w') = Ok d) /\
  (exists v r,
     row_under F "vega" = Some [v] /\ row_under F "rho" = Some [r] /\
     if String.eqb (upper et) "AMERICAN"
     then exists w1 w2 w3,
            estimate_vega lib opt (base_process fwd curve vol) vol K
              (py_to_ql_date ex) steps None w1 = (Ok v, w2) /\
            estimate_rho lib opt (base_process fwd curve vol) curve vol
              (py_to_ql_date ex) steps None w2 = (Ok r, w3) /\
            instruments w' = instruments w3 /\
            evaluationDate w' = evaluationDate w3
     else fst (vega lib opt w') = Ok v /\ fst (rho lib opt w') = Ok r).
Proof.
  intros H opt. unfold comdty_vanilla_option in H.
  apply bind_ok_inv in H. destruct H as (? & w1 & E1 & H).
  apply bind_ok_inv in H. destruct H as (p & w2 & E2 & H).
  apply bind_ok_inv in H. destruct H as ([[o v] r] & w3 & E3 & H).
  apply bind_ok_inv in H. destruct H as (a & w4 & Ea & H).
  apply bind_ok_inv in H. destruct H as (b & w5 & Eb & H).
  apply bind_ok_inv in H. destruct H as (c & w6 & Ec & H).
  apply bind_ok_inv in H. destruct H as (d & w7 & Ed & H).
  cbn in H. injection H as <- <-.
  apply calculate_ok_inv in Ea, Eb, Ec, Ed.
  destruct Ea as (Ia & Da & Ha), Eb as (Ib & Db & Hb), Ec as (Ic & Dc & Hc),
    Ed as (Id & Dd & Hd).
  assert (I2 : instruments w2 = instruments w).
  { unfold set_evaluationDate in E1. injection E1 as _ <-.
    unfold new_BlackProcess in E2. cbn in E2. injection E2 as _ <-.
    reflexivity. }
  assert (Ho : o = opt /\
               if String.eqb (upper et) "AMERICAN"
               then exists wa wb wc,
                      estimate_vega lib o (base_process fwd curve vol) vol K
                        (py_to_ql_date ex) steps None wa = (Ok v, wb) /\
                      estimate_rho lib o (base_process fwd curve vol) curve
                        vol (py_to_ql_date ex) steps None wb = (Ok r, wc) /\
                      w3 = wc
               else fst (vega lib o w3) = Ok v /\ fst (rho lib o w3) = Ok r).
  { unfold new_BlackProcess in E2. cbn in E2. injection E2 as <- _.
    destruct (String.eqb (upper et) "AMERICAN").
    - apply bind_ok_inv in E3. destruct E3 as (xr & wa & Ex & E3).
      unfold new_AmericanExercise in Ex.
      apply bind_ok_inv in Ex. destruct Ex as (? & wx & Ex & Ex').
      apply require_ok_inv in Ex. cbn in Ex'. injection Ex' as <- <-. subst wx.
      apply bind_ok_inv in E3. destruct E3 as (n & wb & En & E3).
      apply py_int_ok_inv in En. subst wb.
      apply bind_ok_inv in E3. destruct E3 as (e & wc & Ee & E3).
      unfold new_BinomialCRRVanillaEngine in Ee.
      apply bind_ok_inv in Ee. destruct Ee as (? & wy & Ee & Ee').
      apply require_ok_inv in Ee. cbn in Ee'. injection Ee' as <- <-. subst wy.
      apply bind_ok_inv in E3. destruct E3 as (o' & wd & Eo & E3).
      unfold new_VanillaOption in Eo. injection Eo as <- <-.
      apply bind_ok_inv in E3. destruct E3 as (? & we & Es & E3).
      apply bind_ok_inv in E3. destruct E3 as (v' & wf & Ev & E3).
      apply bind_ok_inv in E3. destruct E3 as (r' & wg & Er & E3).
      cbn in E3. injection E3 as <- <- <- <-.
      split; [now rewrite I2|].
      exists we, wf, wg. auto.
    - apply bind_ok_inv in E3. destruct E3 as (o' & wd & Eo & E3).
      unfold new_VanillaOption in Eo. injection Eo as <- <-.
      apply bind_ok_inv in E3. destruct E3 as (? & we & Es & E3).
      apply bind_ok_inv in E3. destruct E3 as (v' & wf & Ev & E3).
      apply bind_ok_inv in E3. destruct E3 as (r' & wg & Er & E3).
      cbn in E3. injection E3 as <- <- <- <-.
      split; [now rewrite I2|].
      apply calculate_ok_inv in Ev, Er.
      destruct Ev as (Iv & Dv & Hv), Er as (Ir & Dr & Hr).
      split; [apply Hv | apply Hr]; congruence. }
  destruct Ho as (-> & Ho).
  assert (I7 : instruments w7 = instruments w3) by congruence.
  assert (D7 : evaluationDate w7 = evaluationDate w3) by congruence.
  split; [reflexivity|]. split; [reflexivity|].
  split; [exists a; split; [reflexivity|apply Ha; congruence]|].
  split; [exists b; split; [reflexivity|apply Hb; congruence]|].
  split; [exists c; split; [reflexivity|apply Hc; congruence]|].
  split; [exists d; split; [reflexivity|apply Hd; congruence]|].
  exists v, r. split; [reflexivity|]. split; [reflexivity|].
  destruct (String.eqb (upper et) "AMERICAN").
  - destruct Ho as (wa & wb & wc & Hv & Hr & ->). exists wa, wb, wc. auto.
  - destruct Ho as (Hv & Hr). unfold vega, rho in *.
    destruct (calculate lib G_vega opt w3) as [rv wv] eqn:Ev.
    destruct (calculate lib G_rho opt w3) as [rr wr] eqn:Er.
    cbn in Hv, Hr. subst rv rr.
    apply calculate_ok_inv in Ev, Er.
    destruct Ev as (_ & _ & Hv), Er as (_ & _ & Hr).
    split; [apply Hv | apply Hr]; assumption.
Qed.

(** The frames of the structures, read row by row against the frames of
    their legs. *)
Lemma spread_rows K1 K2 w F w' :
  comdty_vanilla_option_spread lib ev ex fwd K1 K2 ot et steps vol curve w
  = (Ok F, w') ->
  exists L S w1,
    leg K1 ot w = (Ok L, w1) /\ leg K2 ot w1 = (Ok S, w') /\
    index F = ["price"; "delta"; "gamma"; "theta"; "vega"; "rho"] /\
    columns F = [(ot ++ "_LONG")%string; (ot ++ "_SHORT")%string;
                 (ot ++ "_SPREAD")%string] /\
    Forall
      (fun label =>
         exists l s,
           row_under L label = Some [l] /\ row_under S label = Some [s] /\
           row_under F label = Some [l; s; (l - s)%float])
      ["price"; "delta"; "gamma"; "theta"; "vega"; "rho"].
Proof.
  unfold comdty_vanilla_option_spread. intros H.
  destruct (leg K1 ot w) as [[L|e] w1] eqn:EL;
    [|rewrite (bind_raise _ _ _ _ _ EL) in H; discriminate].
  rewrite (bind_run _ _ _ _ _ EL) in H.
  destruct (leg K2 ot w1) as [[S|e] w2] eqn:ES;
    [|rewrite (bind_raise _ _ _ _ _ ES) in H; discriminate].
  rewrite (bind_run _ _ _ _ _ ES) in H.
  destruct (option_frame_rows _ _ _ _ _ _ _ _ _ _ _ _ _ EL) as (l & ->).
  destruct (option_frame_rows _ _ _ _ _ _ _ _ _ _ _ _ _ ES) as (s & ->).
  rewrite spread_of_rows in H. injection H as <- <-.
  eexists _, _, _. split; [reflexivity|]. split; [exact ES|].
  split; [reflexivity|]. split; [reflexivity|].
  repeat constructor; eexists _, _; repeat split.
Qed.

Lemma collar_rows K1 K2 w F w' :
  comdty_vanilla_option_collar lib ev ex fwd K1 K2 et steps vol curve w
  = (Ok F, w') ->
  exists C P w1,
    leg K1 "CALL" w = (Ok C, w1) /\ leg K2 "PUT" w1 = (Ok P, w') /\
    index F = ["price"; "delta"; "gamma"; "theta"; "vega"; "rho"] /\
    columns F = ["CALL"; "PUT"; "COLLAR"] /\
    Forall
      (fun label =>
         exists c p,
           row_under C label = Some [c] /\ row_under P label = Some [p] /\
           row_under F label = Some [c; p; (p - c)%float])
      ["price"; "delta"; "gamma"; "theta"; "vega"; "rho"].
Proof.
  unfold comdty_vanilla_option_collar. intros H.
  destruct (leg K1 "CALL" w) as [[C|e] w1] eqn:EC;
    [|rewrite (bind_raise _ _ _ _ _ EC) in H; discriminate].
  rewrite (bind_run _ _ _ _ _ EC) in H.
  destruct (leg K2 "PUT" w1) as [[P|e] w2] eqn:EP;
    [|rewrite (bind_raise _ _ _ _ _ EP) in H; discriminate].
  rewrite (bind_run _ _ _ _ _ EP) in H.
  destruct (option_frame_rows _ _ _ _ _ _ _ _ _ _ _ _ _ EC) as (c & ->).
  destruct (option_frame_rows _ _ _ _ _ _ _ _ _ _ _ _ _ EP) as (p & ->).
  rewrite collar_of_rows in H. injection H as <- <-.
  eexists _, _, _. split; [reflexivity|]. split; [exact EP|].
  split; [reflexivity|]. split; [reflexivity|].
  repeat constructor; eexists _, _; repeat split.
Qed.

Lemma butterfly_rows K1 K2 K3 w F w' :
  comdty_vanilla_option_butterfly lib ev ex fwd K1 K2 K3 ot et steps vol
    curve w
  = (Ok F, w') ->
  exists Lo Mi Hi w1 w2,
    leg K1 ot w = (Ok Lo, w1) /\ leg K2 ot w1 = (Ok Mi, w2) /\
    leg K3 ot w2 = (Ok Hi, w') /\
    index F = ["price"; "delta"; "gamma"; "theta"; "vega"; "rho"] /\
    columns F = [(ot ++ "_LOW")%string; (ot ++ "_MIDDLE")%string;
                 (ot ++ "_HIGH")%string; (ot ++ "_BUTTERFLY")%string] /\
    Forall
      (fun label =>
         exists lo mi hi,
           row_under Lo label = Some [lo] /\ row_under Mi label = Some [mi] /\
           row_under Hi label = Some [hi] /\
           row_under F label
           = Some [lo; mi; hi; (lo - 2 * mi + hi)%float])
      ["price"; "delta"; "gamma"; "theta"; "vega"; "rho"].
Proof.
  unfold comdty_vanilla_option_butterfly. intros H.
  destruct (leg K1 ot w) as [[Lo|e] w1] eqn:EL;
    [|rewrite (bind_raise _ _ _ _ _ EL) in H; discriminate].
  rewrite (bind_run _ _ _ _ _ EL) in H.
  destruct (leg K2 ot w1) as [[Mi|e] w2] eqn:EM;
    [|rewrite (bind_raise _ _ _ _ _ EM) in H; discriminate].
  rewrite (bind_run _ _ _ _ _ EM) in H.
  destruct (leg K3 ot w2) as [[Hi|e] w3] eqn:EH;
    [|rewrite (bind_raise _ _ _ _ _ EH) in H; discriminate].
  rewrite (bind_run _ _ _ _ _ EH) in H.
  destruct (option_frame_rows _ _ _ _ _ _ _ _ _ _ _ _ _ EL) as (lo & ->).
  destruct (option_frame_rows _ _ _ _ _ _ _ _ _ _ _ _ _ EM) as (mi & ->).
  destruct (option_frame_rows _ _ _ _ _ _ _ _ _ _ _ _ _ EH) as (hi & ->).
  rewrite butterfly_of_rows in H. injection H as <- <-.
  eexists _, _, _, _, _. split; [reflexivity|]. split; [exact EM|].
  split; [exact EH|]. split; [reflexivity|]. split; [reflexivity|].
  repeat constructor; eexists _, _, _; repeat split.
Qed.

(** C10.  Every frame returned by the single-option pricer and by the
    spread, collar and butterfly builders has the row labels price, delta,
    gamma, theta, vega, rho, in this order.  In the frame of a single option
    the rows price, delta, gamma and theta hold what NPV(), delta(), gamma()
    and theta() of the option object the call created answer in the state
    the call leaves; the rows vega and rho hold what vega() and rho() of
    that object answer for a European exercise, and what estimate_vega and
    estimate_rho returned for an American one.  In the frame of a structure
    the row under each of the six labels holds, column by column, the
    numbers the legs' own frames hold under that same label, followed by
    their combination: long, short, long - short for the spread; call, put,
    put - call for the collar; low, middle, high, low - 2 * middle + high
    for the butterfly.  The exercise_type is ASCII text. *)
Theorem greek_rows_fixed_across_columns w :
  is_ascii et = true ->
  (forall K F w',
     leg K ot w = (Ok F, w') ->
     let opt := length (instruments w) in
     index F = ["price"; "delta"; "gamma"; "theta"; "vega"; "rho"] /\
     columns F = [ot] /\
     (exists a,
        row_under F "price" = Some [a] /\ fst (NPV lib opt w') = Ok a) /\
     (exists b,
        row_under F "delta" = Some [b] /\ fst (delta lib opt w') = Ok b) /\
     (exists c,
        row_under F "gamma" = Some [c] /\ fst (gamma lib opt w') = Ok c) /\
     (exists d,
        row_under F "theta" = Some [d] /\ fst (theta lib opt w') = Ok d) /\
     (exists v r,
        row_under F "vega" = Some [v] /\ row_under F "rho" = Some [r] /\
        if String.eqb (upper et) "AMERICAN"
        then exists w1 w2 w3,
               estimate_vega lib opt (base_process fwd curve vol) vol K
                 (py_to_ql_date ex) steps None w1 = (Ok v, w2) /\
               estimate_rho lib opt (base_process fwd curve vol) curve vol
                 (py_to_ql_date ex) steps None w2 = (Ok r, w3) /\
               instruments w' = instruments w3 /\
               evaluationDate w' = evaluationDate w3
        else fst (vega lib opt w') = Ok v /\ fst (rho lib opt w') = Ok r)) /\
  (forall K1 K2 F w',
     comdty_vanilla_option_spread lib ev ex fwd K1 K2 ot et steps vol curve w
     = (Ok F, w') ->
     exists L S w1,
       leg K1 ot w = (Ok L, w1) /\ leg K2 ot w1 = (Ok S, w') /\
       index F = ["price"; "delta"; "gamma"; "theta"; "vega"; "rho"] /\
       columns F = [(ot ++ "_LONG")%string; (ot ++ "_SHORT")%string;
                    (ot ++ "_SPREAD")%string] /\
       Forall
         (fun label =>
            exists l s,
              row_under L label = Some [l] /\ row_under S label = Some [s] /\
              row_under F label = Some [l; s; (l - s)%float])
         ["price"; "delta"; "gamma"; "theta"; "vega"; "rho"]) /\
  (forall K1 K2 F w',
     comdty_vanilla_option_collar lib ev ex fwd K1 K2 et steps vol curve w
     = (Ok F, w') ->
     exists C P w1,
       leg K1 "CALL" w = (Ok C, w1) /\ leg K2 "PUT" w1 = (Ok P, w') /\
       index F = ["price"; "delta"; "gamma"; "theta"; "vega"; "rho"] /\
       columns F = ["CALL"; "PUT"; "COLLAR"] /\
       Forall
         (fun label =>
            exists c p,
              row_under C label = Some [c] /\ row_under P label = Some [p] /\
              row_under F label = Some [c; p; (p - c)%float])
         ["price"; "delta"; "gamma"; "theta"; "vega"; "rho"]) /\
  (forall K1 K2 K3 F w',
     comdty_vanilla_option_butterfly lib ev ex fwd K1 K2 K3 ot et steps vol
       curve w
     = (Ok F, w') ->
     exists Lo Mi Hi w1 w2,
       leg K1 ot w = (Ok Lo, w1) /\ leg K2 ot w1 = (Ok Mi, w2) /\
       leg K3 ot w2 = (Ok Hi, w') /\
       index F = ["price"; "delta"; "gamma"; "theta"; "vega"; "rho"] /\
       columns F = [(ot ++ "_LOW")%string; (ot ++ "_MIDDLE")%string;
                    (ot ++ "_HIGH")%string; (ot ++ "_BUTTERFLY")%string] /\
       Forall
         (fun label =>
            exists lo mi hi,
              row_under Lo label = Some [lo] /\
              row_under Mi label = Some [mi] /\
              row_under Hi label = Some [hi] /\
              row_under F label
              = Some [lo; mi; hi; (lo - 2 * mi + hi)%float])
         ["price"; "delta"; "gamma"; "theta"; "vega"; "rho"]).
Proof.
  intros _. split; [|split; [|split]].
  - intros K F w'. apply option_rows.
  - intros K1 K2 F w'. apply spread_rows.
  - intros K1 K2 F w'. apply collar_rows.
  - intros K1 K2 K3 F w'. apply butterfly_rows.
Qed.

End RowOrder.

(** On the sample library the spread of two American calls returns a frame
    under the six labels whose every row reads long, short, long - short. *)
Lemma greek_rows_fixed_across_columns_witness :
  exists F,
    fst (comdty_vanilla_option_spread Sample.library (Sample.date 2025 1 1)
           (Sample.date 2025 7 1) 105 100 110 "CALL" "AMERICAN" (Some 50)
           (Sample.flat_vol 0.2) (Sample.flat_curve 0.05) Sample.world)
    = Ok F /\
    index F = ["price"; "delta"; "gamma"; "theta"; "vega"; "rho"] /\
    columns F = ["CALL_LONG"; "CALL_SHORT"; "CALL_SPREAD"] /\
    Forall
      (fun label =>
         exists l s, row_under F label = Some [l; s; (l - s)%float])
      ["price"; "delta"; "gamma"; "theta"; "vega"; "rho"].
Proof.
  destruct (comdty_vanilla_option_spread Sample.library
              (Sample.date 2025 1 1) (Sample.date 2025 7 1) 105 100 110
              "CALL" "AMERICAN" (Some 50) (Sample.flat_vol 0.2)
              (Sample.flat_curve 0.05) Sample.world) as [[F|e] w'] eqn:E.
  - destruct (proj1 (proj2 (greek_rows_fixed_across_columns Sample.library
                              (Sample.date 2025 1 1) (Sample.date 2025 7 1)
                              105 "CALL" "AMERICAN" (Some 50)
                              (Sample.flat_vol 0.2) (Sample.flat_curve 0.05)
                              Sample.world eq_refl))
                100%float 110%float F w' E)
      as (L & S & w1 & _ & _ & Hi & Hc & Hrows).
    exists F. split; [reflexivity|]. split; [exact Hi|].
    split; [exact Hc|].
    eapply Forall_impl; [exact Hrows|].
    intros label (l & s & _ & _ & H). now exists l, s.
  - assert (H : is_ok
                  (fst (comdty_vanilla_option_spread Sample.library
                          (Sample.date 2025 1 1) (Sample.date 2025 7 1) 105
                          100 110 "CALL" "AMERICAN" (Some 50)
                          (Sample.flat_vol 0.2) (Sample.flat_curve 0.05)
                          Sample.world)) = true)
      by (vm_compute; reflexivity).
    rewrite E in H. discriminate.
Defined.

(** The four operations do return frames: runs on the sample library. *)
Example structures_return :
  is_ok (fst (comdty_vanilla_option_spread Sample.library
                (Sample.date 2025 1 1) (Sample.date 2025 7 1) 105 100 110
                "PUT" "EUROPEAN" None (Sample.flat_vol 0.2)
                (Sample.flat_curve 0.05) Sample.world)) = true /\
  is_ok (fst (comdty_vanilla_option_collar Sample.library
                (Sample.date 2025 1 1) (Sample.date 2025 7 1) 105 110 100
                "AMERICAN" (Some 50) (Sample.flat_vol 0.2)
                (Sample.flat_curve 0.05) Sample.world)) = true /\
  is_ok (fst (comdty_vanilla_option_butterfly Sample.library
                (Sample.date 2025 1 1) (Sample.date 2025 7 1) 105 90 100 110
                "CALL" "AMERICAN" (Some 50) (Sample.flat_vol 0.2)
                (Sample.flat_curve 0.05) Sample.world)) = true.
Proof. vm_compute. auto. Qed.

(** On the sample library the report of an American call is the valuation at
    the rate 0.05 - 0.001, and differs from the valuation of the engine the
    call built from the caller's curve. *)
Lemma american_report_uses_rate_down_engine_witness :
  exists reported base frame,
    fst (comdty_vanilla_option Sample.library (Sample.date 2025 1 1)
           (Sample.date 2025 7 1) 105 100 "CALL" "AMERICAN" (Some 100)
           (Sample.flat_vol 0.2) (Sample.flat_curve 0.05) Sample.world)
    = Ok frame /\
    values frame !! 0%nat = Some [reported] /\
    ql_calculate Sample.library G_NPV
      (py_to_ql_date (Sample.date 2025 1 1))
      (BinomialCRRVanillaEngine
         (base_process 105 (Sample.flat_curve 0.05) (Sample.flat_vol 0.2)) 100)
      (contract "CALL" 100)
      (AmericanExercise (py_to_ql_date (Sample.date 2025 1 1))
         (py_to_ql_date (Sample.date 2025 7 1)))
    = Ok base /\
    (reported =? base)%float = false.
Proof.
  eexists _, _, _.
  split.
  { eapply (american_report_uses_rate_down_engine Sample.library);
      vm_compute; reflexivity. }
  split; [reflexivity|].
  split; vm_compute; reflexivity.
Defined.

(** ** The finite-difference estimators *)

Section FiniteDifferences.

Variable lib : Library.
Variable opt : nat.
Variable process : BlackProcess.
Variable volatility : BlackVolTermStructure.
Variable yield_curve : YieldTermStructure.
Variable strike_price : float.
Variable expiry_date : Date.
Variable n : Z.
Variables bump_vol bump_rate : option float.

(** The state the estimators start from: the option [o] is in the store. *)
Variable today : Date.
Variable store : list VanillaOption.
Variable clk : Z.
Variable tr : list Event.
Variable o : VanillaOption.

Let w := {| evaluationDate := today; instruments := store; clock := clk;
            trace := tr |}.
Let bv := default 0.01%float bump_vol.
Let br := default 0.001%float bump_rate.

(** The library's answers. *)
Variables sigma rate vega_up vega_down rho_up rho_down : float.

Let vega_process (level : float) :=
  vol_bumped_process process volatility today level.
Let rho_process (level : float) :=
  rate_bumped_process process yield_curve volatility today level.

Hypothesis option_in_store : store !! opt = Some o.
Hypothesis vol_quoted :
  ql_blackVol lib volatility expiry_date strike_price = Ok sigma.
Hypothesis rate_quoted :
  ql_zeroRate lib yield_curve expiry_date (yts_dayCounter yield_curve)
    Continuous Annual = Ok rate.
Hypothesis vega_engines_accepted :
  ql_require lib
    (ChkEngine (BinomialCRRVanillaEngine (vega_process (sigma + bv)%float) n))
  = None /\
  ql_require lib
    (ChkEngine (BinomialCRRVanillaEngine (vega_process (sigma - bv)%float) n))
  = None.
Hypothesis rho_engines_accepted :
  ql_require lib
    (ChkEngine (BinomialCRRVanillaEngine (rho_process (rate + br)%float) n))
  = None /\
  ql_require lib
    (ChkEngine (BinomialCRRVanillaEngine (rho_process (rate - br)%float) n))
  = None.
Hypothesis vega_repriced :
  ql_calculate lib G_NPV today
    (BinomialCRRVanillaEngine (vega_process (sigma + bv)%float) n)
    (opt_payoff o) (opt_exercise o) = Ok vega_up /\
  ql_calculate lib G_NPV today
    (BinomialCRRVanillaEngine (vega_process (sigma - bv)%float) n)
    (opt_payoff o) (opt_exercise o) = Ok vega_down.
Hypothesis rho_repriced :
  ql_calculate lib G_NPV today
    (BinomialCRRVanillaEngine (rho_process (rate + br)%float) n)
    (opt_payoff o) (opt_exercise o) = Ok rho_up /\
  ql_calculate lib G_NPV today
    (BinomialCRRVanillaEngine (rho_process (rate - br)%float) n)
    (opt_payoff o) (opt_exercise o) = Ok rho_down.

End FiniteDifferences.


(** ** Option type and exercise style strings *)

Section Enums.

Variable lib : Library.
Variables ev ex : datetime.
Variables fwd K : float.
Variable steps : option Z.
Variable vol : BlackVolTermStructure.
Variable curve : YieldTermStructure.

Lemma priced_as_put ot et w :
  String.eqb (upper ot) "CALL" = false ->
  comdty_vanilla_option lib ev ex fwd K ot et steps vol curve w
  = (F <- comdty_vanilla_option lib ev ex fwd K "PUT" et steps vol curve ;;
     ret (relabel F [ot]))%py w.
Proof.
  intros Hot. unfold comdty_vanilla_option. rewrite Hot.
  change (String.eqb (upper "PUT") "CALL") with false. cbv iota.
  rewrite bind_assoc. apply bind_ext. intros _ w1.
  rewrite bind_assoc. apply bind_ext. intros p w2.
  rewrite bind_assoc. apply bind_ext. intros [[opt v] r] w3.
  rewrite bind_assoc. apply bind_ext. intros a w4.
  rewrite bind_assoc. apply bind_ext. intros b w5.
  rewrite bind_assoc. apply bind_ext. intros c w6.
  rewrite bind_assoc. apply bind_ext. intros d w7.
  reflexivity.
Qed.

Lemma priced_as_european ot et w :
  String.eqb (upper et) "AMERICAN" = false ->
  comdty_vanilla_option lib ev ex fwd K ot et steps vol curve w
  = comdty_vanilla_option lib ev ex fwd K ot "EUROPEAN" steps vol curve w.
Proof.
  intros Het. unfold comdty_vanilla_option. rewrite Het.
  change (String.eqb (upper "EUROPEAN") "AMERICAN") with false.
  reflexivity.
Qed.

(** C2 (amended).  comdty_vanilla_option checks neither string.  An ASCII
    option_type whose upper-case form is not CALL is priced as a PUT: the
    call has the outcome and the effects of the same call with 'PUT', the
    column carrying the given string.  An ASCII exercise_type whose
    upper-case form is not AMERICAN is priced as EUROPEAN: the call is the
    same call with 'EUROPEAN'.  No error names the value or the field.
    (Outside ASCII Python's upper() reaches further: it turns a dotless i
    into I, so that spelling of american is priced as AMERICAN.) *)
Theorem unrecognized_strings_default_to_put_and_european ot et w :
  is_ascii ot = true ->
  is_ascii et = true ->
  String.eqb (upper ot) "CALL" = false ->
  String.eqb (upper et) "AMERICAN" = false ->
  (forall et',
     comdty_vanilla_option lib ev ex fwd K ot et' steps vol curve w
     = (F <- comdty_vanilla_option lib ev ex fwd K "PUT" et' steps vol curve ;;
        ret (relabel F [ot]))%py w) /\
  (forall ot',
     comdty_vanilla_option lib ev ex fwd K ot' et steps vol curve w
     = comdty_vanilla_option lib ev ex fwd K ot' "EUROPEAN" steps vol curve w).
Proof.
  intros _ _ Hot Het. split; intros.
  - now apply priced_as_put.
  - now apply priced_as_european.
Qed.

End Enums.

Lemma unrecognized_strings_default_to_put_and_european_witness :
  comdty_vanilla_option Sample.library (Sample.date 2025 1 1)
    (Sample.date 2025 7 1) 105 110 "straddle" "AMERICAN" (Some 10)
    (Sample.flat_vol 0.2) (Sample.flat_curve 0.05) Sample.world
  = (F <- comdty_vanilla_option Sample.library (Sample.date 2025 1 1)
            (Sample.date 2025 7 1) 105 110 "PUT" "AMERICAN" (Some 10)
            (Sample.flat_vol 0.2) (Sample.flat_curve 0.05) ;;
     ret (relabel F ["straddle"]))%py Sample.world /\
  comdty_vanilla_option Sample.library (Sample.date 2025 1 1)
    (Sample.date 2025 7 1) 105 110 "call" "Bermudan" (Some 10)
    (Sample.flat_vol 0.2) (Sample.flat_curve 0.05) Sample.world
  = comdty_vanilla_option Sample.library (Sample.date 2025 1 1)
      (Sample.date 2025 7 1) 105 110 "call" "EUROPEAN" (Some 10)
      (Sample.flat_vol 0.2) (Sample.flat_curve 0.05) Sample.world.
Proof.
  destruct (unrecognized_strings_default_to_put_and_european Sample.library
              (Sample.date 2025 1 1) (Sample.date 2025 7 1) 105 110 (Some 10)
              (Sample.flat_vol 0.2) (Sample.flat_curve 0.05)
              "straddle" "Bermudan" Sample.world eq_refl eq_refl eq_refl
              eq_refl) as [H1 H2].
  split; [apply H1 | apply H2].
Defined.

(** C2 (as stated) fails: with option_type 'STRADDLE' and exercise_type
    'BERMUDAN' the call returns a frame, the one of a European put, under
    the column label STRADDLE. *)
Lemma unrecognized_strings_are_priced :
  exists F,
    fst (comdty_vanilla_option Sample.library (Sample.date 2025 1 1)
           (Sample.date 2025 7 1) 105 110 "STRADDLE" "BERMUDAN" None
           (Sample.flat_vol 0.2) (Sample.flat_curve 0.05) Sample.world)
    = Ok F /\
    columns F = ["STRADDLE"] /\
    fst (comdty_vanilla_option Sample.library (Sample.date 2025 1 1)
           (Sample.date 2025 7 1) 105 110 "PUT" "EUROPEAN" None
           (Sample.flat_vol 0.2) (Sample.flat_curve 0.05) Sample.world)
    = Ok (relabel F ["PUT"]).
Proof.
  eexists. split; [vm_compute; reflexivity|].
  split; vm_compute; reflexivity.
Qed.

(** ** What a call leaves in the trace *)

Lemma extends_ret {A} (a : A) : extends_trace (ret a).
Proof. intros w. now exists []. Qed.

Lemma extends_raise {A} (e : Exn) : extends_trace (@raise A e).
Proof. intros w. now exists []. Qed.

Lemma extends_lift {A} (r : Res A) : extends_trace (lift r).
Proof. intros w. now exists []. Qed.

Lemma extends_log ev : extends_trace (log ev).
Proof. intros w. now exists [ev]. Qed.

Lemma extends_bind {A B} (m : M A) (k : A -> M B) :
  extends_trace m -> (forall a, extends_trace (k a)) -> extends_trace (bind m k).
Proof.
  intros Hm Hk w. unfold bind. destruct (Hm w) as (evs & E).
  destruct (m w) as [[a|e] w1]; cbn in *.
  - destruct (Hk a w1) as (evs' & E'). exists (evs' ++ evs).
    now rewrite E', E, app_assoc.
  - now exists evs.
Qed.

Lemma extends_py_int v : extends_trace (py_int v).
Proof. destruct v; [apply extends_ret | apply extends_raise]. Qed.

Lemma extends_truediv a b : extends_trace (py_truediv a b).
Proof. apply extends_lift. Qed.

Lemma extends_frame data cols idx : extends_trace (DataFrame_of_list data cols idx).
Proof.
  unfold DataFrame_of_list. destruct (_ && _)%bool;
    [apply extends_ret | apply extends_raise].
Qed.

Lemma extends_today : extends_trace get_evaluationDate.
Proof. intros w. now exists []. Qed.

Lemma extends_new_option pay x : extends_trace (new_VanillaOption pay x).
Proof. intros w. now exists []. Qed.

Lemma extends_set_engine i e : extends_trace (setPricingEngine i e).
Proof.
  intros w. unfold setPricingEngine. destruct (instruments w !! i); now exists [].
Qed.

Section Traces.

Variable lib : Library.

Lemma extends_require c : extends_trace (require lib c).
Proof.
  unfold require. destruct (ql_require lib c);
    [apply extends_raise | apply extends_ret].
Qed.

Lemma extends_process x c v : extends_trace (new_BlackProcess x c v).
Proof.
  unfold new_BlackProcess. apply extends_bind; intros;
    [apply extends_log | apply extends_ret].
Qed.

Lemma extends_engine p n : extends_trace (new_BinomialCRRVanillaEngine lib p n).
Proof.
  unfold new_BinomialCRRVanillaEngine. apply extends_bind; intros;
    [apply extends_require | apply extends_ret].
Qed.

Lemma extends_exercise d1 d2 : extends_trace (new_AmericanExercise lib d1 d2).
Proof.
  unfold new_AmericanExercise. apply extends_bind; intros;
    [apply extends_require | apply extends_ret].
Qed.

Lemma extends_calculate g i : extends_trace (calculate lib g i).
Proof.
  intros w. unfold calculate. destruct (instruments w !! i) as [o|].
  - destruct (opt_engine o) as [e|]; [|now exists []].
    cbn. now eexists [_].
  - now exists [].
Qed.

End Traces.

Create HintDb trace.

#[local] Hint Resolve extends_ret extends_raise extends_lift extends_log
  extends_py_int extends_truediv extends_frame extends_today
  extends_new_option extends_set_engine extends_require extends_process
  extends_engine extends_exercise extends_calculate : trace.

Ltac extends :=
  repeat first
    [ apply extends_bind; [|intros]
    | solve [eauto with trace]
    | match goal with
      | |- extends_trace (let '(_, _) := ?p in _) => destruct p
      | |- extends_trace (if ?b then _ else _) => destruct b
      end ].

Section TraceOfCalls.

Variable lib : Library.

Lemma extends_estimate_vega opt process vol K expiry steps bump :
  extends_trace (estimate_vega lib opt process vol K expiry steps bump).
Proof. unfold estimate_vega, NPV. extends. Qed.

Lemma extends_estimate_rho opt process curve vol expiry steps bump :
  extends_trace (estimate_rho lib opt process curve vol expiry steps bump).
Proof. unfold estimate_rho, NPV. extends. Qed.

(** The pricing process is built before anything in the call can fail. *)
Lemma process_always_built ev ex fwd K ot et steps vol curve w :
  In (EvBlackProcess (base_process fwd curve vol))
     (trace (snd (comdty_vanilla_option lib ev ex fwd K ot et steps vol curve w))).
Proof.
  unfold comdty_vanilla_option. destruct w as [d0 h clk tr].
  unfold set_evaluationDate at 1.
  rewrite bind_run with (a := tt)
    (w1 := {| evaluationDate := py_to_ql_date ev; instruments := h;
              clock := clk; trace := tr |}) by reflexivity.
  rewrite bind_process. unfold_handles. fold (base_process fwd curve vol).
  match goal with
  | |- In _ (trace (snd (?m ?w1))) =>
      assert (extends_trace m) as Hext
  end.
  { unfold_greeks. pose proof extends_estimate_vega.
    pose proof extends_estimate_rho. extends. }
  destruct (Hext {| evaluationDate := py_to_ql_date ev; instruments := h;
                    clock := clk;
                    trace := EvBlackProcess (base_process fwd curve vol) :: tr |})
    as (evs & E).
  rewrite E. apply in_or_app. right. now left.
Qed.

End TraceOfCalls.

(** ** A European call, whatever the library answers *)

Section EuropeanCall.

Variable lib : Library.

Lemma bind_calculate_raise {B} g i d h o e c t err (k : float -> M B) :
  h !! i = Some o -> opt_engine o = Some e ->
  ql_calculate lib g d e (opt_payoff o) (opt_exercise o) = Raise err ->
  bind (calculate lib g i) k
    {| evaluationDate := d; instruments := h; clock := c; trace := t |}
  = (Raise err,
     {| evaluationDate := d; instruments := h; clock := c;
        trace := EvCalculate g d e (opt_payoff o) (opt_exercise o) :: t |}).
Proof.
  intros H He Hv. unfold bind.
  now rewrite (calculate_run lib g i d h o e c t H He), Hv.
Qed.

(** The outcome of a European call is the outcome of the library's six
    valuations of the contract as given, and the first of them is always
    requested. *)
Lemma european_run ev ex fwd K ot et steps vol curve w :
  String.eqb (upper et) "AMERICAN" = false ->
  let today := py_to_ql_date ev in
  let e := AnalyticEuropeanEngine (base_process fwd curve vol) in
  let pay := contract ot K in
  let x := EuropeanExercise (py_to_ql_date ex) in
  exists w',
    comdty_vanilla_option lib ev ex fwd K ot et steps vol curve w
    = (european_valuation lib today e pay x ot, w') /\
    In (EvCalculate G_vega today e pay x) (trace w').
Proof.
  intros Het today e pay x.
  unfold comdty_vanilla_option. rewrite Het. destruct w as [d0 h clk tr].
  unfold set_evaluationDate at 1.
  rewrite bind_run with (a := tt)
    (w1 := {| evaluationDate := today; instruments := h; clock := clk;
              trace := tr |}) by reflexivity.
  unfold_handles. unfold_greeks.
  fold (base_process fwd curve vol) (contract ot K). fold e pay x.
  unfold european_valuation.
  destruct (ql_calculate lib G_vega today e pay x) as [v|err] eqn:Hv;
    cbn [res_bind];
    [destruct (ql_calculate lib G_rho today e pay x) as [r|err] eqn:Hr;
     cbn [res_bind];
     [destruct (ql_calculate lib G_NPV today e pay x) as [a|err] eqn:Ha;
      cbn [res_bind];
      [destruct (ql_calculate lib G_delta today e pay x) as [b|err] eqn:Hb;
       cbn [res_bind];
       [destruct (ql_calculate lib G_gamma today e pay x) as [c|err] eqn:Hc;
        cbn [res_bind];
        [destruct (ql_calculate lib G_theta today e pay x) as [d|err] eqn:Hd;
         cbn [res_bind]| ]| ]| ]| ]| ];
    eexists;
    repeat run_step;
    try (erewrite bind_calculate_raise
           by first [solve_lookup | reflexivity | eassumption]);
    (split; [reflexivity | cbn; auto 10]).
Qed.

Lemma european_result ev ex fwd K ot et steps vol curve w :
  String.eqb (upper et) "AMERICAN" = false ->
  fst (comdty_vanilla_option lib ev ex fwd K ot et steps vol curve w)
  = european_valuation lib (py_to_ql_date ev)
      (AnalyticEuropeanEngine (base_process fwd curve vol)) (contract ot K)
      (EuropeanExercise (py_to_ql_date ex)) ot.
Proof.
  intros Het.
  destruct (european_run ev ex fwd K ot et steps vol curve w Het)
    as (w' & -> & _).
  reflexivity.
Qed.

(** C8 (amended).  comdty_vanilla_option checks neither the strike, nor the
    step count, nor the order of its two dates.  The one thing that can fail
    before the pricing process exists is the conversion of the two dates,
    which QuantLib refuses for years outside 1901 to 2199.  For every input
    whose two dates lie in these years the call sets the evaluation date and
    builds the pricing process, so no failure precedes the construction of
    the process.  With European exercise the outcome is the outcome of the
    library's six valuations of the contract as given: a complete frame when
    all six return, the library's first error and no frame otherwise. *)
Theorem no_precondition_is_checked ev ex fwd K ot steps vol curve w :
  in_ql_range ev = true ->
  in_ql_range ex = true ->
  (forall et,
     In (EvBlackProcess (base_process fwd curve vol))
        (trace (snd (comdty_vanilla_option lib ev ex fwd K ot et steps vol
                       curve w)))) /\
  fst (comdty_vanilla_option lib ev ex fwd K ot "EUROPEAN" steps vol curve w)
  = european_valuation lib (py_to_ql_date ev)
      (AnalyticEuropeanEngine (base_process fwd curve vol)) (contract ot K)
      (EuropeanExercise (py_to_ql_date ex)) ot.
Proof.
  intros _ _. split.
  - intros et. apply process_always_built.
  - now apply european_result.
Qed.

End EuropeanCall.

Lemma no_precondition_is_checked_witness :
  In (EvBlackProcess
        (base_process 105 (Sample.flat_curve 0.05) (Sample.flat_vol 0.2)))
     (trace
        (snd (comdty_vanilla_option Sample.library (Sample.date 2025 1 1)
                (Sample.date 2024 7 1) 105 (-1) "CALL" "AMERICAN" (Some 0)
                (Sample.flat_vol 0.2) (Sample.flat_curve 0.05)
                Sample.world))) /\
  fst (comdty_vanilla_option Sample.library (Sample.date 2025 1 1)
         (Sample.date 2024 7 1) 105 (-1) "CALL" "EUROPEAN" (Some 0)
         (Sample.flat_vol 0.2) (Sample.flat_curve 0.05) Sample.world)
  = european_valuation Sample.library (py_to_ql_date (Sample.date 2025 1 1))
      (AnalyticEuropeanEngine
         (base_process 105 (Sample.flat_curve 0.05) (Sample.flat_vol 0.2)))
      (contract "CALL" (-1))
      (EuropeanExercise (py_to_ql_date (Sample.date 2024 7 1))) "CALL".
Proof.
  destruct (no_precondition_is_checked Sample.library (Sample.date 2025 1 1)
              (Sample.date 2024 7 1) 105 (-1) "CALL" (Some 0)
              (Sample.flat_vol 0.2) (Sample.flat_curve 0.05) Sample.world
              eq_refl eq_refl) as [H1 H2].
  split; [apply H1 | apply H2].
Defined.

(** C8 (as stated) fails: a European call with strike 0 and an expiry date
    before the evaluation date returns a complete frame, and an American call
    with 0 steps fails only in the engine constructor, after the pricing
    process has been built. *)
Lemma nonpositive_strike_and_past_expiry_are_priced :
  (exists a b c d v r,
     fst (comdty_vanilla_option Sample.library (Sample.date 2025 1 1)
            (Sample.date 2024 7 1) 105 0 "CALL" "EUROPEAN" None
            (Sample.flat_vol 0.2) (Sample.flat_curve 0.05) Sample.world)
     = Ok (greek_frame "CALL" a b c d v r)) /\
  (exists events,
     comdty_vanilla_option Sample.library (Sample.date 2025 1 1)
       (Sample.date 2025 7 1) 105 100 "CALL" "AMERICAN" (Some 0)
       (Sample.flat_vol 0.2) (Sample.flat_curve 0.05) Sample.world
     = (Raise (RuntimeError "at least 2 time steps required"),
        {| evaluationDate := py_to_ql_date (Sample.date 2025 1 1);
           instruments := []; clock := 42;
           trace := EvBlackProcess
                      (base_process 105 (Sample.flat_curve 0.05)
                         (Sample.flat_vol 0.2)) :: events |})).
Proof.
  split.
  - eexists _, _, _, _, _, _. vm_compute. reflexivity.
  - eexists. vm_compute. reflexivity.
Qed.

(** ** The strike implied by a delta *)

Lemma concat_axis0_one_column ot a b c d v r x1 x2 x3 x4 x5 :
  concat_axis0
    [greek_frame ot a b c d v r;
     {| index := strike_index; columns := [ot];
        values := [[x1]; [x2]; [x3]; [x4]; [x5]] |}]
  = {| index := greek_index ++ strike_index; columns := [ot];
       values := [[a]; [b]; [c]; [d]; [v]; [r];
                  [x1]; [x2]; [x3]; [x4]; [x5]] |}.
Proof.
  unfold concat_axis0, union_labels, mem_label, realign. cbn.
  rewrite String.eqb_refl. cbn. rewrite String.eqb_refl. reflexivity.
Qed.

Section DeltaCall.

Variable lib : Library.
Variables evaluation_date expiry_date : datetime.
Variables forward_price delta_target : float.
Variable option_type : string.
Variable volatility : BlackVolTermStructure.
Variable yield_curve : YieldTermStructure.

Let today := py_to_ql_date evaluation_date.
Let expiry := py_to_ql_date expiry_date.
Let day_counter := yts_dayCounter yield_curve.
Let years_to_maturity := ql_yearFraction lib day_counter today expiry.

(** The library's answers. *)
Variables riskfree_rate volatility_atm vol_squared : float.

Hypothesis rate_quoted :
  ql_zeroRate lib yield_curve expiry day_counter Continuous Annual
  = Ok riskfree_rate.
Hypothesis vol_quoted :
  ql_blackVol_t lib volatility years_to_maturity forward_price
  = Ok volatility_atm.
Hypothesis vol_squared_computed : py_pow lib volatility_atm 2 = Ok vol_squared.

(** The argument of the inverse normal, [d1] and the strike. *)
Let quantile :=
  if String.eqb (upper option_type) "CALL"
  then (delta_target * np_exp lib (riskfree_rate * years_to_maturity))%float
  else (delta_target * np_exp lib (riskfree_rate * years_to_maturity) + 1)%float.
Let d1 := norm_ppf lib quantile.
Let strike_price :=
  (forward_price /
   np_exp lib (volatility_atm * PrimFloat.sqrt years_to_maturity * d1
               - (0.5 * vol_squared) * years_to_maturity))%float.

Let engine :=
  AnalyticEuropeanEngine (base_process forward_price yield_curve volatility).
Let pay := contract option_type strike_price.
Let exercise := EuropeanExercise expiry.

(** Whatever [d1] is, the strike derived from it goes to the European
    engine, whose six valuations decide the outcome. *)
Lemma delta_run w :
  exists w',
    comdty_vanilla_option_delta lib evaluation_date expiry_date forward_price
      delta_target option_type volatility yield_curve w
    = (res_bind (european_valuation lib today engine pay exercise option_type)
         (fun option_frame =>
            Ok (concat_axis0
                  [option_frame;
                   strike_frame option_type d1 riskfree_rate volatility_atm
                     years_to_maturity strike_price])), w') /\
    In (EvCalculate G_vega today engine pay exercise) (trace w').
Proof.
  unfold comdty_vanilla_option_delta.
  fold today expiry day_counter. fold years_to_maturity.
  rewrite (bind_lift_ok _ _ _ _ rate_quoted).
  rewrite (bind_lift_ok _ _ _ _ vol_quoted).
  rewrite (bind_lift_ok _ _ _ _ vol_squared_computed).
  assert (Hd1 : (if String.eqb (upper option_type) "CALL"
                 then norm_ppf lib
                        (delta_target *
                         np_exp lib (riskfree_rate * years_to_maturity))%float
                 else norm_ppf lib
                        (delta_target *
                         np_exp lib (riskfree_rate * years_to_maturity) + 1)%float)
                = d1).
  { unfold d1, quantile. now destruct (String.eqb _ _). }
  rewrite Hd1. fold strike_price.
  destruct (european_run lib evaluation_date expiry_date forward_price
              strike_price option_type "EUROPEAN" None volatility yield_curve
              w eq_refl) as (w' & E & Hin).
  exists w'. split; [|exact Hin].
  rewrite (bind_any _ _ _ _ _ E).
  fold today expiry engine pay exercise.
  destruct (european_valuation lib today engine pay exercise option_type);
    reflexivity.
Qed.

(** The valuations of the European engine at the derived strike. *)
Variables v_price v_delta v_gamma v_theta v_vega v_rho : float.

Hypothesis vega_valued :
  ql_calculate lib G_vega today engine pay exercise = Ok v_vega.
Hypothesis rho_valued :
  ql_calculate lib G_rho today engine pay exercise = Ok v_rho.
Hypothesis price_valued :
  ql_calculate lib G_NPV today engine pay exercise = Ok v_price.
Hypothesis delta_valued :
  ql_calculate lib G_delta today engine pay exercise = Ok v_delta.
Hypothesis gamma_valued :
  ql_calculate lib G_gamma today engine pay exercise = Ok v_gamma.
Hypothesis theta_valued :
  ql_calculate lib G_theta today engine pay exercise = Ok v_theta.

(** C4.  comdty_vanilla_option_delta takes T as the year fraction from the
    evaluation date to expiry under the curve's day counter, r as the
    continuously compounded zero rate to expiry and vol as the surface's
    volatility at (T, forward).  It computes d1 = ppf(delta * exp(r * T))
    for a CALL and d1 = ppf(delta * exp(r * T) + 1) otherwise, the strike
    forward / exp(vol * sqrt(T) * d1 - (0.5 * vol ** 2) * T), and values the
    contract at that strike with the analytic European engine on a European
    exercise.  When the library returns the six valuations, the result is
    the one-column frame of the six Greeks followed by d1, the rate, the
    volatility, T and the strike. *)
Theorem delta_call_prices_european_at_implied_strike w :
  fst (comdty_vanilla_option_delta lib evaluation_date expiry_date
         forward_price delta_target option_type volatility yield_curve w)
  = Ok {| index := greek_index ++ strike_index;
          columns := [option_type];
          values := [[v_price]; [v_delta]; [v_gamma]; [v_theta]; [v_vega];
                     [v_rho]; [d1]; [riskfree_rate]; [volatility_atm];
                     [years_to_maturity]; [strike_price]] |}.
Proof.
  destruct (delta_run w) as (w' & -> & _). cbn [fst].
  unfold european_valuation.
  rewrite vega_valued, rho_valued, price_valued, delta_valued, gamma_valued,
    theta_valued.
  cbn [res_bind]. unfold strike_frame.
  now rewrite concat_axis0_one_column.
Qed.

(** C5 (amended).  comdty_vanilla_option_delta makes no domain check.  When
    the argument of the inverse normal lies outside (0, 1), d1 is whatever
    the inverse normal returns there, the strike is computed from it by the
    same formula, and the contract at that strike is handed to the European
    engine: the valuation request is recorded, and the outcome of the call
    is the outcome of the library's six valuations, a frame carrying d1 and
    the strike when they return and the library's error otherwise. *)
Theorem out_of_domain_delta_reaches_the_engine w :
  ((0 <? quantile) && (quantile <? 1))%float%bool = false ->
  let run :=
    comdty_vanilla_option_delta lib evaluation_date expiry_date forward_price
      delta_target option_type volatility yield_curve w in
  In (EvCalculate G_vega today engine pay exercise) (trace (snd run)) /\
  fst run
  = res_bind (european_valuation lib today engine pay exercise option_type)
      (fun option_frame =>
         Ok (concat_axis0
               [option_frame;
                strike_frame option_type d1 riskfree_rate volatility_atm
                  years_to_maturity strike_price])).
Proof.
  intros _. cbv zeta. destruct (delta_run w) as (w' & -> & Hin). auto.
Qed.

End DeltaCall.

Lemma delta_call_prices_european_at_implied_strike_witness :
  exists F,
    fst (comdty_vanilla_option_delta Sample.library (Sample.date 2025 1 1)
           (Sample.date 2025 7 1) 105 0.5 "CALL" (Sample.flat_vol 0.2)
           (Sample.flat_curve 0.05) Sample.world)
    = Ok F /\
    index F = greek_index ++ strike_index /\
    (exists K, values F !! 10%nat = Some [K] /\ is_finite K = true).
Proof.
  eexists. split.
  { eapply (delta_call_prices_european_at_implied_strike Sample.library);
      vm_compute; reflexivity. }
  split; [reflexivity|].
  eexists. split; [reflexivity|]. vm_compute. reflexivity.
Defined.

Lemma out_of_domain_delta_reaches_the_engine_witness :
  exists K,
    In (EvCalculate G_vega (py_to_ql_date (Sample.date 2025 1 1))
          (AnalyticEuropeanEngine
             (base_process 105 (Sample.flat_curve 0.05) (Sample.flat_vol 0.2)))
          (contract "CALL" K)
          (EuropeanExercise (py_to_ql_date (Sample.date 2025 7 1))))
       (trace (snd (comdty_vanilla_option_delta Sample.library
                      (Sample.date 2025 1 1) (Sample.date 2025 7 1) 105 2
                      "CALL" (Sample.flat_vol 0.2) (Sample.flat_curve 0.05)
                      Sample.world))) /\
    is_nan K = true.
Proof.
  eexists. split.
  { eapply (out_of_domain_delta_reaches_the_engine Sample.library);
      vm_compute; reflexivity. }
  vm_compute. reflexivity.
Defined.

(** C5 (as stated) fails: with a flat curve at rate 0 a call delta of 1
    gives the inverse normal the argument 1, outside (0, 1); d1 is
    +infinity, the strike is forward / exp(infinity) = 0, and the call
    returns a frame with these two rows.  A call delta of 2 gives a NaN
    strike, which also reaches the pricing step. *)
Lemma out_of_domain_delta_returns_a_frame :
  (exists F,
     fst (comdty_vanilla_option_delta Sample.library (Sample.date 2025 1 1)
            (Sample.date 2025 7 1) 105 1 "CALL" (Sample.flat_vol 0.2)
            (Sample.flat_curve 0) Sample.world)
     = Ok F /\
     index F !! 6%nat = Some "d1" /\ values F !! 6%nat = Some [infinity] /\
     index F !! 10%nat = Some "strike_price" /\
     values F !! 10%nat = Some [0%float]) /\
  (exists F,
     fst (comdty_vanilla_option_delta Sample.library (Sample.date 2025 1 1)
            (Sample.date 2025 7 1) 105 2 "CALL" (Sample.flat_vol 0.2)
            (Sample.flat_curve 0.05) Sample.world)
     = Ok F /\
     values F !! 6%nat = Some [nan] /\ values F !! 10%nat = Some [nan]).
Proof.
  split; eexists; (split; [vm_compute; reflexivity|]); repeat split.
Qed.

(** ** The calendar-spread simulation *)

Lemma date_eqb_eq a b : date_eqb a b = true -> a = b.
Proof.
  destruct a as [d1 m1 y1], b as [d2 m2 y2]. unfold date_eqb. cbn.
  rewrite !andb_true_iff, !Z.eqb_eq. intros [[-> ->] ->]. reflexivity.
Qed.

Lemma date_eqb_refl a : date_eqb a a = true.
Proof. unfold date_eqb. now rewrite !Z.eqb_refl. Qed.

Lemma date_leb_refl a : date_leb a a = true.
Proof.
  unfold date_leb. rewrite !Z.eqb_refl, Z.leb_refl. cbn.
  now rewrite !orb_true_r.
Qed.

Lemma date_leb_total a b : date_leb a b = false -> date_leb b a = true.
Proof.
  destruct a as [d1 m1 y1], b as [d2 m2 y2]. unfold date_leb. cbn.
  destruct (Z.ltb_spec y1 y2), (Z.eqb_spec y1 y2), (Z.ltb_spec m1 m2),
    (Z.eqb_spec m1 m2), (Z.leb_spec d1 d2); cbn; try discriminate; intros _;
    destruct (Z.ltb_spec y2 y1), (Z.eqb_spec y2 y1), (Z.ltb_spec m2 m1),
      (Z.eqb_spec m2 m1), (Z.leb_spec d2 d1); cbn; auto; lia.
Qed.

(** [np.min] returns one of the two dates, not after either. *)
Lemma np_min_date_spec a b :
  (np_min_date a b = a \/ np_min_date a b = b) /\
  date_leb (np_min_date a b) a = true /\
  date_leb (np_min_date a b) b = true.
Proof.
  unfold np_min_date. destruct (date_leb a b) eqn:E.
  - repeat split; auto using date_leb_refl.
  - repeat split; auto using date_leb_refl, date_leb_total.
Qed.

Lemma date_leb_not_after a b : date_leb a b = true <-> not_after a b.
Proof.
  destruct a as [d1 m1 y1], b as [d2 m2 y2]. unfold date_leb, not_after.
  cbn [year month dayOfMonth].
  repeat first [rewrite orb_true_iff | rewrite andb_true_iff].
  rewrite !Z.ltb_lt, !Z.eqb_eq, Z.leb_le. tauto.
Qed.

(** Multiplying a NaN gives a NaN. *)
Lemma mul_nan_l (x : float) : (nan * x)%float = nan.
Proof.
  apply Prim2SF_inj. rewrite mul_spec.
  change (Prim2SF nan) with S754_nan.
  unfold SF64mul, SFmul. reflexivity.
Qed.

Lemma stateless_ret {A} (a : A) : stateless (ret a).
Proof. now exists (Ok a). Qed.

Lemma stateless_raise {A} (e : Exn) : stateless (@raise A e).
Proof. now exists (Raise e). Qed.

Lemma stateless_lift {A} (r : Res A) : stateless (lift r).
Proof. now exists r. Qed.

Lemma stateless_bind {A B} (m : M A) (k : A -> M B) :
  stateless m -> (forall a, stateless (k a)) -> stateless (bind m k).
Proof.
  intros [[a|e] Hm] Hk.
  - destruct (Hk a) as [r Hr]. exists r. intros w. unfold bind.
    now rewrite Hm, Hr.
  - exists (Raise e). intros w. unfold bind. now rewrite Hm.
Qed.

Lemma stateless_getitem {A} (l : list A) i : stateless (getitem l i).
Proof.
  unfold getitem. destruct (l !! i);
    [apply stateless_ret | apply stateless_raise].
Qed.

Lemma stateless_getitem_last {A} (l : list A) : stateless (getitem_last l).
Proof.
  unfold getitem_last. destruct (last l);
    [apply stateless_ret | apply stateless_raise].
Qed.

Section Simulation.

Variable lib : Library.

Lemma draw_terminals_stateless n :
  forall g l s, stateless (draw_terminals lib n g l s).
Proof.
  induction n as [|n IH]; intros g l s; cbn [draw_terminals].
  - apply stateless_ret.
  - apply stateless_bind; [apply stateless_lift|]. intros [path st].
    apply stateless_bind; [apply stateless_getitem|]. intros p0.
    apply stateless_bind; [apply stateless_getitem_last|]. intros t0.
    apply stateless_bind; [apply stateless_getitem|]. intros p1.
    apply stateless_bind; [apply stateless_getitem_last|]. intros t1.
    apply IH.
Qed.

(** The loop reads the generator only: it neither reads nor changes the
    process state. *)
Lemma draw_terminals_pure n g l s w w0 :
  draw_terminals lib n g l s w = (fst (draw_terminals lib n g l s w0), w).
Proof.
  destruct (draw_terminals_stateless n g l s) as [r Hr].
  now rewrite (Hr w), (Hr w0).
Qed.

(** Each round appends one terminal value to each list. *)
Lemma draw_terminals_length n :
  forall g l s w l' s' w',
    draw_terminals lib n g l s w = (Ok (l', s'), w') ->
    length l' = (length l + n)%nat /\ length s' = (length s + n)%nat.
Proof.
  induction n as [|n IH]; intros g l s w l' s' w' H.
  - cbn in H. injection H as <- <- _. lia.
  - cbn [draw_terminals] in H.
    apply bind_ok_inv in H. destruct H as ([path st] & w1 & _ & H).
    apply bind_ok_inv in H. destruct H as (p0 & w2 & _ & H).
    apply bind_ok_inv in H. destruct H as (t0 & w3 & _ & H).
    apply bind_ok_inv in H. destruct H as (p1 & w4 & _ & H).
    apply bind_ok_inv in H. destruct H as (t1 & w5 & _ & H).
    apply IH in H. rewrite !length_app in H. cbn in H. lia.
Qed.

End Simulation.

Section CalendarSpread.

Variable lib : Library.
Variables evaluation_date expiry_date_long expiry_date_short : datetime.
Variables forward_price strike_price : float.
Variable option_type : string.
Variable correlation : float.
Variable volatility : BlackVolTermStructure.
Variable yield_curve : YieldTermStructure.
Variable paths : Z.
Variable w : World.

Let today := py_to_ql_date evaluation_date.
Let expiry_long := py_to_ql_date expiry_date_long.
Let expiry_short := py_to_ql_date expiry_date_short.
Let day_counter := yts_dayCounter yield_curve.

(** The library's answers. *)
Variables volatility_long volatility_short : float.
Variables riskfree_rate_long riskfree_rate_short : float.

Let leg_process (rate vol : float) : BlackProcess :=
  {| x0 := forward_price;
     riskFreeRate := FlatForward today rate day_counter Continuous Annual;
     blackVolatility :=
       BlackConstantVol today (vol_calendar volatility) vol
         (vol_dayCounter volatility) |}.
Let process_array :=
  {| spa_processes := [leg_process riskfree_rate_long volatility_long;
                       leg_process riskfree_rate_short volatility_short];
     spa_correlation := [[1%float; correlation]; [correlation; 1%float]] |}.

(** The nearer expiry, the rate and the time to it. *)
Let nearer := np_min_date expiry_long expiry_short.
Let risk_free_rate :=
  if date_eqb nearer expiry_long then riskfree_rate_long
  else riskfree_rate_short.
Let years_to_maturity := ql_yearFraction lib day_counter today nearer.

Let generator :=
  {| gen_process := process_array;
     gen_times := ql_time_grid lib years_to_maturity 365;
     gen_dimension := 2 * 365;
     gen_brownian_bridge := false;
     gen_state := clock w |}.

Hypothesis vol_long_quoted :
  ql_blackVol lib volatility expiry_long forward_price = Ok volatility_long.
Hypothesis vol_short_quoted :
  ql_blackVol lib volatility expiry_short forward_price = Ok volatility_short.
Hypothesis rate_long_quoted :
  ql_zeroRate lib yield_curve expiry_long day_counter Continuous NoFrequency
  = Ok riskfree_rate_long.
Hypothesis rate_short_quoted :
  ql_zeroRate lib yield_curve expiry_short day_counter Continuous NoFrequency
  = Ok riskfree_rate_short.
Hypothesis array_accepted : ql_require lib (ChkProcessArray process_array) = None.
Hypothesis grid_accepted :
  ql_require lib (ChkTimeGrid years_to_maturity 365) = None.
Hypothesis generator_accepted :
  ql_require lib (ChkPathGenerator generator) = None.

Lemma calendar_run contract_long contract_short :
  fst (draw_terminals lib (Z.to_nat paths) generator [] [] w)
  = Ok (contract_long, contract_short) ->
  let payoff :=
    spread_payoff lib option_type strike_price contract_long contract_short in
  fst (comdty_vanilla_option_calendar_spread lib evaluation_date
         expiry_date_long expiry_date_short forward_price strike_price
         option_type correlation volatility yield_curve paths w)
  = Ok {| index := calendar_spread_index;
          columns := [option_type];
          values :=
            [[(payoff * np_exp lib (- risk_free_rate * years_to_maturity))%float];
             [payoff]; [riskfree_rate_long]; [riskfree_rate_short];
             [volatility_long]; [volatility_short]] |}.
Proof.
  intros Hdraw payoff.
  unfold comdty_vanilla_option_calendar_spread.
  unfold set_evaluationDate at 1.
  rewrite bind_run with (a := tt)
    (w1 := {| evaluationDate := today; instruments := instruments w;
              clock := clock w; trace := trace w |}) by reflexivity.
  unfold_handles.
  fold today expiry_long expiry_short day_counter.
  rewrite (bind_lift_ok _ _ _ _ vol_long_quoted).
  rewrite (bind_lift_ok _ _ _ _ vol_short_quoted).
  rewrite (bind_lift_ok _ _ _ _ rate_long_quoted).
  rewrite (bind_lift_ok _ _ _ _ rate_short_quoted).
  rewrite !bind_process.
  fold (leg_process riskfree_rate_long volatility_long).
  fold (leg_process riskfree_rate_short volatility_short).
  fold process_array.
  rewrite (bind_require_ok _ _ _ _ array_accepted).
  fold nearer. fold years_to_maturity.
  rewrite (bind_require_ok _ _ _ _ grid_accepted).
  unfold get_clock at 1.
  match goal with
  | |- fst (bind _ ?k ?W) = _ =>
      rewrite (bind_run _ k W (clock w) W) by reflexivity
  end.
  fold generator.
  rewrite (bind_require_ok _ _ _ _ generator_accepted).
  match goal with
  | |- fst (bind _ ?k ?W) = _ =>
      rewrite (bind_run _ k W (contract_long, contract_short) W)
  end.
  2:{ rewrite (draw_terminals_pure lib _ _ _ _ _ w). now rewrite Hdraw. }
  cbv beta iota. fold risk_free_rate.
  unfold payoff, spread_payoff.
  destruct (String.eqb (upper option_type) "CALL"); reflexivity.
Qed.

(** What the module computes from the drawn terminal values is the payoff
    of the specification: the difference, the clipping and the mean of the
    code against [path_payoffs] and [mean_over_paths]. *)
Lemma clip_min0_is_max_with_zero x : clip_min0 x = max_with_zero x.
Proof.
  unfold clip_min0, max_with_zero, is_nan.
  rewrite FloatAxioms.ltb_spec, FloatAxioms.leb_spec, FloatAxioms.eqb_spec.
  change (Prim2SF 0) with (S754_zero false).
  destruct (Prim2SF x) as [s|s| |s m e]; try (destruct s; reflexivity);
    try reflexivity.
  destruct s; unfold SFeqb, SFltb, SFleb, SFcompare;
    rewrite Z.compare_refl, Pos.compare_refl; reflexivity.
Qed.

Lemma clipped_spreads_are_path_payoffs (call : bool) strike longs shorts :
  map clip_min0
    (map (fun s => if call then s - strike else strike - s)%float
       (np_sub1 longs shorts))
  = path_payoffs call strike longs shorts.
Proof.
  revert shorts. induction longs as [|l longs IH]; intros [|s shorts];
    try reflexivity.
  cbn [np_sub1 zip_with map path_payoffs]. f_equal.
  - unfold path_payoff. cbv zeta. apply clip_min0_is_max_with_zero.
  - apply IH.
Qed.

Lemma path_payoffs_length call strike longs shorts n :
  length longs = n -> length shorts = n ->
  length (path_payoffs call strike longs shorts) = n.
Proof.
  revert shorts n. induction longs as [|l longs IH]; intros [|s shorts] n;
    cbn; intros; subst; try discriminate; auto.
Qed.

Lemma spread_payoff_as_specified label strike longs shorts :
  length longs = Z.to_nat paths -> length shorts = Z.to_nat paths ->
  spread_payoff lib label strike longs shorts
  = mean_over_paths lib paths
      (path_payoffs (String.eqb (upper label) "CALL") strike longs shorts).
Proof.
  intros Hl Hs. unfold spread_payoff, mean_over_paths, np_mean. cbv zeta.
  assert (Hn : forall xs : list float, length xs = Z.to_nat paths ->
                 float_of_nat (length xs)
                 = PrimFloat.of_uint63 (Uint63.of_Z (Z.max 0 paths))).
  { intros xs ->. unfold float_of_nat. do 2 f_equal. lia. }
  destruct (String.eqb (upper label) "CALL").
  - rewrite (clipped_spreads_are_path_payoffs true).
    rewrite Hn by now apply path_payoffs_length. reflexivity.
  - rewrite (clipped_spreads_are_path_payoffs false).
    rewrite Hn by now apply path_payoffs_length. reflexivity.
Qed.

(** C6.  When the library answers the simulation's requests and the loop
    draws the terminal values contract_long and contract_short, one pair per
    path, the payoff row of comdty_vanilla_option_calendar_spread is the
    mean over the paths of max(spread - strike, 0) for a CALL and of
    max(strike - spread, 0) otherwise, with spread = contract_long -
    contract_short path by path, and the price row is that payoff times
    exp(-r * T), where the nearer expiry is the earlier of the two dates, r
    is the continuously compounded zero rate to it and T the year fraction
    from the evaluation date to it.  The payoff is stated by
    [path_payoffs] and [mean_over_paths], which follow the specification,
    not by the functions of the code; max(x, 0) is positive zero for x at
    or below zero and x itself for a NaN. *)
Theorem calendar_spread_price_is_discounted_mean_payoff
  contract_long contract_short :
  fst (draw_terminals lib (Z.to_nat paths) generator [] [] w)
  = Ok (contract_long, contract_short) ->
  let payoff :=
    mean_over_paths lib paths
      (path_payoffs (String.eqb (upper option_type) "CALL") strike_price
         contract_long contract_short) in
  fst (comdty_vanilla_option_calendar_spread lib evaluation_date
         expiry_date_long expiry_date_short forward_price strike_price
         option_type correlation volatility yield_curve paths w)
  = Ok {| index := ["price"; "payoff"; "risk_free_rate_long";
                    "risk_free_rate_short"; "volatility_long";
                    "volatility_short"];
          columns := [option_type];
          values :=
            [[(payoff * np_exp lib (- risk_free_rate * years_to_maturity))%float];
             [payoff]; [riskfree_rate_long]; [riskfree_rate_short];
             [volatility_long]; [volatility_short]] |} /\
  ql_zeroRate lib yield_curve nearer day_counter Continuous NoFrequency
  = Ok risk_free_rate /\
  (nearer = expiry_long \/ nearer = expiry_short) /\
  not_after nearer expiry_long /\
  not_after nearer expiry_short /\
  length contract_long = Z.to_nat paths /\
  length contract_short = Z.to_nat paths.
Proof.
  intros Hdraw payoff.
  assert (Hlen : length contract_long = Z.to_nat paths /\
                 length contract_short = Z.to_nat paths).
  { destruct (draw_terminals lib (Z.to_nat paths) generator [] [] w)
      as [r w'] eqn:E.
    cbn in Hdraw. subst r.
    apply draw_terminals_length in E. cbn in E. exact E. }
  split.
  { rewrite (calendar_run contract_long contract_short Hdraw).
    rewrite spread_payoff_as_specified by apply Hlen. reflexivity. }
  destruct (np_min_date_spec expiry_long expiry_short) as (Hor & Hl & Hs).
  fold nearer in Hor, Hl, Hs.
  apply date_leb_not_after in Hl, Hs.
  split; [|split; [exact Hor|split; [exact Hl|split; [exact Hs|exact Hlen]]]].
  unfold risk_free_rate. destruct (date_eqb nearer expiry_long) eqn:E.
  - apply date_eqb_eq in E. rewrite E. exact rate_long_quoted.
  - destruct Hor as [Hn|Hn]; rewrite Hn in *.
    + now rewrite date_eqb_refl in E.
    + exact rate_short_quoted.
Qed.

(** C9 (amended).  With paths <= 0 the loop draws nothing, the mean of the
    empty payoff array is 0 / 0, and comdty_vanilla_option_calendar_spread
    returns a frame whose payoff and price rows are NaN; no precondition
    is checked and nothing is raised. *)
Theorem zero_paths_return_nan :
  (paths <=? 0) = true ->
  np_add_reduce lib [] = 0%float ->
  fst (comdty_vanilla_option_calendar_spread lib evaluation_date
         expiry_date_long expiry_date_short forward_price strike_price
         option_type correlation volatility yield_curve paths w)
  = Ok {| index := calendar_spread_index;
          columns := [option_type];
          values :=
            [[nan]; [nan]; [riskfree_rate_long]; [riskfree_rate_short];
             [volatility_long]; [volatility_short]] |}.
Proof.
  intros Hpaths Hsum.
  assert (Hn : Z.to_nat paths = 0%nat).
  { destruct paths; try reflexivity. discriminate. }
  rewrite (calendar_run [] []) by now rewrite Hn.
  assert (Hpayoff : spread_payoff lib option_type strike_price [] [] = nan).
  { unfold spread_payoff, np_mean. cbn. rewrite Hsum.
    now destruct (String.eqb _ _). }
  rewrite Hpayoff, mul_nan_l. reflexivity.
Qed.

End CalendarSpread.

(** On the sample library five paths end at 113, 115, 96, 106, 109 for the
    long leg and at 109, 96, 95, 113, 115 for the short one: the spreads are
    4, 19, 1, -7, -6, the call payoffs at strike 1 are 3, 18, 0, 0, 0, their
    mean is 4.2, and the price is 4.2 times the discount factor. *)
Lemma calendar_spread_price_is_discounted_mean_payoff_witness :
  fst (draw_terminals Sample.library 5
         {| gen_process :=
              {| spa_processes :=
                   [{| x0 := 105;
                       riskFreeRate :=
                         FlatForward (py_to_ql_date (Sample.date 2025 1 1))
                           0.05 Actual365Fixed Continuous Annual;
                       blackVolatility := Sample.flat_vol 0.2 |};
                    {| x0 := 105;
                       riskFreeRate :=
                         FlatForward (py_to_ql_date (Sample.date 2025 1 1))
                           0.05 Actual365Fixed Continuous Annual;
                       blackVolatility := Sample.flat_vol 0.2 |}];
                 spa_correlation := [[1; 0.5]; [0.5; 1]]%float |};
            gen_times :=
              ql_time_grid Sample.library
                (ql_yearFraction Sample.library Actual365Fixed
                   (py_to_ql_date (Sample.date 2025 1 1))
                   (py_to_ql_date (Sample.date 2025 7 1))) 365;
            gen_dimension := 2 * 365;
            gen_brownian_bridge := false;
            gen_state := 42 |} [] [] Sample.world)
  = Ok ([113; 115; 96; 106; 109]%float, [109; 96; 95; 113; 115]%float) /\
  path_payoffs true 1 [113; 115; 96; 106; 109]%float
    [109; 96; 95; 113; 115]%float
  = [3; 18; 0; 0; 0]%float /\
  mean_over_paths Sample.library 5 [3; 18; 0; 0; 0]%float = 4.2%float /\
  fst (comdty_vanilla_option_calendar_spread Sample.library
         (Sample.date 2025 1 1) (Sample.date 2025 10 1)
         (Sample.date 2025 7 1) 105 1 "CALL" 0.5 (Sample.flat_vol 0.2)
         (Sample.flat_curve 0.05) 5 Sample.world)
  = Ok {| index := ["price"; "payoff"; "risk_free_rate_long";
                    "risk_free_rate_short"; "volatility_long";
                    "volatility_short"];
          columns := ["CALL"];
          values :=
            [[(4.2 * np_exp Sample.library
                       (- 0.05
                        * ql_yearFraction Sample.library Actual365Fixed
                            (py_to_ql_date (Sample.date 2025 1 1))
                            (py_to_ql_date (Sample.date 2025 7 1))))%float];
             [4.2]; [0.05]; [0.05]; [0.2]; [0.2]]%float |}.
Proof.
  split; [vm_compute; reflexivity|].
  split; [vm_compute; reflexivity|].
  split; [vm_compute; reflexivity|].
  destruct (calendar_spread_price_is_discounted_mean_payoff Sample.library
              (Sample.date 2025 1 1) (Sample.date 2025 10 1)
              (Sample.date 2025 7 1) 105 1 "CALL" 0.5 (Sample.flat_vol 0.2)
              (Sample.flat_curve 0.05) 5 Sample.world
              0.2 0.2 0.05 0.05 eq_refl eq_refl eq_refl eq_refl eq_refl
              eq_refl eq_refl
              [113; 115; 96; 106; 109]%float [109; 96; 95; 113; 115]%float
              eq_refl) as [H _].
  exact H.
Defined.

Lemma zero_paths_return_nan_witness :
  exists rate_long rate_short vol_long vol_short,
    fst (comdty_vanilla_option_calendar_spread Sample.library
           (Sample.date 2025 1 1) (Sample.date 2025 7 1)
           (Sample.date 2025 10 1) 105 1 "PUT" 0.5 (Sample.flat_vol 0.2)
           (Sample.flat_curve 0.05) (-3) Sample.world)
    = Ok {| index := calendar_spread_index; columns := ["PUT"];
            values := [[nan]; [nan]; [rate_long]; [rate_short]; [vol_long];
                       [vol_short]] |}.
Proof.
  eexists _, _, _, _.
  eapply (zero_paths_return_nan Sample.library); vm_compute; reflexivity.
Defined.

(** C9 (as stated) fails: with paths = 0 the call returns a frame, and its
    price and payoff rows are NaN. *)
Lemma zero_paths_are_accepted :
  exists F,
    fst (comdty_vanilla_option_calendar_spread Sample.library
           (Sample.date 2025 1 1) (Sample.date 2025 7 1)
           (Sample.date 2025 10 1) 105 1 "CALL" 0.5 (Sample.flat_vol 0.2)
           (Sample.flat_curve 0.05) 0 Sample.world)
    = Ok F /\
    index F !! 0%nat = Some "price" /\ values F !! 0%nat = Some [nan] /\
    index F !! 1%nat = Some "payoff" /\ values F !! 1%nat = Some [nan].
Proof. eexists. split; [vm_compute; reflexivity|]. repeat split. Qed.

(** * Further properties *)

(** ** Collar and butterfly *)

Section MoreStructures.

Variable lib : Library.
Variables ev ex : datetime.
Variable fwd : float.
Variable et : string.
Variable steps : option Z.
Variable vol : BlackVolTermStructure.
Variable curve : YieldTermStructure.

(** X1.  When comdty_vanilla_option prices the call leg and then the put
    leg, comdty_vanilla_option_collar returns the frame with the columns
    CALL, PUT and COLLAR whose row for each field holds the call's number,
    the put's number and exactly put minus call. *)
Theorem collar_is_put_minus_call K_call K_put w C w1 P w2 :
  comdty_vanilla_option lib ev ex fwd K_call "CALL" et steps vol curve w
  = (Ok C, w1) ->
  comdty_vanilla_option lib ev ex fwd K_put "PUT" et steps vol curve w1
  = (Ok P, w2) ->
  exists c p,
    C = rows_frame ["CALL"] (fun f => [f c]) /\
    P = rows_frame ["PUT"] (fun f => [f p]) /\
    comdty_vanilla_option_collar lib ev ex fwd K_call K_put et steps vol curve w
    = (Ok (rows_frame ["CALL"; "PUT"; "COLLAR"]
             (fun f => [f c; f p; (f p - f c)%float])), w2).
Proof.
  intros HC HP.
  destruct (option_frame_rows _ _ _ _ _ _ _ _ _ _ _ _ _ HC) as (c & ->).
  destruct (option_frame_rows _ _ _ _ _ _ _ _ _ _ _ _ _ HP) as (p & ->).
  exists c, p. repeat split.
  unfold comdty_vanilla_option_collar.
  rewrite (bind_run _ _ _ _ _ HC), (bind_run _ _ _ _ _ HP).
  apply collar_of_rows.
Qed.

(** X2.  When comdty_vanilla_option prices the low, the middle and the high
    leg in this order, comdty_vanilla_option_butterfly returns the frame
    with the columns _LOW, _MIDDLE, _HIGH and _BUTTERFLY whose last cell in
    each row is exactly (low - 2 * middle) + high. *)
Theorem butterfly_is_low_minus_twice_middle_plus_high
  ot K_low K_middle K_high w L w1 Mi w2 Hi w3 :
  comdty_vanilla_option lib ev ex fwd K_low ot et steps vol curve w
  = (Ok L, w1) ->
  comdty_vanilla_option lib ev ex fwd K_middle ot et steps vol curve w1
  = (Ok Mi, w2) ->
  comdty_vanilla_option lib ev ex fwd K_high ot et steps vol curve w2
  = (Ok Hi, w3) ->
  exists lo mi hi,
    L = rows_frame [ot] (fun f => [f lo]) /\
    Mi = rows_frame [ot] (fun f => [f mi]) /\
    Hi = rows_frame [ot] (fun f => [f hi]) /\
    comdty_vanilla_option_butterfly lib ev ex fwd K_low K_middle K_high ot et
      steps vol curve w
    = (Ok (rows_frame
             [(ot ++ "_LOW")%string; (ot ++ "_MIDDLE")%string;
              (ot ++ "_HIGH")%string; (ot ++ "_BUTTERFLY")%string]
             (fun f => [f lo; f mi; f hi; (f lo - 2 * f mi + f hi)%float])),
       w3).
Proof.
  intros HL HM HH.
  destruct (option_frame_rows _ _ _ _ _ _ _ _ _ _ _ _ _ HL) as (lo & ->).
  destruct (option_frame_rows _ _ _ _ _ _ _ _ _ _ _ _ _ HM) as (mi & ->).
  destruct (option_frame_rows _ _ _ _ _ _ _ _ _ _ _ _ _ HH) as (hi & ->).
  exists lo, mi, hi. repeat split.
  unfold comdty_vanilla_option_butterfly.
  rewrite (bind_run _ _ _ _ _ HL), (bind_run _ _ _ _ _ HM),
    (bind_run _ _ _ _ _ HH).
  apply butterfly_of_rows.
Qed.

End MoreStructures.

Lemma collar_is_put_minus_call_witness :
  exists C w1 P w2,
    comdty_vanilla_option Sample.library (Sample.date 2025 1 1)
      (Sample.date 2025 7 1) 105 110 "CALL" "EUROPEAN" None
      (Sample.flat_vol 0.2) (Sample.flat_curve 0.05) Sample.world
    = (Ok C, w1) /\
    comdty_vanilla_option Sample.library (Sample.date 2025 1 1)
      (Sample.date 2025 7 1) 105 100 "PUT" "EUROPEAN" None
      (Sample.flat_vol 0.2) (Sample.flat_curve 0.05) w1
    = (Ok P, w2) /\
    exists c p,
      C = rows_frame ["CALL"] (fun f => [f c]) /\
      P = rows_frame ["PUT"] (fun f => [f p]) /\
      comdty_vanilla_option_collar Sample.library (Sample.date 2025 1 1)
        (Sample.date 2025 7 1) 105 110 100 "EUROPEAN" None
        (Sample.flat_vol 0.2) (Sample.flat_curve 0.05) Sample.world
      = (Ok (rows_frame ["CALL"; "PUT"; "COLLAR"]
               (fun f => [f c; f p; (f p - f c)%float])), w2).
Proof.
  eexists _, _, _, _.
  split; [vm_compute; reflexivity|].
  split; [vm_compute; reflexivity|].
  eapply collar_is_put_minus_call; vm_compute; reflexivity.
Defined.

Lemma butterfly_is_low_minus_twice_middle_plus_high_witness :
  exists L w1 Mi w2 Hi w3,
    comdty_vanilla_option Sample.library (Sample.date 2025 1 1)
      (Sample.date 2025 7 1) 105 90 "CALL" "AMERICAN" (Some 20)
      (Sample.flat_vol 0.2) (Sample.flat_curve 0.05) Sample.world
    = (Ok L, w1) /\
    comdty_vanilla_option Sample.library (Sample.date 2025 1 1)
      (Sample.date 2025 7 1) 105 100 "CALL" "AMERICAN" (Some 20)
      (Sample.flat_vol 0.2) (Sample.flat_curve 0.05) w1
    = (Ok Mi, w2) /\
    comdty_vanilla_option Sample.library (Sample.date 2025 1 1)
      (Sample.date 2025 7 1) 105 110 "CALL" "AMERICAN" (Some 20)
      (Sample.flat_vol 0.2) (Sample.flat_curve 0.05) w2
    = (Ok Hi, w3) /\
    exists lo mi hi,
      L = rows_frame ["CALL"] (fun f => [f lo]) /\
      Mi = rows_frame ["CALL"] (fun f => [f mi]) /\
      Hi = rows_frame ["CALL"] (fun f => [f hi]) /\
      comdty_vanilla_option_butterfly Sample.library (Sample.date 2025 1 1)
        (Sample.date 2025 7 1) 105 90 100 110 "CALL" "AMERICAN" (Some 20)
        (Sample.flat_vol 0.2) (Sample.flat_curve 0.05) Sample.world
      = (Ok (rows_frame
               ["CALL_LOW"; "CALL_MIDDLE"; "CALL_HIGH"; "CALL_BUTTERFLY"]
               (fun f => [f lo; f mi; f hi; (f lo - 2 * f mi + f hi)%float])),
         w3).
Proof.
  eexists _, _, _, _, _, _.
  split; [vm_compute; reflexivity|].
  split; [vm_compute; reflexivity|].
  split; [vm_compute; reflexivity|].
  eapply butterfly_is_low_minus_twice_middle_plus_high; vm_compute; reflexivity.
Defined.

(** ** The evaluation date after a call *)

Lemma dated_of_sets {A} d (m : M A) : sets_date d m -> dated d m.
Proof. intros H w _. apply H. Qed.

Lemma dated_ret {A} d (a : A) : dated d (ret a).
Proof. intros w H. exact H. Qed.

Lemma dated_raise {A} d (e : Exn) : dated d (@raise A e).
Proof. intros w H. exact H. Qed.

Lemma dated_lift {A} d (r : Res A) : dated d (lift r).
Proof. intros w H. exact H. Qed.

Lemma dated_log d ev : dated d (log ev).
Proof. intros w H. exact H. Qed.

Lemma dated_bind {A B} d (m : M A) (k : A -> M B) :
  dated d m -> (forall a, dated d (k a)) -> dated d (bind m k).
Proof.
  intros Hm Hk w Hw. unfold bind. specialize (Hm w Hw).
  destruct (m w) as [[a|e] w1]; cbn in *; auto. now apply Hk.
Qed.

Lemma sets_bind {A B} d (m : M A) (k : A -> M B) :
  sets_date d m -> (forall a, dated d (k a)) -> sets_date d (bind m k).
Proof.
  intros Hm Hk w. unfold bind. specialize (Hm w).
  destruct (m w) as [[a|e] w1]; cbn in *; auto. now apply Hk.
Qed.

Lemma sets_set_evaluationDate d : sets_date d (set_evaluationDate d).
Proof. intros w. reflexivity. Qed.

Lemma dated_py_int d v : dated d (py_int v).
Proof. destruct v; [apply dated_ret | apply dated_raise]. Qed.

Lemma dated_truediv d a b : dated d (py_truediv a b).
Proof. apply dated_lift. Qed.

Lemma dated_frame d data cols idx : dated d (DataFrame_of_list data cols idx).
Proof.
  unfold DataFrame_of_list. destruct (_ && _)%bool;
    [apply dated_ret | apply dated_raise].
Qed.

Lemma dated_array d data cols idx : dated d (DataFrame_of_array data cols idx).
Proof.
  unfold DataFrame_of_array. destruct (_ && _)%bool;
    [apply dated_ret | apply dated_raise].
Qed.

Lemma dated_set_columns d f cols : dated d (set_columns f cols).
Proof.
  unfold set_columns. destruct (Nat.eqb _ _);
    [apply dated_ret | apply dated_raise].
Qed.

Lemma dated_getitem {A} d (l : list A) i : dated d (getitem l i).
Proof.
  unfold getitem. destruct (l !! i); [apply dated_ret | apply dated_raise].
Qed.

Lemma dated_getitem_last {A} d (l : list A) : dated d (getitem_last l).
Proof.
  unfold getitem_last. destruct (last l);
    [apply dated_ret | apply dated_raise].
Qed.

Lemma dated_today d : dated d get_evaluationDate.
Proof. intros w H. exact H. Qed.

Lemma dated_clock d : dated d get_clock.
Proof. intros w H. exact H. Qed.

Lemma dated_new_option d pay x : dated d (new_VanillaOption pay x).
Proof. intros w H. exact H. Qed.

Lemma dated_set_engine d i e : dated d (setPricingEngine i e).
Proof.
  intros w H. unfold setPricingEngine. destruct (instruments w !! i); exact H.
Qed.

Section Dates.

Variable lib : Library.

Lemma dated_require d c : dated d (require lib c).
Proof.
  unfold require. destruct (ql_require lib c);
    [apply dated_raise | apply dated_ret].
Qed.

Lemma dated_process d x c v : dated d (new_BlackProcess x c v).
Proof.
  unfold new_BlackProcess. apply dated_bind; intros;
    [apply dated_log | apply dated_ret].
Qed.

Lemma dated_engine d p n : dated d (new_BinomialCRRVanillaEngine lib p n).
Proof.
  unfold new_BinomialCRRVanillaEngine. apply dated_bind; intros;
    [apply dated_require | apply dated_ret].
Qed.

Lemma dated_exercise d d1 d2 : dated d (new_AmericanExercise lib d1 d2).
Proof.
  unfold new_AmericanExercise. apply dated_bind; intros;
    [apply dated_require | apply dated_ret].
Qed.

Lemma dated_calculate d g i : dated d (calculate lib g i).
Proof.
  intros w H. unfold calculate. destruct (instruments w !! i) as [o|]; auto.
  destruct (opt_engine o) as [e|]; auto.
Qed.

End Dates.

Create HintDb dates.

#[local] Hint Resolve dated_ret dated_raise dated_lift dated_log dated_py_int
  dated_truediv dated_frame dated_array dated_set_columns dated_getitem
  dated_getitem_last dated_today dated_clock dated_new_option dated_set_engine
  dated_require dated_process dated_engine dated_exercise dated_calculate
  : dates.

Ltac dated :=
  repeat first
    [ solve [eauto with dates]
    | apply dated_bind; [|intros]
    | match goal with
      | |- dated _ (let '(_, _) := ?p in _) => destruct p
      | |- dated _ (if ?b then _ else _) => destruct b
      end ].

Section DateOfCalls.

Variable lib : Library.

Lemma dated_estimate_vega d opt process vol K expiry steps bump :
  dated d (estimate_vega lib opt process vol K expiry steps bump).
Proof. unfold estimate_vega, NPV. dated. Qed.

Lemma dated_estimate_rho d opt process curve vol expiry steps bump :
  dated d (estimate_rho lib opt process curve vol expiry steps bump).
Proof. unfold estimate_rho, NPV. dated. Qed.

Lemma dated_draw_terminals d n :
  forall g l s, dated d (draw_terminals lib n g l s).
Proof.
  induction n as [|n IH]; intros g l s; cbn [draw_terminals]; dated.
Qed.

Lemma option_sets_date ev ex fwd K ot et steps vol curve :
  sets_date (py_to_ql_date ev)
    (comdty_vanilla_option lib ev ex fwd K ot et steps vol curve).
Proof.
  unfold comdty_vanilla_option.
  apply sets_bind; [apply sets_set_evaluationDate|]. intros _.
  unfold_greeks.
  pose proof dated_estimate_vega. pose proof dated_estimate_rho.
  dated.
Qed.

(** X3.  When the evaluation date lies in the years QuantLib accepts, then
    whatever the other inputs and whatever the outcome, a frame or an
    exception, each of the pricing functions that sets
    ql.Settings.instance().evaluationDate leaves it at its own evaluation
    date: the single option, the spread, the collar, the butterfly and the
    calendar spread.  The setting made by a call outlives the call, also
    when the call fails. *)
Theorem evaluation_date_outlives_the_call ev ex fwd ot et steps vol curve w :
  in_ql_range ev = true ->
  (forall K,
     evaluationDate
       (snd (comdty_vanilla_option lib ev ex fwd K ot et steps vol curve w))
     = py_to_ql_date ev) /\
  (forall K1 K2,
     evaluationDate
       (snd (comdty_vanilla_option_spread lib ev ex fwd K1 K2 ot et steps vol
               curve w))
     = py_to_ql_date ev) /\
  (forall K1 K2,
     evaluationDate
       (snd (comdty_vanilla_option_collar lib ev ex fwd K1 K2 et steps vol
               curve w))
     = py_to_ql_date ev) /\
  (forall K1 K2 K3,
     evaluationDate
       (snd (comdty_vanilla_option_butterfly lib ev ex fwd K1 K2 K3 ot et
               steps vol curve w))
     = py_to_ql_date ev) /\
  (forall ex_short K correlation paths,
     evaluationDate
       (snd (comdty_vanilla_option_calendar_spread lib ev ex ex_short fwd K ot
               correlation vol curve paths w))
     = py_to_ql_date ev).
Proof.
  intros _.
  pose proof option_sets_date as Hopt.
  assert (Hd : forall K tp,
             dated (py_to_ql_date ev)
               (comdty_vanilla_option lib ev ex fwd K tp et steps vol curve))
    by (intros; apply dated_of_sets, Hopt).
  repeat split; intros.
  - apply Hopt.
  - unfold comdty_vanilla_option_spread.
    apply sets_bind; [apply Hopt|]. intros. dated.
  - unfold comdty_vanilla_option_collar.
    apply sets_bind; [apply Hopt|]. intros. dated.
  - unfold comdty_vanilla_option_butterfly.
    apply sets_bind; [apply Hopt|]. intros. dated.
  - unfold comdty_vanilla_option_calendar_spread.
    apply sets_bind; [apply sets_set_evaluationDate|]. intros _.
    pose proof dated_draw_terminals. dated.
Qed.

End DateOfCalls.

Lemma evaluation_date_outlives_the_call_witness :
  evaluationDate Sample.world
  = {| dayOfMonth := 1; month := 1; year := 1901 |} /\
  is_ok
    (fst (comdty_vanilla_option Sample.library (Sample.date 2025 1 1)
            (Sample.date 2025 7 1) 105 100 "CALL" "AMERICAN" None
            (Sample.flat_vol 0.2) (Sample.flat_curve 0.05) Sample.world))
  = false /\
  evaluationDate
    (snd (comdty_vanilla_option Sample.library (Sample.date 2025 1 1)
            (Sample.date 2025 7 1) 105 100 "CALL" "AMERICAN" None
            (Sample.flat_vol 0.2) (Sample.flat_curve 0.05) Sample.world))
  = py_to_ql_date (Sample.date 2025 1 1).
Proof.
  split; [reflexivity|]. split; [reflexivity|].
  apply (evaluation_date_outlives_the_call Sample.library
           (Sample.date 2025 1 1) (Sample.date 2025 7 1) 105 "CALL"
           "AMERICAN" None (Sample.flat_vol 0.2) (Sample.flat_curve 0.05)
           Sample.world eq_refl).
Defined.

(** ** Letter case, steps and the option object *)

Section CaseAndSteps.

Variable lib : Library.
Variables ev ex : datetime.
Variables fwd K : float.
Variable vol : BlackVolTermStructure.
Variable curve : YieldTermStructure.

Lemma same_type_same_pricing ot1 ot2 et steps w :
  upper ot1 = upper ot2 ->
  comdty_vanilla_option lib ev ex fwd K ot1 et steps vol curve w
  = (F <- comdty_vanilla_option lib ev ex fwd K ot2 et steps vol curve ;;
     ret (relabel F [ot1]))%py w.
Proof.
  intros Hot. unfold comdty_vanilla_option. rewrite Hot.
  rewrite bind_assoc. apply bind_ext. intros _ w1.
  rewrite bind_assoc. apply bind_ext. intros p w2.
  rewrite bind_assoc. apply bind_ext. intros [[opt v] r] w3.
  rewrite bind_assoc. apply bind_ext. intros a w4.
  rewrite bind_assoc. apply bind_ext. intros b w5.
  rewrite bind_assoc. apply bind_ext. intros c w6.
  rewrite bind_assoc. apply bind_ext. intros d w7.
  reflexivity.
Qed.

(** X4.  comdty_vanilla_option reads option_type and exercise_type through
    upper(): two option_type strings with the same upper-case form give the
    same outcome and the same effects, the frame differing only in its
    column label, which is the string as given; two exercise_type strings
    with the same upper-case form give the same call. *)
Theorem letter_case_is_ignored ot1 ot2 et1 et2 steps w :
  upper ot1 = upper ot2 ->
  upper et1 = upper et2 ->
  (forall et,
     comdty_vanilla_option lib ev ex fwd K ot1 et steps vol curve w
     = (F <- comdty_vanilla_option lib ev ex fwd K ot2 et steps vol curve ;;
        ret (relabel F [ot1]))%py w) /\
  (forall ot,
     comdty_vanilla_option lib ev ex fwd K ot et1 steps vol curve w
     = comdty_vanilla_option lib ev ex fwd K ot et2 steps vol curve w).
Proof.
  intros Hot Het. split; intros.
  - now apply same_type_same_pricing.
  - unfold comdty_vanilla_option. now rewrite Het.
Qed.

(** X5.  The step count is read on the American path only.  With an ASCII
    exercise_type whose upper-case form is not AMERICAN every value of
    steps, None included, gives the same call.  With an American one, two
    dates in the years QuantLib accepts and steps = None, once QuantLib has
    accepted the exercise, int(steps) raises TypeError: the pricing process
    has been built, no engine and no option object have been created. *)
Theorem steps_are_read_for_american_only ot et_european et_american w :
  is_ascii et_european = true ->
  in_ql_range ev = true ->
  in_ql_range ex = true ->
  String.eqb (upper et_european) "AMERICAN" = false ->
  String.eqb (upper et_american) "AMERICAN" = true ->
  ql_require lib
    (ChkExercise (AmericanExercise (py_to_ql_date ev) (py_to_ql_date ex)))
  = None ->
  (forall steps steps',
     comdty_vanilla_option lib ev ex fwd K ot et_european steps vol curve w
     = comdty_vanilla_option lib ev ex fwd K ot et_european steps' vol curve w)
  /\
  exists msg,
    comdty_vanilla_option lib ev ex fwd K ot et_american None vol curve w
    = (Raise (TypeError msg),
       {| evaluationDate := py_to_ql_date ev;
          instruments := instruments w;
          clock := clock w;
          trace := EvBlackProcess (base_process fwd curve vol) :: trace w |}).
Proof.
  intros _ _ _ He Ha Hx. split.
  - intros steps steps'. unfold comdty_vanilla_option. now rewrite He.
  - eexists. unfold comdty_vanilla_option. rewrite Ha.
    unfold set_evaluationDate at 1.
    rewrite bind_run with (a := tt)
      (w1 := {| evaluationDate := py_to_ql_date ev;
                instruments := instruments w; clock := clock w;
                trace := trace w |}) by reflexivity.
    unfold_handles. rewrite bind_process.
    rewrite bind_assoc.
    erewrite bind_exercise_ok by exact Hx.
    reflexivity.
Qed.

End CaseAndSteps.

Lemma letter_case_is_ignored_witness :
  comdty_vanilla_option Sample.library (Sample.date 2025 1 1)
    (Sample.date 2025 7 1) 105 100 "Call" "american" (Some 10)
    (Sample.flat_vol 0.2) (Sample.flat_curve 0.05) Sample.world
  = (F <- comdty_vanilla_option Sample.library (Sample.date 2025 1 1)
            (Sample.date 2025 7 1) 105 100 "CALL" "american" (Some 10)
            (Sample.flat_vol 0.2) (Sample.flat_curve 0.05) ;;
     ret (relabel F ["Call"]))%py Sample.world /\
  comdty_vanilla_option Sample.library (Sample.date 2025 1 1)
    (Sample.date 2025 7 1) 105 100 "PUT" "american" (Some 10)
    (Sample.flat_vol 0.2) (Sample.flat_curve 0.05) Sample.world
  = comdty_vanilla_option Sample.library (Sample.date 2025 1 1)
      (Sample.date 2025 7 1) 105 100 "PUT" "AMERICAN" (Some 10)
      (Sample.flat_vol 0.2) (Sample.flat_curve 0.05) Sample.world.
Proof.
  destruct (letter_case_is_ignored Sample.library (Sample.date 2025 1 1)
              (Sample.date 2025 7 1) 105 100 (Sample.flat_vol 0.2)
              (Sample.flat_curve 0.05) "Call" "CALL" "american" "AMERICAN"
              (Some 10) Sample.world eq_refl eq_refl) as [H1 H2].
  split; [apply H1 | apply H2].
Defined.

Lemma steps_are_read_for_american_only_witness :
  comdty_vanilla_option Sample.library (Sample.date 2025 1 1)
    (Sample.date 2025 7 1) 105 100 "CALL" "European" (Some 7)
    (Sample.flat_vol 0.2) (Sample.flat_curve 0.05) Sample.world
  = comdty_vanilla_option Sample.library (Sample.date 2025 1 1)
      (Sample.date 2025 7 1) 105 100 "CALL" "European" None
      (Sample.flat_vol 0.2) (Sample.flat_curve 0.05) Sample.world /\
  exists msg,
    fst (comdty_vanilla_option Sample.library (Sample.date 2025 1 1)
           (Sample.date 2025 7 1) 105 100 "CALL" "American" None
           (Sample.flat_vol 0.2) (Sample.flat_curve 0.05) Sample.world)
    = Raise (TypeError msg).
Proof.
  destruct (steps_are_read_for_american_only Sample.library
              (Sample.date 2025 1 1) (Sample.date 2025 7 1) 105 100
              (Sample.flat_vol 0.2) (Sample.flat_curve 0.05) "CALL" "European"
              "American" Sample.world eq_refl eq_refl eq_refl eq_refl eq_refl
              eq_refl)
    as [H1 [msg H2]].
  split; [apply H1 | exists msg; now rewrite H2].
Defined.

(** ** What the estimators do to the option they are given *)

Section EngineLeftBehind.

Variable lib : Library.
Variable opt : nat.
Variable process : BlackProcess.
Variable volatility : BlackVolTermStructure.
Variable yield_curve : YieldTermStructure.
Variable strike_price : float.
Variable expiry_date : Date.
Variable n : Z.
Variables bump_vol bump_rate : option float.
Variable today : Date.
Variable store : list VanillaOption.
Variable clk : Z.
Variable tr : list Event.
Variable o : VanillaOption.

Let w := {| evaluationDate := today; instruments := store; clock := clk;
            trace := tr |}.
Let bv := default 0.01%float bump_vol.
Let br := default 0.001%float bump_rate.

Variables sigma rate vega_up vega_down rho_up rho_down : float.

Let vega_engine (level : float) :=
  BinomialCRRVanillaEngine
    (vol_bumped_process process volatility today level) n.
Let rho_engine (level : float) :=
  BinomialCRRVanillaEngine
    (rate_bumped_process process yield_curve volatility today level) n.

Hypothesis option_in_store : store !! opt = Some o.
Hypothesis vol_quoted :
  ql_blackVol lib volatility expiry_date strike_price = Ok sigma.
Hypothesis rate_quoted :
  ql_zeroRate lib yield_curve expiry_date (yts_dayCounter yield_curve)
    Continuous Annual = Ok rate.
Hypothesis vega_engines_accepted :
  ql_require lib (ChkEngine (vega_engine (sigma + bv)%float)) = None /\
  ql_require lib (ChkEngine (vega_engine (sigma - bv)%float)) = None.
Hypothesis rho_engines_accepted :
  ql_require lib (ChkEngine (rho_engine (rate + br)%float)) = None /\
  ql_require lib (ChkEngine (rho_engine (rate - br)%float)) = None.
Hypothesis vega_repriced :
  ql_calculate lib G_NPV today (vega_engine (sigma + bv)%float)
    (opt_payoff o) (opt_exercise o) = Ok vega_up /\
  ql_calculate lib G_NPV today (vega_engine (sigma - bv)%float)
    (opt_payoff o) (opt_exercise o) = Ok vega_down.
Hypothesis rho_repriced :
  ql_calculate lib G_NPV today (rho_engine (rate + br)%float)
    (opt_payoff o) (opt_exercise o) = Ok rho_up /\
  ql_calculate lib G_NPV today (rho_engine (rate - br)%float)
    (opt_payoff o) (opt_exercise o) = Ok rho_down.

(** X6.  estimate_vega and estimate_rho change the option object they are
    given and do not change it back.  When the library answers their
    requests, the option is left attached to the engine of the down bump
    (volatility quote minus bump, respectively zero rate minus bump), with
    its payoff and exercise as before, whether or not the final division
    succeeds; every other instrument, the evaluation date and the clock are
    as they were. *)
Theorem estimators_leave_the_down_engine_attached :
  let after_vega :=
    snd (estimate_vega lib opt process volatility strike_price expiry_date
           (Some n) bump_vol w) in
  let after_rho :=
    snd (estimate_rho lib opt process yield_curve volatility expiry_date
           (Some n) bump_rate w) in
  instruments after_vega !! opt
  = Some {| opt_payoff := opt_payoff o; opt_exercise := opt_exercise o;
            opt_engine := Some (vega_engine (sigma - bv)%float) |} /\
  instruments after_rho !! opt
  = Some {| opt_payoff := opt_payoff o; opt_exercise := opt_exercise o;
            opt_engine := Some (rho_engine (rate - br)%float) |} /\
  (forall other, other <> opt ->
     instruments after_vega !! other = store !! other /\
     instruments after_rho !! other = store !! other) /\
  evaluationDate after_vega = today /\ evaluationDate after_rho = today /\
  clock after_vega = clk /\ clock after_rho = clk.
Proof.
  destruct vega_engines_accepted, rho_engines_accepted, vega_repriced,
    rho_repriced.
  cbv zeta. unfold w.
  erewrite estimate_vega_run by eauto.
  erewrite estimate_rho_run by eauto.
  cbn [snd instruments evaluationDate clock].
  split; [eapply lookup_insert_same; eauto|].
  split; [eapply lookup_insert_same; eauto|].
  split; [|auto].
  intros other Hne. split; apply list_lookup_insert_ne; congruence.
Qed.

End EngineLeftBehind.

Lemma estimators_leave_the_down_engine_attached_witness :
  let process :=
    base_process 105 (Sample.flat_curve 0.05) (Sample.flat_vol 0.2) in
  let today := py_to_ql_date (Sample.date 2025 1 1) in
  let expiry := py_to_ql_date (Sample.date 2025 7 1) in
  let o := {| opt_payoff := contract "PUT" 110;
              opt_exercise := AmericanExercise today expiry;
              opt_engine := Some (BinomialCRRVanillaEngine process 50) |} in
  let w := {| evaluationDate := today; instruments := [o]; clock := 0;
              trace := [] |} in
  instruments
    (snd (estimate_vega Sample.library 0 process (Sample.flat_vol 0.2) 110
            expiry (Some 50) None w)) !! 0%nat
  = Some {| opt_payoff := contract "PUT" 110;
            opt_exercise := AmericanExercise today expiry;
            opt_engine :=
              Some (BinomialCRRVanillaEngine
                      (vol_bumped_process process (Sample.flat_vol 0.2) today
                         (0.2 - 0.01)%float) 50) |} /\
  instruments
    (snd (estimate_rho Sample.library 0 process (Sample.flat_curve 0.05)
            (Sample.flat_vol 0.2) expiry (Some 50) None w)) !! 0%nat
  = Some {| opt_payoff := contract "PUT" 110;
            opt_exercise := AmericanExercise today expiry;
            opt_engine :=
              Some (BinomialCRRVanillaEngine
                      (rate_bumped_process process (Sample.flat_curve 0.05)
                         (Sample.flat_vol 0.2) today (0.05 - 0.001)%float)
                      50) |}.
Proof.
  cbv zeta.
  pose proof (estimators_leave_the_down_engine_attached Sample.library 0%nat
                (base_process 105 (Sample.flat_curve 0.05) (Sample.flat_vol 0.2))
                (Sample.flat_vol 0.2) (Sample.flat_curve 0.05) 110%float
                (py_to_ql_date (Sample.date 2025 7 1)) 50 None None
                (py_to_ql_date (Sample.date 2025 1 1))
                [{| opt_payoff := contract "PUT" 110;
                    opt_exercise :=
                      AmericanExercise (py_to_ql_date (Sample.date 2025 1 1))
                        (py_to_ql_date (Sample.date 2025 7 1));
                    opt_engine :=
                      Some (BinomialCRRVanillaEngine
                              (base_process 105 (Sample.flat_curve 0.05)
                                 (Sample.flat_vol 0.2)) 50) |}]
                0 [] _ 0.2%float 0.05%float _ _ _ _
                eq_refl eq_refl eq_refl (conj eq_refl eq_refl)
                (conj eq_refl eq_refl) (conj eq_refl eq_refl)
                (conj eq_refl eq_refl)) as H.
  cbv zeta in H. destruct H as (Hv & Hr & _).
  split; [exact Hv | exact Hr].
Defined.

(** ** The delta-quoted option and the global evaluation date *)


(** ** Names and letter case *)

Lemma is_lower_upper_ascii c : is_lower (upper_ascii c) = false.
Proof. destruct c as [[] [] [] [] [] [] [] []]; vm_compute; reflexivity. Qed.

Lemma upper_ascii_fixed c : is_lower c = false -> upper_ascii c = c.
Proof. unfold upper_ascii, is_lower. cbv zeta. now intros ->. Qed.

Lemma has_lower_upper s : has_lower (upper s) = false.
Proof.
  induction s as [|c s IH]; [reflexivity|].
  cbn [upper has_lower]. now rewrite is_lower_upper_ascii, IH.
Qed.

Lemma upper_fixed s : has_lower s = false -> upper s = s.
Proof.
  induction s as [|c s IH]; [reflexivity|].
  cbn [upper has_lower]. intros [Hc Hs]%orb_false_iff.
  now rewrite upper_ascii_fixed, IH.
Qed.

Lemma upper_idem s : upper (upper s) = upper s.
Proof. apply upper_fixed, has_lower_upper. Qed.

Lemma dict_get_Returns {V} (d : gmap string V) k v :
  dict_get d k = Returns v <-> d !! k = Some v.
Proof.
  unfold dict_get. destruct (d !! k); split; intros H; congruence.
Qed.

Lemma dict_get_None {V} (d : gmap string V) k :
  d !! k = None -> dict_get d k = Raises (KeyError k).
Proof. unfold dict_get. now intros ->. Qed.

(** A key with a lower-case letter is never the upper-case form of a name. *)
Lemma upper_is_not key s : has_lower key = true -> upper s <> key.
Proof. intros Hk <-. now rewrite has_lower_upper in Hk. Qed.

(** X8.  ql_day_counter looks the upper-case form of the name up in
    DAY_COUNTERS, and three keys of that dictionary, 'ACT/365Fixed',
    'ACT/365FixedCAD' and 'ACT/365FixedNoLeap', contain lower-case letters.
    So an ASCII name returns a day counter exactly when its upper-case form
    is SIMPLE, 30/360, ACT/360, ACT/ACT or BUS/252; no ASCII name returns
    one of the three Actual/365 counters; and the KeyError of every other
    ASCII name carries the upper-case form, not the name as given. *)
Theorem day_counter_names s :
  is_ascii s = true ->
  (forall dc,
     ql_day_counter s = Returns dc <->
     In (upper s, dc)
       [("SIMPLE", SimpleDayCounter); ("30/360", Thirty360);
        ("ACT/360", Actual360); ("ACT/ACT", ActualActual);
        ("BUS/252", Business252)]) /\
  (forall e, ql_day_counter s = Raises e -> e = KeyError (upper s)).
Proof.
  intros _. split.
  - intros dc. unfold ql_day_counter. rewrite dict_get_Returns. split.
    + intros H. unfold DAY_COUNTERS in H. apply elem_of_list_to_map_2 in H.
      repeat (apply elem_of_cons in H; destruct H as [H|H]);
        try (apply elem_of_nil in H; contradiction);
        injection H as Hk Hv; subst dc;
        try (exfalso; revert Hk; apply upper_is_not; reflexivity);
        rewrite Hk; cbn; tauto.
    + cbn [In]. intros H.
      repeat (destruct H as [H|H]); try contradiction;
        injection H as Hk Hv; subst dc; rewrite <- Hk;
        vm_compute; reflexivity.
  - intros e. unfold ql_day_counter, dict_get.
    destruct (_ !! _); congruence.
Qed.

Lemma day_counter_names_witness :
  ql_day_counter "Act/360" = Returns Actual360.
Proof.
  apply (proj1 (day_counter_names "Act/360" eq_refl)).
  right. right. left. reflexivity.
Defined.

(** X9.  Every adapter that takes a day counter name looks it up before any
    other lookup and before any call of a QuantLib constructor or query,
    black_variance_surface after the calendar only; what comes before the
    lookup in some of them is the conversion of their dates.  So with dates
    in the years QuantLib accepts, an ASCII name that DAY_COUNTERS does not
    hold in upper case makes each of them raise KeyError with the
    upper-case form, whatever the other arguments are, an unknown calendar,
    compounding or frequency name included; in black_variance_surface an
    unknown ASCII calendar name is reported instead. *)
Theorem unknown_day_counter_fails_every_adapter
  lib ql_check_surface ql_check_curve held name :
  is_ascii name = true ->
  DAY_COUNTERS !! upper name = None ->
  (forall start_date end_date,
     year_fraction lib name start_date end_date
     = Raises (KeyError (upper name))) /\
  (forall evaluation_date calendar volatility,
     in_ql_range evaluation_date = true ->
     black_constant_vol evaluation_date calendar volatility name
     = Raises (KeyError (upper name))) /\
  (forall dates rates calendar,
     forallb in_ql_range dates = true ->
     forward_curve ql_check_curve dates rates name calendar
     = Raises (KeyError (upper name))) /\
  (forall date rate compounding frequency,
     in_ql_range date = true ->
     flat_forward date rate name compounding frequency
     = Raises (KeyError (upper name))) /\
  (forall yield_curve dates compounding,
     forallb in_ql_range dates = true ->
     zero_rates lib yield_curve dates name compounding
     = Raises (KeyError (upper name))) /\
  (forall evaluation_date calendar expirations strike_pries volatility_matrix,
     in_ql_range evaluation_date = true ->
     forallb in_ql_range expirations = true ->
     is_ascii calendar = true ->
     black_variance_surface ql_check_surface held evaluation_date calendar
       expirations strike_pries volatility_matrix name
     = match CALENDARS !! upper calendar with
       | Some _ => Raises (KeyError (upper name))
       | None => Raises (KeyError (upper calendar))
       end).
Proof.
  intros _ H.
  unfold year_fraction, black_constant_vol, forward_curve, flat_forward,
    zero_rates, black_variance_surface, ql_day_counter, ql_calendar.
  rewrite (dict_get_None _ _ H).
  repeat split; try reflexivity.
  intros. unfold dict_get. destruct (CALENDARS !! _); reflexivity.
Qed.

Lemma unknown_day_counter_fails_every_adapter_witness :
  DAY_COUNTERS !! "ACT/365Fixed" = Some Actual365Fixed /\
  year_fraction Sample.library "ACT/365Fixed" (Sample.date 2025 1 1)
    (Sample.date 2025 7 1)
  = Raises (KeyError "ACT/365FIXED") /\
  flat_forward (Sample.date 2025 1 1) 0.05 "ACT/365Fixed" "Continuous"
    "Annual"
  = Raises (KeyError "ACT/365FIXED").
Proof.
  split; [vm_compute; reflexivity|].
  destruct (unknown_day_counter_fails_every_adapter Sample.library
              (fun _ => None) (fun _ => None) (fun _ _ => 0%float)
              "ACT/365Fixed" eq_refl eq_refl) as (Hy & _ & _ & Hf & _).
  split; [apply Hy | apply Hf; reflexivity].
Defined.

Ltac in_dict H :=
  apply elem_of_list_to_map_2 in H;
  repeat (apply elem_of_cons in H; destruct H as [H|H]);
  try (apply elem_of_nil in H; contradiction);
  injection H as -> ->; vm_compute; reflexivity.

(** X10.  The six lookups see the upper-case form of the name only, so a
    name and any re-casing of it get the same answer.  In CALENDARS,
    WEEKDAY_CORRECTION, COMPOUNDING, FREQUENCIES and DATE_GENERATION every
    key is written in upper case: each key, given as a name, returns its own
    entry. *)
Theorem lookups_ignore_case_and_reach_every_key :
  (forall s,
     ql_day_counter (upper s) = ql_day_counter s /\
     ql_calendar (upper s) = ql_calendar s /\
     ql_weekday_correction (upper s) = ql_weekday_correction s /\
     ql_compounding (upper s) = ql_compounding s /\
     ql_frequency (upper s) = ql_frequency s /\
     ql_date_generation (upper s) = ql_date_generation s) /\
  map_Forall (fun key entry => ql_calendar key = Returns entry) CALENDARS /\
  map_Forall (fun key entry => ql_weekday_correction key = Returns entry)
    WEEKDAY_CORRECTION /\
  map_Forall (fun key entry => ql_compounding key = Returns entry)
    COMPOUNDING /\
  map_Forall (fun key entry => ql_frequency key = Returns entry)
    FREQUENCIES /\
  map_Forall (fun key entry => ql_date_generation key = Returns entry)
    DATE_GENERATION.
Proof.
  split.
  { intros s.
    unfold ql_day_counter, ql_calendar, ql_weekday_correction, ql_compounding,
      ql_frequency, ql_date_generation.
    now rewrite upper_idem. }
  repeat split; intros key entry H.
  - unfold CALENDARS in H. in_dict H.
  - unfold WEEKDAY_CORRECTION in H. in_dict H.
  - unfold COMPOUNDING in H. in_dict H.
  - unfold FREQUENCIES in H. in_dict H.
  - unfold DATE_GENERATION in H. in_dict H.
Qed.

(** ** The matrix of a variance surface *)

Lemma for_each_app {S} (l1 l2 : list nat) (body : nat -> S -> Outcome S) s :
  for_each (l1 ++ l2) body s
  = (s' <~ for_each l1 body s ;; for_each l2 body s').
Proof.
  revert s. induction l1 as [|i l1 IH]; intros s; [reflexivity|].
  cbn [app for_each]. destruct (body i s); cbn [obind]; auto.
Qed.

Lemma cell_insert (m : list (list float)) row col r v i j :
  m !! row = Some r -> (col < length r)%nat ->
  cell (<[row := <[col := v]> r]> m) i j
  = if (Nat.eqb i row && Nat.eqb j col)%bool then Some v else cell m i j.
Proof.
  intros Hr Hc. unfold cell.
  destruct (Nat.eqb_spec i row) as [->|Hi].
  - rewrite list_lookup_insert_eq by (now apply lookup_lt_Some in Hr).
    rewrite Hr. cbn [andb].
    destruct (Nat.eqb_spec j col) as [->|Hj].
    + now rewrite list_lookup_insert_eq.
    + now rewrite list_lookup_insert_ne by congruence.
  - now rewrite list_lookup_insert_ne by congruence.
Qed.

Lemma rectangular_insert n (m : list (list float)) row r :
  rectangular n m -> length r = n -> rectangular n (<[row := r]> m).
Proof. intros Hm Hr. now apply Forall_insert. Qed.

Lemma rectangular_lookup n (m : list (list float)) row r :
  rectangular n m -> m !! row = Some r -> length r = n.
Proof. intros Hm Hr. exact (proj1 (Forall_lookup _ _) Hm _ _ Hr). Qed.

Section CopyMatrix.

Variable volatility_matrix : list (list float).
Variables rows cols : nat.

Let body (row col : nat) (m : list (list float)) :=
  v <~ getitem2 volatility_matrix row col ;; setitem2 m row col v.

Hypothesis array_is_rectangular :
  rectangular (shape1 volatility_matrix) volatility_matrix.

Lemma array_cell row col :
  (row < shape0 volatility_matrix)%nat ->
  (col < shape1 volatility_matrix)%nat ->
  exists v, cell volatility_matrix row col = Some v /\
            getitem2 volatility_matrix row col = Returns v.
Proof.
  intros Hr Hc. unfold cell, getitem2.
  destruct (lookup_lt_is_Some_2 volatility_matrix row Hr) as [r Er].
  rewrite Er.
  pose proof (rectangular_lookup _ _ _ _ array_is_rectangular Er) as Hl.
  destruct (lookup_lt_is_Some_2 r col ltac:(lia)) as [v Ev].
  rewrite Ev. eauto.
Qed.

(** The inner loop, from column [a] on. *)
Lemma copy_row row : forall k a m,
  length m = rows -> rectangular cols m ->
  (row < rows)%nat -> (row < shape0 volatility_matrix)%nat ->
  (a + k <= cols)%nat -> (a + k <= shape1 volatility_matrix)%nat ->
  exists m',
    for_each (seq a k) (body row) m = Returns m' /\
    length m' = rows /\ rectangular cols m' /\
    forall i j,
      cell m' i j
      = if (Nat.eqb i row && Nat.leb a j && Nat.ltb j (a + k))%bool
        then cell volatility_matrix i j else cell m i j.
Proof.
  induction k as [|k IH]; intros a m Hlen Hrect Hrow Hrow' Hc Hc'.
  - exists m. repeat split; auto. intros i j.
    destruct (Nat.eqb i row), (Nat.leb_spec a j), (Nat.ltb_spec j (a + 0));
      cbn; auto; lia.
  - cbn [seq for_each]. unfold body at 1.
    destruct (array_cell row a Hrow' ltac:(lia)) as (v & Hv & ->).
    cbn [obind]. unfold setitem2.
    destruct (lookup_lt_is_Some_2 m row ltac:(lia)) as [r Er]. rewrite Er.
    pose proof (rectangular_lookup _ _ _ _ Hrect Er) as Hl.
    destruct (Nat.ltb_spec a (length r)); [|lia].
    destruct (IH (S a) (<[row := <[a := v]> r]> m)) as (m' & E & L & R & C);
      try lia.
    { now rewrite length_insert. }
    { apply rectangular_insert; [assumption|]. now rewrite length_insert. }
    exists m'. repeat split; auto.
    intros i j. rewrite C, cell_insert by (auto; lia).
    destruct (Nat.eqb_spec i row) as [->|]; cbn [andb]; [|reflexivity].
    destruct (Nat.eqb_spec j a) as [->|].
    + destruct (Nat.leb_spec (S a) a), (Nat.leb_spec a a),
        (Nat.ltb_spec a (a + S k)); cbn; auto; lia.
    + destruct (Nat.leb_spec (S a) j), (Nat.leb_spec a j),
        (Nat.ltb_spec j (S a + k)), (Nat.ltb_spec j (a + S k));
        cbn; auto; lia.
Qed.

(** The outer loop, from row [a] on. *)
Lemma copy_rows : forall k a m,
  length m = rows -> rectangular cols m ->
  (a + k <= rows)%nat -> (a + k <= shape0 volatility_matrix)%nat ->
  (shape1 volatility_matrix <= cols)%nat ->
  exists m',
    for_each (seq a k)
      (fun row => for_each (seq 0 (shape1 volatility_matrix)) (body row)) m
    = Returns m' /\
    length m' = rows /\ rectangular cols m' /\
    forall i j,
      cell m' i j
      = if (Nat.leb a i && Nat.ltb i (a + k)
            && Nat.ltb j (shape1 volatility_matrix))%bool
        then cell volatility_matrix i j else cell m i j.
Proof.
  induction k as [|k IH]; intros a m Hlen Hrect Hr Hr' Hc.
  - exists m. repeat split; auto. intros i j.
    destruct (Nat.leb_spec a i), (Nat.ltb_spec i (a + 0)); cbn; auto; lia.
  - cbn [seq for_each].
    destruct (copy_row a (shape1 volatility_matrix) 0%nat m)
      as (m1 & -> & L1 & R1 & C1); try lia; auto.
    cbn [obind].
    destruct (IH (S a) m1) as (m' & E & L & R & C); try lia; auto.
    exists m'. repeat split; auto.
    intros i j. rewrite C, C1.
    destruct (Nat.eqb_spec i a) as [->|].
    + destruct (Nat.leb_spec (S a) a), (Nat.leb_spec a a),
        (Nat.ltb_spec a (a + S k)), (Nat.leb_spec 0 j),
        (Nat.ltb_spec j (0 + shape1 volatility_matrix)),
        (Nat.ltb_spec j (shape1 volatility_matrix)); cbn; auto; lia.
    + destruct (Nat.leb_spec (S a) i), (Nat.leb_spec a i),
        (Nat.ltb_spec i (S a + k)), (Nat.ltb_spec i (a + S k));
        cbn; auto; lia.
Qed.

Lemma copy_matrix_fits m :
  length m = rows -> rectangular cols m ->
  (shape0 volatility_matrix <= rows)%nat ->
  (shape1 volatility_matrix <= cols)%nat ->
  exists m',
    copy_matrix volatility_matrix m = Returns m' /\
    length m' = rows /\ rectangular cols m' /\
    forall i j,
      cell m' i j
      = if (Nat.ltb i (shape0 volatility_matrix)
            && Nat.ltb j (shape1 volatility_matrix))%bool
        then cell volatility_matrix i j else cell m i j.
Proof.
  intros Hlen Hrect Hr Hc.
  destruct (copy_rows (shape0 volatility_matrix) 0%nat m)
    as (m' & E & L & R & C); try lia; auto.
  exists m'. repeat split; auto.
Qed.

(** A column too many: the first row already fails. *)
Lemma copy_row_overflows row m :
  length m = rows -> rectangular cols m ->
  (row < shape0 volatility_matrix)%nat ->
  (0 < shape1 volatility_matrix)%nat ->
  (rows <= row \/ cols < shape1 volatility_matrix)%nat ->
  for_each (seq 0 (shape1 volatility_matrix)) (body row) m
  = Raises (Raised (IndexError "matrix indexes out of range")).
Proof.
  intros Hlen Hrect Hrow Hpos Hover.
  destruct (Nat.le_gt_cases rows row) as [Hout|Hin].
  - replace (shape1 volatility_matrix)
      with (S (shape1 volatility_matrix - 1))%nat at 1 by lia.
    cbn [seq for_each]. unfold body at 1.
    destruct (array_cell row 0%nat Hrow ltac:(lia)) as (v & _ & ->).
    cbn [obind]. unfold setitem2.
    rewrite (lookup_ge_None_2 m row) by lia. reflexivity.
  - destruct Hover as [|Hover]; [lia|].
    replace (shape1 volatility_matrix)
      with (cols + S (shape1 volatility_matrix - S cols))%nat at 1 by lia.
    rewrite seq_app, for_each_app.
    destruct (copy_row row cols 0%nat m) as (m1 & -> & L1 & R1 & _);
      try lia; auto.
    cbn [obind seq for_each Nat.add]. unfold body at 1.
    destruct (array_cell row cols Hrow ltac:(lia)) as (v & _ & ->).
    cbn [obind]. unfold setitem2.
    destruct (lookup_lt_is_Some_2 m1 row ltac:(lia)) as [r Er]. rewrite Er.
    rewrite (rectangular_lookup _ _ _ _ R1 Er).
    now rewrite Nat.ltb_irrefl.
Qed.

Lemma copy_matrix_overflows m :
  length m = rows -> rectangular cols m ->
  (0 < shape0 volatility_matrix)%nat ->
  (0 < shape1 volatility_matrix)%nat ->
  (rows < shape0 volatility_matrix \/ cols < shape1 volatility_matrix)%nat ->
  copy_matrix volatility_matrix m
  = Raises (Raised (IndexError "matrix indexes out of range")).
Proof.
  intros Hlen Hrect Hr Hc Hover. unfold copy_matrix.
  change (for_each (seq 0 (shape0 volatility_matrix))
            (fun row =>
               for_each (seq 0 (shape1 volatility_matrix)) (body row)) m
          = Raises (Raised (IndexError "matrix indexes out of range"))).
  destruct (Nat.le_gt_cases (shape1 volatility_matrix) cols) as [Hfit|Hwide].
  - destruct Hover as [Hover|]; [|lia].
    replace (shape0 volatility_matrix)
      with (rows + S (shape0 volatility_matrix - S rows))%nat at 1 by lia.
    rewrite seq_app, for_each_app.
    destruct (copy_rows rows 0%nat m) as (m1 & E & L1 & R1 & _);
      try lia; auto.
    rewrite E.
    cbn [obind seq for_each Nat.add].
    rewrite (copy_row_overflows rows m1); auto; lia.
  - replace (shape0 volatility_matrix)
      with (S (shape0 volatility_matrix - 1))%nat at 1 by lia.
    cbn [seq for_each].
    rewrite (copy_row_overflows 0%nat m); auto; lia.
Qed.

End CopyMatrix.

Lemma ql_Matrix_length rows cols held : length (ql_Matrix rows cols held) = rows.
Proof. unfold ql_Matrix. now rewrite length_map, length_seq. Qed.

Lemma ql_Matrix_rectangular rows cols held :
  rectangular cols (ql_Matrix rows cols held).
Proof.
  unfold ql_Matrix, rectangular. apply Forall_map, Forall_forall.
  intros i _. cbn. now rewrite length_map, length_seq.
Qed.

Lemma ql_Matrix_cell rows cols held i j :
  cell (ql_Matrix rows cols held) i j
  = if (Nat.ltb i rows && Nat.ltb j cols)%bool then Some (held i j) else None.
Proof.
  unfold cell, ql_Matrix. rewrite list_lookup_fmap.
  destruct (Nat.ltb_spec i rows) as [Hi|Hi]; cbn [andb].
  - rewrite lookup_seq_lt by assumption. cbn [fmap option_fmap option_map].
    rewrite list_lookup_fmap.
    destruct (Nat.ltb_spec j cols) as [Hj|Hj].
    + rewrite lookup_seq_lt by assumption. reflexivity.
    + rewrite lookup_seq_ge by assumption. reflexivity.
  - rewrite lookup_seq_ge by assumption. reflexivity.
Qed.

Section VarianceSurface.

Variable ql_check_surface : BlackVolTermStructure -> option string.
Variable held : nat -> nat -> float.
Variables evaluation_date : datetime.
Variables calendar day_counter : string.
Variable expirations : list datetime.
Variable strike_pries : list float.
Variable volatility_matrix : list (list float).
Variable ql_cal : Calendar.
Variable ql_dc : DayCounter.

Hypothesis calendar_known : ql_calendar calendar = Returns ql_cal.
Hypothesis day_counter_known : ql_day_counter day_counter = Returns ql_dc.
Hypothesis array_is_rectangular :
  rectangular (shape1 volatility_matrix) volatility_matrix.

(** X12.  black_variance_surface allocates a matrix of len(strike_pries)
    rows and len(expirations) columns and copies the array into it cell by
    cell over the array's own shape, which it never compares with the two
    lengths.  When the array has no more rows than there are strikes and no
    more columns than there are expirations, the call hands QuantLib's
    constructor a matrix that holds the array in its top-left block and,
    everywhere else, what ql.Matrix held on allocation: a smaller array is
    accepted and the remaining cells are never written. *)
Theorem smaller_array_leaves_cells_unwritten :
  (shape0 volatility_matrix <= length strike_pries)%nat ->
  (shape1 volatility_matrix <= length expirations)%nat ->
  exists ql_volatility_matrix,
    let surface :=
      BlackVarianceSurface (py_to_ql_date evaluation_date) ql_cal
        (map py_to_ql_date expirations) strike_pries ql_volatility_matrix
        ql_dc in
    black_variance_surface ql_check_surface held evaluation_date calendar
      expirations strike_pries volatility_matrix day_counter
    = checked (ql_check_surface surface) surface /\
    forall i j,
      cell ql_volatility_matrix i j
      = if (Nat.ltb i (shape0 volatility_matrix)
            && Nat.ltb j (shape1 volatility_matrix))%bool
        then cell volatility_matrix i j
        else if (Nat.ltb i (length strike_pries)
                 && Nat.ltb j (length expirations))%bool
             then Some (held i j)
             else None.
Proof.
  intros Hr Hc.
  destruct (copy_matrix_fits volatility_matrix (length strike_pries)
              (length (map py_to_ql_date expirations)) array_is_rectangular
              (ql_Matrix (length strike_pries)
                 (length (map py_to_ql_date expirations)) held))
    as (m' & E & _ & _ & C).
  { apply ql_Matrix_length. }
  { apply ql_Matrix_rectangular. }
  { exact Hr. }
  { now rewrite length_map. }
  exists m'. cbv zeta. split.
  - unfold black_variance_surface.
    rewrite calendar_known, day_counter_known. cbn [obind].
    rewrite E. reflexivity.
  - intros i j. rewrite C, ql_Matrix_cell, length_map. reflexivity.
Qed.

(** X13.  When the dates lie in the years QuantLib accepts, the array is not
    empty and has more rows than there are strikes or more columns than
    there are expirations, the copy runs off the matrix: the call raises
    QuantLib's IndexError from inside the loop, and no surface is built. *)
Theorem larger_array_raises_index_error :
  in_ql_range evaluation_date = true ->
  forallb in_ql_range expirations = true ->
  (0 < shape0 volatility_matrix)%nat ->
  (0 < shape1 volatility_matrix)%nat ->
  (length strike_pries < shape0 volatility_matrix
   \/ length expirations < shape1 volatility_matrix)%nat ->
  black_variance_surface ql_check_surface held evaluation_date calendar
    expirations strike_pries volatility_matrix day_counter
  = Raises (Raised (IndexError "matrix indexes out of range")).
Proof.
  intros _ _ Hr Hc Hover. unfold black_variance_surface.
  rewrite calendar_known, day_counter_known. cbn [obind].
  rewrite (copy_matrix_overflows volatility_matrix (length strike_pries)
             (length (map py_to_ql_date expirations)) array_is_rectangular);
    auto.
  - apply ql_Matrix_length.
  - apply ql_Matrix_rectangular.
  - now rewrite length_map.
Qed.

End VarianceSurface.

Lemma smaller_array_leaves_cells_unwritten_witness :
  exists m,
    black_variance_surface (fun _ => None) (fun _ _ => nan)
      (Sample.date 2025 1 1) "uk"
      [Sample.date 2025 7 1; Sample.date 2026 1 1] [90; 100]%float
      [[0.25]]%float "Act/360"
    = Returns
        (BlackVarianceSurface (py_to_ql_date (Sample.date 2025 1 1))
           UnitedKingdom
           [py_to_ql_date (Sample.date 2025 7 1);
            py_to_ql_date (Sample.date 2026 1 1)]
           [90; 100]%float m Actual360) /\
    cell m 0 0 = Some 0.25%float /\
    cell m 1 1 = Some nan.
Proof.
  destruct (smaller_array_leaves_cells_unwritten (fun _ => None)
              (fun _ _ => nan) (Sample.date 2025 1 1) "uk" "Act/360"
              [Sample.date 2025 7 1; Sample.date 2026 1 1] [90; 100]%float
              [[0.25]]%float UnitedKingdom Actual360 eq_refl eq_refl
              ltac:(repeat constructor) ltac:(cbn; lia) ltac:(cbn; lia))
    as (m & E & C).
  exists m. split; [exact E|]. split; rewrite C; reflexivity.
Defined.

Lemma larger_array_raises_index_error_witness :
  black_variance_surface (fun _ => None) (fun _ _ => nan)
    (Sample.date 2025 1 1) "uk"
    [Sample.date 2025 7 1; Sample.date 2026 1 1] [90; 100]%float
    [[0.25; 0.24; 0.23]]%float "Act/360"
  = Raises (Raised (IndexError "matrix indexes out of range")).
Proof.
  apply (larger_array_raises_index_error (fun _ => None) (fun _ _ => nan)
           (Sample.date 2025 1 1) "uk" "Act/360"
           [Sample.date 2025 7 1; Sample.date 2026 1 1] [90; 100]%float
           [[0.25; 0.24; 0.23]]%float UnitedKingdom Actual360 eq_refl eq_refl
           ltac:(repeat constructor) eq_refl eq_refl ltac:(cbn; lia)
           ltac:(cbn; lia) ltac:(right; cbn; lia)).
Defined.

(** ** Zero rates *)

Lemma comprehension_Returns {A B} (f : A -> Outcome B) l ys :
  comprehension f l = Returns ys <-> Forall2 (fun x y => f x = Returns y) l ys.
Proof.
  revert ys. induction l as [|x l IH]; intros ys; cbn [comprehension].
  - split.
    + intros [= <-]. constructor.
    + intros H. inversion H. reflexivity.
  - split.
    + destruct (f x) as [y|e] eqn:Ex; cbn [obind]; [|discriminate].
      destruct (comprehension f l) as [ys'|e] eqn:El; cbn [obind];
        [|discriminate].
      intros [= <-]. constructor; [exact Ex|]. now apply IH.
    + intros H. inversion H as [|? y ? ys' Hx Hl]; subst.
      rewrite Hx. cbn [obind]. apply IH in Hl. rewrite Hl. reflexivity.
Qed.

Lemma comprehension_stops {A B} (f : A -> Outcome B) before x after ys e :
  Forall2 (fun x y => f x = Returns y) before ys ->
  f x = Raises e ->
  comprehension f (before ++ x :: after) = Raises e.
Proof.
  intros Hb Hx. induction Hb as [|x0 y0 l ys' H0 Hl IH];
    cbn [app comprehension].
  - now rewrite Hx.
  - rewrite H0. cbn [obind]. now rewrite IH.
Qed.

Lemma of_res_Returns {A} (r : Res A) a : of_res r = Returns a <-> r = Ok a.
Proof. destruct r; cbn; split; congruence. Qed.


(** X15.  With both names known and every date in the years QuantLib
    accepts, zero_rates asks the curve date by date and stops at the first
    date the curve refuses: the call raises that date's exception, whatever
    rates came before and whatever dates come after. *)
Theorem zero_rates_raises_at_the_first_refused_date
  lib yield_curve day_counter compounding ql_dc ql_comp before date after
  rates e :
  forallb in_ql_range (before ++ date :: after) = true ->
  ql_day_counter day_counter = Returns ql_dc ->
  ql_compounding compounding = Returns ql_comp ->
  Forall2
    (fun date rate =>
       ql_zeroRate lib yield_curve (py_to_ql_date date) ql_dc ql_comp Annual
       = Ok rate)
    before rates ->
  ql_zeroRate lib yield_curve (py_to_ql_date date) ql_dc ql_comp Annual
  = Raise e ->
  zero_rates lib yield_curve (before ++ date :: after) day_counter compounding
  = Raises (Raised e).
Proof.
  intros _ Hdc Hcomp Hb Hx. unfold zero_rates. rewrite Hdc, Hcomp.
  cbn [obind]. rewrite map_app. cbn [map].
  apply comprehension_stops with (ys := rates).
  - apply Forall2_fmap_l. eapply Forall2_impl; [exact Hb|].
    intros d r Hr. now apply of_res_Returns.
  - now rewrite Hx.
Qed.

Lemma zero_rates_raises_at_the_first_refused_date_witness :
  zero_rates reference_dated_library (Sample.flat_curve 0.05)
    [Sample.date 2025 7 1; Sample.date 2024 12 31; Sample.date 2026 1 1]
    "act/360" "continuous"
  = Raises (Raised (RuntimeError "negative time given")).
Proof.
  apply (zero_rates_raises_at_the_first_refused_date reference_dated_library
           (Sample.flat_curve 0.05) "act/360" "continuous" Actual360
           Continuous [Sample.date 2025 7 1] (Sample.date 2024 12 31)
           [Sample.date 2026 1 1] [0.05%float]
           (RuntimeError "negative time given") eq_refl eq_refl eq_refl).
  - repeat constructor.
  - reflexivity.
Defined.

(** ** Failures of the structures *)

Section LegFailures.

Variable lib : Library.
Variables ev ex : datetime.
Variable fwd : float.
Variable et : string.
Variable steps : option Z.
Variable vol : BlackVolTermStructure.
Variable curve : YieldTermStructure.

Let leg (K : float) (ot : string) : M DataFrame :=
  comdty_vanilla_option lib ev ex fwd K ot et steps vol curve.

(** X16.  The spread, the collar and the butterfly add no failure of their
    own to those of their legs.  Each prices its legs one after the other
    (long then short; call then put; low, middle, high) and stops at the
    first leg that raises, with that leg's exception and the state that leg
    left, the later legs never priced; when every leg returns a frame, the
    structure returns one, in the state the last leg left. *)
Theorem structures_fail_only_where_a_leg_fails ot w :
  (forall K_long K_short,
     fails_only_with
       (comdty_vanilla_option_spread lib ev ex fwd K_long K_short ot et steps
          vol curve w)
       (in_sequence [leg K_long ot; leg K_short ot] w)) /\
  (forall K_call K_put,
     fails_only_with
       (comdty_vanilla_option_collar lib ev ex fwd K_call K_put et steps vol
          curve w)
       (in_sequence [leg K_call "CALL"; leg K_put "PUT"] w)) /\
  (forall K_low K_middle K_high,
     fails_only_with
       (comdty_vanilla_option_butterfly lib ev ex fwd K_low K_middle K_high ot
          et steps vol curve w)
       (in_sequence [leg K_low ot; leg K_middle ot; leg K_high ot] w)).
Proof.
  unfold fails_only_with, leg. cbn [in_sequence]. repeat apply conj.
  all: intros.
  - unfold comdty_vanilla_option_spread.
    destruct (comdty_vanilla_option lib ev ex fwd K_long ot et steps vol
                curve w)
      as [[L|e] w1] eqn:E1;
      [|rewrite !(bind_raise _ _ _ _ _ E1); now split].
    rewrite !(bind_run _ _ _ _ _ E1), ?bind_assoc.
    destruct (comdty_vanilla_option lib ev ex fwd K_short ot et steps vol
                curve w1)
      as [[S|e] w2] eqn:E2;
      [|rewrite !(bind_raise _ _ _ _ _ E2); now split].
    rewrite !(bind_run _ _ _ _ _ E2), ?bind_assoc.
    destruct (option_frame_rows _ _ _ _ _ _ _ _ _ _ _ _ _ E1) as (l & ->).
    destruct (option_frame_rows _ _ _ _ _ _ _ _ _ _ _ _ _ E2) as (s & ->).
    rewrite spread_of_rows. now split.
  - unfold comdty_vanilla_option_collar.
    destruct (comdty_vanilla_option lib ev ex fwd K_call "CALL" et steps vol
                curve w)
      as [[C|e] w1] eqn:E1;
      [|rewrite !(bind_raise _ _ _ _ _ E1); now split].
    rewrite !(bind_run _ _ _ _ _ E1), ?bind_assoc.
    destruct (comdty_vanilla_option lib ev ex fwd K_put "PUT" et steps vol
                curve w1)
      as [[P|e] w2] eqn:E2;
      [|rewrite !(bind_raise _ _ _ _ _ E2); now split].
    rewrite !(bind_run _ _ _ _ _ E2), ?bind_assoc.
    destruct (option_frame_rows _ _ _ _ _ _ _ _ _ _ _ _ _ E1) as (c & ->).
    destruct (option_frame_rows _ _ _ _ _ _ _ _ _ _ _ _ _ E2) as (p & ->).
    rewrite collar_of_rows. now split.
  - unfold comdty_vanilla_option_butterfly.
    destruct (comdty_vanilla_option lib ev ex fwd K_low ot et steps vol
                curve w)
      as [[L|e] w1] eqn:E1;
      [|rewrite !(bind_raise _ _ _ _ _ E1); now split].
    rewrite !(bind_run _ _ _ _ _ E1), ?bind_assoc.
    destruct (comdty_vanilla_option lib ev ex fwd K_middle ot et steps vol
                curve w1)
      as [[Mi|e] w2] eqn:E2;
      [|rewrite !(bind_raise _ _ _ _ _ E2); now split].
    rewrite !(bind_run _ _ _ _ _ E2), ?bind_assoc.
    destruct (comdty_vanilla_option lib ev ex fwd K_high ot et steps vol
                curve w2)
      as [[Hi|e] w3] eqn:E3;
      [|rewrite !(bind_raise _ _ _ _ _ E3); now split].
    rewrite !(bind_run _ _ _ _ _ E3).
    destruct (option_frame_rows _ _ _ _ _ _ _ _ _ _ _ _ _ E1) as (lo & ->).
    destruct (option_frame_rows _ _ _ _ _ _ _ _ _ _ _ _ _ E2) as (mi & ->).
    destruct (option_frame_rows _ _ _ _ _ _ _ _ _ _ _ _ _ E3) as (hi & ->).
    rewrite butterfly_of_rows. now split.
Qed.

End LegFailures.
